(** * Agent-S multi-agent QA: the orchestration core, embedded and verified

  A shallow embedding of the planner / executor / verifier / supervisor
  pipeline of the repository (src/agents, src/utils, src/tests and the
  planner, executor and environment wrapper of src/multi_agent_qa), with
  the properties of its status fold, replanning trigger, plan execution,
  tap grounding, UI-tree flattening, message routing and control loop.

  Conventions of the embedding:
  - a Python [dict] with a known set of keys is a record; a key that a
    writer may leave out is an [option] field, read as the code reads it,
    with [d.get(key, default)];
  - Python [str] is [string] (ASCII), Python [int] is [Z], Python [float]
    is the kernel's binary64 [float];
  - code that may raise returns a [res], beside the state it leaves;
  - a nested function that appends to a list of its enclosing function
    takes that list and returns it;
  - collaborators outside the repository (the language-model client, the
    Android environment, [json.loads], [float], [time.sleep], the prompt
    texts) are Section variables. *)

From Stdlib Require Import List String Ascii ZArith Bool Lia Permutation.
From Stdlib Require Import Floats DecimalString.

Set Warnings "-register-all,-inexact-float,-notation-for-abbreviation".
Import ListNotations.

Local Open Scope string_scope.
Local Open Scope list_scope.

(** ** Python truthiness and membership *)

Module Py.

(** [bool(s)] for a string: the empty string is falsy. *)
Definition truthy_str (s : string) : bool :=
  match s with
  | EmptyString => false
  | String _ _ => true
  end.

(** [bool(d.get(k))] for an optional string: absent (None) is falsy. *)
Definition truthy_opt_str (o : option string) : bool :=
  match o with
  | Some s => truthy_str s
  | None => false
  end.

(** [bool(d.get(k, False))] for an optional boolean. *)
Definition truthy_opt_bool (o : option bool) : bool :=
  match o with
  | Some b => b
  | None => false
  end.

(** [x in xs] on a list of strings (comparison by [==]). *)
Definition str_in (x : string) (xs : list string) : bool :=
  existsb (String.eqb x) xs.

End Py.

(** ** Python string operations

    The handful of [str] methods the agents use, on ASCII text. *)

Module PyStr.

(** [c.lower()] for one character: A-Z move to a-z. *)
Definition lower_ascii (c : ascii) : ascii :=
  let n := nat_of_ascii c in
  if (65 <=? n)%nat && (n <=? 90)%nat then ascii_of_nat (n + 32) else c.

(** [s.lower()] *)
Fixpoint lower (s : string) : string :=
  match s with
  | EmptyString => EmptyString
  | String c rest => String (lower_ascii c) (lower rest)
  end.

(** [sub in s]: [sub] occurs in [s] as a contiguous run. *)
Fixpoint contains (sub s : string) : bool :=
  if String.prefix sub s then true
  else match s with
       | EmptyString => false
       | String _ rest => contains sub rest
       end.

(** [s.replace(old, new)] for a non-empty [old], scanning left to right
    without overlap; [skip] counts the characters of a match still to drop. *)
Fixpoint replace_from (old new s : string) (skip : nat) : string :=
  match s with
  | EmptyString => EmptyString
  | String c rest =>
      match skip with
      | S k => replace_from old new rest k
      | O =>
          if String.prefix old s
          then new ++ replace_from old new rest (String.length old - 1)
          else String c (replace_from old new rest 0)
      end
  end.

(** [s.replace('', new)] puts [new] before every character and at the end. *)
Fixpoint intersperse_all (new s : string) : string :=
  match s with
  | EmptyString => new
  | String c rest => new ++ String c (intersperse_all new rest)
  end.

Definition replace (old new s : string) : string :=
  match old with
  | EmptyString => intersperse_all new s
  | String _ _ => replace_from old new s 0
  end.

(** [c.isspace()] on ASCII: tab to carriage return, the four separators
    FS GS RS US, and the space. *)
Definition is_space (c : ascii) : bool :=
  let n := nat_of_ascii c in
  ((9 <=? n)%nat && (n <=? 13)%nat) || ((28 <=? n)%nat && (n <=? 32)%nat).

Fixpoint lstrip (s : string) : string :=
  match s with
  | EmptyString => EmptyString
  | String c rest => if is_space c then lstrip rest else s
  end.

Fixpoint rev_append (s acc : string) : string :=
  match s with
  | EmptyString => acc
  | String c rest => rev_append rest (String c acc)
  end.

Definition rev (s : string) : string := rev_append s EmptyString.

Definition rstrip (s : string) : string := rev (lstrip (rev s)).

(** [s.strip()] *)
Definition strip (s : string) : string := rstrip (lstrip s).

(** [s.split()]: the maximal runs of non-space characters, in order.
    [cur] is the run being read, reversed. *)
Fixpoint split_from (s cur : string) : list string :=
  match s with
  | EmptyString =>
      match cur with
      | EmptyString => []
      | String _ _ => [rev cur]
      end
  | String c rest =>
      if is_space c
      then match cur with
           | EmptyString => split_from rest EmptyString
           | String _ _ => rev cur :: split_from rest EmptyString
           end
      else split_from rest (String c cur)
  end.

Definition split (s : string) : list string := split_from s EmptyString.

(** [sep.join(parts)] *)
Fixpoint join (sep : string) (parts : list string) : string :=
  match parts with
  | [] => EmptyString
  | [p] => p
  | p :: rest => p ++ sep ++ join sep rest
  end.

End PyStr.

(** ** Exceptions

    Code that can raise returns [res]; [Raise] carries the exception class
    the interpreter would report. *)

Inductive exn : Type :=
| KeyError (key : string)
| IndexError
| ValueError
| AttributeError (attribute : string)
| TypeError
| NameError (name : string).

Inductive res (A : Type) : Type :=
| Ok (a : A)
| Raise (e : exn).

Arguments Ok {A} a.
Arguments Raise {A} e.

(** ** The UI tree

    The environment's [ui_tree] is a nested dict.  Each of the eight keys the
    repository reads may be present or absent; every reader goes through
    [node.get(key, default)].  Keys the repository never reads are not
    represented. *)

Inductive node : Type :=
Node {
  n_class : option string;
  n_text : option string;
  n_content_desc : option string;
  n_resource_id : option string;
  n_bounds : option (list Z);
  n_clickable : option bool;
  n_scrollable : option bool;
  n_children : option (list node)
}.

Module Ui.

(** [d.get(key, '')] *)
Definition get_str (o : option string) : string :=
  match o with
  | Some s => s
  | None => EmptyString
  end.

(** [d.get(key, [])] *)
Definition get_list {A : Type} (o : option (list A)) : list A :=
  match o with
  | Some l => l
  | None => []
  end.

(** [d.get(key, False)] *)
Definition get_bool (o : option bool) : bool :=
  match o with
  | Some b => b
  | None => false
  end.

Definition is_some {A : Type} (o : option A) : bool :=
  match o with
  | Some _ => true
  | None => false
  end.

(** [bool(node)]: a dict is truthy when it has a key. *)
Definition truthy_node (n : node) : bool :=
  is_some (n_class n) || is_some (n_text n) || is_some (n_content_desc n)
  || is_some (n_resource_id n) || is_some (n_bounds n) || is_some (n_clickable n)
  || is_some (n_scrollable n) || is_some (n_children n).

(** A node whose only keys are a text and children. *)
Definition labelled (text : string) (children : list node) : node :=
  {| n_class := None; n_text := Some text; n_content_desc := None;
     n_resource_id := None; n_bounds := None; n_clickable := None;
     n_scrollable := None; n_children := Some children |}.

(** A leaf with a text and bounds. *)
Definition widget (text : string) (bounds : list Z) : node :=
  {| n_class := None; n_text := Some text; n_content_desc := None;
     n_resource_id := None; n_bounds := Some bounds; n_clickable := None;
     n_scrollable := None; n_children := None |}.

(** A container without any identifying key. *)
Definition anonymous (children : list node) : node :=
  {| n_class := None; n_text := None; n_content_desc := None;
     n_resource_id := None; n_bounds := None; n_clickable := None;
     n_scrollable := None; n_children := Some children |}.

End Ui.

(** ** Messages between the agents: plan steps and execution results *)

Module Data.

(** One step of a plan.  [action], [target] and [verification] are read with
    [step[...]]; [text] and [fallback] with [step.get(...)]. *)
Record step : Type := {
  action : string;
  target : string;
  text : option string;
  verification : string;
  fallback : option string
}.

(** The [details] dict of an execution result, one shape per writer. *)
Inductive details : Type :=
| DError (error : string)
| DTapped (x y : Z) (element : string)
| DScrolled (direction : string) (distance : Z)
| DWaited (waited : string).

(** [details.get('error', 'Unknown error')] *)
Definition details_error (d : details) : string :=
  match d with
  | DError e => e
  | _ => "Unknown error"
  end.

(** What the executor submits to [env.step]. *)
Inductive env_action : Type :=
| Touch (x y : Z)
| Swipe (start_x start_y end_x end_y : Z) (duration : Z).

Section WithPixels.

(** The screenshot raster; no agent looks inside it. *)
Variable pixels : Type.

(** The dict [env.observe()] returns. *)
Record observation : Type := {
  o_pixels : option pixels;
  o_ui_tree : option node;
  o_screen_height : option Z;
  o_screen_width : option Z
}.

(** One entry of the executor's [results]. *)
Record result : Type := {
  r_step : step;
  success : bool;
  r_details : details;
  screenshot : option pixels;
  ui_hierarchy : option node
}.

End WithPixels.

Arguments o_pixels {pixels} _.
Arguments o_ui_tree {pixels} _.
Arguments o_screen_height {pixels} _.
Arguments o_screen_width {pixels} _.
Arguments r_step {pixels} _.
Arguments success {pixels} _.
Arguments r_details {pixels} _.
Arguments screenshot {pixels} _.
Arguments ui_hierarchy {pixels} _.

End Data.

(** ** The language-model client (BaseAgent.llm_client) *)

Module Llm.

Section WithClient.

(** [generate] maps a prompt to a response and may change the client's own
    state. *)
Variable client : Type.
Variable generate : string -> client -> string * client.

(** The client together with the record of the prompts it was sent. *)
Record session : Type := {
  llm : client;
  consulted : list string
}.

(** [self.llm_client.generate(prompt)] *)
Definition ask (prompt : string) (w : session) : string * session :=
  let (response, c) := generate prompt (llm w) in
  (response, {| llm := c; consulted := consulted w ++ [prompt] |}).

End WithClient.

Arguments llm {client} _.
Arguments consulted {client} _.

End Llm.

(** ** Verifier (src/agents/verifier_agent.py) *)

Module Verifier.

(** One entry of [verification_results].  Entries come from three places
    (the execution-failure literal, the decoded model answer, the
    heuristic) that do not write the same keys, so every key is optional. *)
Record verification : Type := {
  status : option string;
  reason : option string;
  confidence : option float;
  needs_replanning : option bool;
  error : option string;
  step_num : option nat;
  current_state : option node
}.

(** [r.get('status', 'UNKNOWN')] *)
Definition status_or_unknown (r : verification) : string :=
  match status r with
  | Some s => s
  | None => "UNKNOWN"
  end.

Definition statuses_of (verification_results : list verification) : list string :=
  map status_or_unknown verification_results.

Definition _determine_overall_status (verification_results : list verification) : string :=
  let statuses := statuses_of verification_results in
  if Py.str_in "BUG_DETECTED" statuses then "BUG_DETECTED"
  else if Py.str_in "FAILED" statuses then "FAILED"
  else if forallb (fun s => String.eqb s "PASSED") statuses then "PASSED"
  else "PARTIAL_PASS".

(** [result.get('status') == 'FAILED'] *)
Definition status_is (r : verification) (s : string) : bool :=
  match status r with
  | Some s' => String.eqb s' s
  | None => false
  end.

(** [result.get('confidence', 0) > 0.7] *)
Definition confidence_above (r : verification) (threshold : float) : bool :=
  match confidence r with
  | Some c => PrimFloat.ltb threshold c
  | None => PrimFloat.ltb threshold 0%float
  end.

Fixpoint _needs_replanning (verification_results : list verification) : bool :=
  match verification_results with
  | [] => false
  | result :: rest =>
      if Py.truthy_opt_bool (needs_replanning result) then true
      else if status_is result "FAILED" && confidence_above result 0.7%float then true
      else _needs_replanning rest
  end.

(** The replanning condition on one entry, as a proposition: the entry
    carries [needs_replanning = True], or it is FAILED with a confidence
    strictly above 0.7. *)
Definition triggers (r : verification) : Prop :=
  needs_replanning r = Some true \/
  (status r = Some "FAILED" /\
   exists c, confidence r = Some c /\ PrimFloat.ltb 0.7%float c = true).

(** Replace the [i]-th entry's status, as [results[i]['status'] = s]. *)
Definition with_status (s : string) (r : verification) : verification :=
  {| status := Some s; reason := reason r; confidence := confidence r;
     needs_replanning := needs_replanning r; error := error r;
     step_num := step_num r; current_state := current_state r |}.

Fixpoint set_status_at (i : nat) (s : string) (rs : list verification) : list verification :=
  match rs, i with
  | [], _ => []
  | r :: rest, O => with_status s r :: rest
  | r :: rest, S j => r :: set_status_at j s rest
  end.

(** *** Text extraction and the heuristic *)

(** The inner [extract] of [_extract_all_text], threading the [texts] list
    it appends to. *)
Fixpoint extract (n : node) (texts : list string) : list string :=
  match n with
  | Node _ t d _ _ _ _ ch =>
      let texts1 := if Py.truthy_opt_str t then texts ++ [Ui.get_str t] else texts in
      let texts2 := if Py.truthy_opt_str d then texts1 ++ [Ui.get_str d] else texts1 in
      match ch with
      | Some cs => fold_left (fun acc child => extract child acc) cs texts2
      | None => texts2
      end
  end.

Definition _extract_all_text (ui_tree : node) : string :=
  PyStr.join " " (extract ui_tree []).

(** The answer every unverified expectation ends in. *)
Definition could_not_verify : verification :=
  {| status := Some "FAILED"; reason := Some "Could not verify expected outcome";
     confidence := Some 0.3%float; needs_replanning := None; error := None;
     step_num := None; current_state := None |}.

Definition passed_because (why : string) : verification :=
  {| status := Some "PASSED"; reason := Some why;
     confidence := None; needs_replanning := None; error := None;
     step_num := None; current_state := None |}.

Definition _heuristic_verification (expected : string) (ui_tree : node) : verification :=
  let expected_lower := PyStr.lower expected in
  let ui_text := PyStr.lower (_extract_all_text ui_tree) in
  if PyStr.contains "visible" expected_lower || PyStr.contains "open" expected_lower then
    let key_words :=
      PyStr.strip (PyStr.replace "open" "" (PyStr.replace "visible" "" expected_lower)) in
    if existsb (fun word => PyStr.contains word ui_text) (PyStr.split key_words)
    then passed_because "Expected content found"
    else could_not_verify
  else if PyStr.contains "on" expected_lower || PyStr.contains "off" expected_lower then
    if PyStr.contains "wifi is now on" expected_lower && PyStr.contains "on" ui_text
    then passed_because "WiFi toggle is ON"
    else if PyStr.contains "wifi is now off" expected_lower && PyStr.contains "off" ui_text
    then passed_because "WiFi toggle is OFF"
    else could_not_verify
  else could_not_verify.

(** The two pattern families the heuristic recognises in an expectation. *)
Definition presence_family (expected : string) : bool :=
  PyStr.contains "visible" (PyStr.lower expected)
  || PyStr.contains "open" (PyStr.lower expected).

Definition toggle_family (expected : string) : bool :=
  PyStr.contains "on" (PyStr.lower expected)
  || PyStr.contains "off" (PyStr.lower expected).

(** *** Verifying a run *)

Definition with_step_num (i : nat) (v : verification) : verification :=
  {| status := status v; reason := reason v; confidence := confidence v;
     needs_replanning := needs_replanning v; error := error v;
     step_num := Some i; current_state := current_state v |}.

Definition with_current_state (st : option node) (v : verification) : verification :=
  {| status := status v; reason := reason v; confidence := confidence v;
     needs_replanning := needs_replanning v; error := error v;
     step_num := step_num v; current_state := st |}.

(** The literal written for a step whose execution failed. *)
Definition execution_failed (i : nat) (d : Data.details) : verification :=
  {| status := Some "FAILED"; reason := None; confidence := None;
     needs_replanning := Some true; error := Some (Data.details_error d);
     step_num := Some i; current_state := None |}.

Section WithClient.

Variable pixels : Type.

Variable client : Type.
Variable generate : string -> client -> string * client.

Local Notation session := (Llm.session client).
Local Notation ask := (Llm.ask client generate).

(** The prompt text of [_verify_step_outcome], built from the expectation
    and the printed UI tree. *)
Variable verify_prompt : string -> option node -> string.

(** [json.loads(response)] read as a verification dict; [None] when the call
    raises.  (The module never imports [json], so in the repository as it
    stands the name lookup itself raises and the bare [except] takes over;
    nothing below depends on which responses decode.) *)
Variable json_loads : string -> option verification.

Definition _verify_step_outcome (expected : string) (ui_tree : option node)
    (shot : option pixels) (w : session) : res verification * session :=
  let prompt := verify_prompt expected ui_tree in
  let (response, w1) := ask prompt w in
  match json_loads response with
  | Some v => (Ok v, w1)
  | None =>
      match ui_tree with
      | Some tree => (Ok (_heuristic_verification expected tree), w1)
      | None => (Raise (AttributeError "get"), w1)
      end
  end.

(** The body of the loop of [_verify_results], up to the assignment of
    [step_num]. *)
Definition classify (i : nat) (st : Data.step) (r : Data.result pixels)
    (w : session) : res verification * session :=
  if negb (Data.success r) then
    (Ok (execution_failed i (Data.r_details r)), w)
  else
    match _verify_step_outcome (Data.verification st) (Data.ui_hierarchy r)
            (Data.screenshot r) w with
    | (Ok v, w1) => (Ok (with_step_num i v), w1)
    | (Raise e, w1) => (Raise e, w1)
    end.

(** The loop over [enumerate(zip(plan, results))]. *)
Fixpoint verify_from (i : nat) (plan : list Data.step) (results : list (Data.result pixels))
    (verification_results : list verification) (w : session)
    : res (list verification) * session :=
  match plan, results with
  | st :: plan', r :: results' =>
      match classify i st r w with
      | (Ok v, w1) =>
          verify_from (S i) plan' results'
            (verification_results ++ [with_current_state (Data.ui_hierarchy r) v]) w1
      | (Raise e, w1) => (Raise e, w1)
      end
  | _, _ => (Ok verification_results, w)
  end.

Definition _verify_results (plan : list Data.step) (results : list (Data.result pixels))
    (w : session) : res (list verification) * session :=
  verify_from 0 plan results [] w.

(** The prompts one pass over the zipped plan and results sends: one per
    step whose execution succeeded, none for the others. *)
Fixpoint prompts_for (plan : list Data.step) (results : list (Data.result pixels))
    : list string :=
  match plan, results with
  | st :: plan', r :: results' =>
      if Data.success r
      then verify_prompt (Data.verification st) (Data.ui_hierarchy r)
             :: prompts_for plan' results'
      else prompts_for plan' results'
  | _, _ => []
  end.

End WithClient.

End Verifier.

(** ** Executor (src/agents/executor_agent.py) *)

Module Executor.

Import Data.

(** The dict [{}] that [observation.get('ui_tree', {})] defaults to. *)
Definition empty_node : node :=
  {| n_class := None; n_text := None; n_content_desc := None;
     n_resource_id := None; n_bounds := None; n_clickable := None;
     n_scrollable := None; n_children := None |}.

(** The inner [search_tree] of [_find_ui_element]: the node itself when the
    target occurs in its text, description or id, else the first truthy
    result among its children, in order. *)
Fixpoint search_tree (target_lower : string) (n : node) : option node :=
  match n with
  | Node _ t d rid _ _ _ ch =>
      let node_text := PyStr.lower (Ui.get_str t) in
      let node_desc := PyStr.lower (Ui.get_str d) in
      let node_id := PyStr.lower (Ui.get_str rid) in
      if PyStr.contains target_lower node_text
         || PyStr.contains target_lower node_desc
         || PyStr.contains target_lower node_id
      then Some n
      else
        match ch with
        | Some cs =>
            (fix search_children (children : list node) : option node :=
               match children with
               | [] => None
               | child :: rest =>
                   match search_tree target_lower child with
                   | Some found =>
                       if Ui.truthy_node found then Some found
                       else search_children rest
                   | None => search_children rest
                   end
               end) cs
        | None => None
        end
  end.

Definition _find_ui_element (target : string) (ui_tree : node) : option node :=
  search_tree (PyStr.lower target) ui_tree.

(** [if not element]: no result, or an empty dict. *)
Definition found_element (o : option node) : option node :=
  match o with
  | Some element => if Ui.truthy_node element then Some element else None
  | None => None
  end.

Section WithEnv.

Variable pixels : Type.

(** The Android environment: [observe] reads the screen, [env_step]
    performs an action; both may change the environment. *)
Variable env : Type.
Variable observe : env -> observation pixels * env.
Variable env_step : env_action -> env -> env.

(** [float(token)] and [time.sleep(seconds)], which raise on text that is
    not a number and on a negative or non-finite duration. *)
Variable py_float : string -> res float.
Variable sleep : float -> env -> res env.

(** [observation.get('ui_tree', {})] *)
Definition searched_tree (obs : observation pixels) : node :=
  match o_ui_tree obs with
  | Some tree => tree
  | None => empty_node
  end.

Definition _execute_tap (target : string) (obs : observation pixels) (e : env)
    : (bool * details) * env :=
  let ui_tree := searched_tree obs in
  match found_element (_find_ui_element target ui_tree) with
  | None => ((false, DError ("Could not find element: " ++ target)), e)
  | Some element =>
      match Ui.get_list (n_bounds element) with
      | [b0; b1; b2; b3] =>
          let x := ((b0 + b2) / 2)%Z in
          let y := ((b1 + b3) / 2)%Z in
          let e1 := env_step (Touch x y) e in
          ((true, DTapped x y (Ui.get_str (n_text element))), e1)
      | _ => ((false, DError "Invalid element bounds"), e)
      end
  end.

Definition _execute_scroll (target : string) (obs : observation pixels) (e : env)
    : (bool * details) * env :=
  let screen_height := match o_screen_height obs with
                       | Some h => h
                       | None => 1920%Z
                       end in
  let screen_width := match o_screen_width obs with
                      | Some w => w
                      | None => 1080%Z
                      end in
  let start_x := (screen_width / 2)%Z in
  let start_y := (screen_height * 3 / 4)%Z in
  let end_x := (screen_width / 2)%Z in
  let end_y := (screen_height / 4)%Z in
  let e1 := env_step (Swipe start_x start_y end_x end_y 500) e in
  ((true, DScrolled "down" (start_y - end_y)%Z), e1).

(** The executor's own mutable fields next to the environment. *)
Record agent : Type := {
  a_env : env;
  current_observation : option (observation pixels)
}.

(** The dispatch on [step['action']] inside the loop of [_execute_plan]. *)
Definition perform (st : step) (obs : observation pixels) (e : env)
    : res (bool * details) * env :=
  if String.eqb (action st) "tap" then
    let (outcome, e1) := _execute_tap (target st) obs e in (Ok outcome, e1)
  else if String.eqb (action st) "scroll" then
    let (outcome, e1) := _execute_scroll (target st) obs e in (Ok outcome, e1)
  else if String.eqb (action st) "type" then
    (* the class defines no [_execute_type] *)
    (Raise (AttributeError "_execute_type"), e)
  else if String.eqb (action st) "wait" then
    match PyStr.split (target st) with
    | [] => (Raise IndexError, e)
    | token :: _ =>
        match py_float token with
        | Raise ex => (Raise ex, e)
        | Ok seconds =>
            match sleep seconds e with
            | Raise ex => (Raise ex, e)
            | Ok e1 => (Ok (true, DWaited (target st)), e1)
            end
        end
    end
  else (Ok (false, DError ("Unknown action: " ++ action st)), e).

(** The actions whose branch of the dispatch contains no call that can
    raise: taps, scrolls, and names the dispatch does not know. *)
Definition taps_and_scrolls (st : step) : bool :=
  negb (String.eqb (action st) "type") && negb (String.eqb (action st) "wait").

(** One turn of the loop, up to [results.append(result)]. *)
Definition execute_step (st : step) (a : agent) : res (result pixels) * agent :=
  let (obs, e1) := observe (a_env a) in
  match perform st obs e1 with
  | (Raise ex, e2) => (Raise ex, {| a_env := e2; current_observation := Some obs |})
  | (Ok (ok, det), e2) =>
      (Ok {| r_step := st; success := ok; r_details := det;
             screenshot := o_pixels obs; ui_hierarchy := o_ui_tree obs |},
       {| a_env := e2; current_observation := Some obs |})
  end.

(** [not success and not step.get('fallback')] *)
Definition stops_here (r : result pixels) : bool :=
  negb (success r) && negb (Py.truthy_opt_str (fallback (r_step r))).

(** The loop of [_execute_plan] over the steps still to run. *)
Fixpoint execute_from (plan : list step) (results : list (result pixels)) (a : agent)
    : res (list (result pixels)) * agent :=
  match plan with
  | [] => (Ok results, a)
  | st :: rest =>
      match execute_step st a with
      | (Raise ex, a1) => (Raise ex, a1)
      | (Ok r, a1) =>
          if stops_here r then (Ok (results ++ [r]), a1)
          else execute_from rest (results ++ [r]) a1
      end
  end.

Definition _execute_plan (plan : list step) (a : agent)
    : res (list (result pixels)) * agent :=
  execute_from plan [] a.

(** The executor after it has looked at the screen and nothing else. *)
Definition observed (a : agent) : agent :=
  {| a_env := snd (observe (a_env a));
     current_observation := Some (fst (observe (a_env a))) |}.

End WithEnv.

Arguments a_env {pixels env} _.
Arguments current_observation {pixels env} _.

End Executor.

(** ** The second executor (src/multi_agent_qa/agents/executor_agent.py) *)

Module Executor2.

(** An entry of [ui_state["ui_elements"]]; every key is read with [get]. *)
Record element : Type := {
  e_text : option string;
  e_id : option string;
  e_class : option string;
  e_type : option string;
  e_bounds : option (list Z)
}.

(** [element.get("bounds", [0, 0, 100, 100])], then the centre of the first
    four components, or the middle of the screen. *)
Definition _get_element_center (el : element) : Z * Z :=
  let bounds := match e_bounds el with
                | Some b => b
                | None => [0; 0; 100; 100]%Z
                end in
  match bounds with
  | b0 :: b1 :: b2 :: b3 :: _ =>
      let center_x := ((b0 + b2) / 2)%Z in
      let center_y := ((b1 + b3) / 2)%Z in
      (center_x, center_y)
  | _ => (400, 400)%Z
  end.

(** [bool(element)]: a dict is truthy when it has a key. *)
Definition truthy_element (el : element) : bool :=
  Ui.is_some (e_text el) || Ui.is_some (e_id el) || Ui.is_some (e_class el)
  || Ui.is_some (e_type el) || Ui.is_some (e_bounds el).

(** A matching criterion: a dict with one of four keys, tested in this
    order by [_element_matches_criterion]. *)
Record criterion : Type := {
  text_contains : option string;
  id_contains : option string;
  class_contains : option string;
  type_is : option string
}.

Definition by_text (s : string) : criterion :=
  {| text_contains := Some s; id_contains := None; class_contains := None;
     type_is := None |}.

Definition by_id (s : string) : criterion :=
  {| text_contains := None; id_contains := Some s; class_contains := None;
     type_is := None |}.

Definition by_class (s : string) : criterion :=
  {| text_contains := None; id_contains := None; class_contains := Some s;
     type_is := None |}.

Definition by_type (s : string) : criterion :=
  {| text_contains := None; id_contains := None; class_contains := None;
     type_is := Some s |}.

Definition _element_matches_criterion (el : element) (c : criterion) : bool :=
  match text_contains c with
  | Some s => PyStr.contains (PyStr.lower s) (PyStr.lower (Ui.get_str (e_text el)))
  | None =>
      match id_contains c with
      | Some s => PyStr.contains (PyStr.lower s) (PyStr.lower (Ui.get_str (e_id el)))
      | None =>
          match class_contains c with
          | Some s =>
              PyStr.contains (PyStr.lower s) (PyStr.lower (Ui.get_str (e_class el)))
          | None =>
              match type_is c with
              | Some s => String.eqb (Ui.get_str (e_type el)) s
              | None => false
              end
          end
      end
  end.

(** The UI state the executor plans against; [ui_elements] is read with
    [ui_state.get("ui_elements", [])]. *)
Record ui_state : Type := {
  ui_elements : option (list element)
}.

(** Criteria in the outer loop, elements in the inner one. *)
Fixpoint find_from (elements : list element) (criteria_list : list criterion)
    : option element :=
  match criteria_list with
  | [] => None
  | c :: rest =>
      match find (fun el => _element_matches_criterion el c) elements with
      | Some el => Some el
      | None => find_from elements rest
      end
  end.

Definition _find_element_by_criteria (st : ui_state) (criteria_list : list criterion)
    : option element :=
  find_from (Ui.get_list (ui_elements st)) criteria_list.

(** Coordinates are a tuple when they come from [_get_element_center] and a
    list when they come from the fallback table. *)
Inductive coords : Type :=
| AsTuple (x y : Z)
| AsList (items : list Z).

(** The action plan dict; the keys beside [action_type] and [description]
    depend on the planner that wrote it. *)
Record action_plan : Type := {
  action_type : string;
  target_element : option element;
  coordinates : option coords;
  description : string;
  plan_text : option string;
  verification_criteria : option (list string);
  locate_target : option string
}.

Definition touch_element (el : element) (descr : string) : action_plan :=
  {| action_type := "touch"; target_element := Some el;
     coordinates := Some (AsTuple (fst (_get_element_center el))
                                  (snd (_get_element_center el)));
     description := descr; plan_text := None; verification_criteria := None;
     locate_target := None |}.

Definition touch_at (x y : Z) (descr : string) : action_plan :=
  {| action_type := "touch"; target_element := None;
     coordinates := Some (AsList [x; y]);
     description := descr; plan_text := None; verification_criteria := None;
     locate_target := None |}.

Definition press (key descr : string) : action_plan :=
  {| action_type := key; target_element := None; coordinates := None;
     description := descr; plan_text := None; verification_criteria := None;
     locate_target := None |}.

Definition _get_fallback_coordinates (action descr : string) : action_plan :=
  if PyStr.contains "settings" (PyStr.lower action)
  then touch_at 200 400 "Tap Settings (fallback coordinates)"
  else if PyStr.contains "wifi" (PyStr.lower action)
  then touch_at 300 300 "Tap WiFi option (fallback coordinates)"
  else if PyStr.contains "toggle" (PyStr.lower action)
  then touch_at 700 200 "Tap toggle switch (fallback coordinates)"
  else touch_at 400 400 "Tap center of screen (fallback)".

(** [if element:] on the result of a search. *)
Definition usable (o : option element) : option element :=
  match o with
  | Some el => if truthy_element el then Some el else None
  | None => None
  end.

Definition _plan_navigation_action (action descr : string) (st : ui_state)
    : option action_plan :=
  if PyStr.contains "settings" action || PyStr.contains "settings" descr then
    match usable (_find_element_by_criteria st
                    [by_text "settings"; by_text "Settings"; by_id "settings"]) with
    | Some settings_element =>
        Some (touch_element settings_element "Tap Settings app/option")
    | None => None
    end
  else if PyStr.contains "home" action then Some (press "home" "Press home button")
  else if PyStr.contains "back" action then Some (press "back" "Press back button")
  else None.

(** The keywords [_plan_touch_action] looks for, in the order it collects
    them. *)
Definition target_keywords (action descr : string) : list string :=
  (if PyStr.contains "wifi" action || PyStr.contains "wifi" descr
   then ["wifi"; "wi-fi"; "wireless"] else [])
  ++ (if PyStr.contains "toggle" action || PyStr.contains "switch" descr
      then ["toggle"; "switch"] else [])
  ++ (if PyStr.contains "button" descr then ["button"] else []).

Definition _plan_touch_action (action descr : string) (st : ui_state) : action_plan :=
  let keywords := target_keywords action descr in
  match usable (_find_element_by_criteria st
                  (map by_text keywords ++ map by_id keywords)) with
  | Some target =>
      touch_element target
        ("Tap " ++ match e_text target with
                   | Some t => t
                   | None => "element"
                   end)
  | None => _get_fallback_coordinates action descr
  end.

Definition _extract_verification_criteria (descr : string) : list string :=
  let criteria :=
    (if PyStr.contains "wifi" (PyStr.lower descr)
     then ["WiFi toggle visible"; "WiFi status clear"] else [])
    ++ (if PyStr.contains "settings" (PyStr.lower descr)
        then ["Settings screen visible"; "Menu options present"] else [])
    ++ (if PyStr.contains "toggle" (PyStr.lower descr)
        then ["Toggle switch state clear"] else []) in
  match criteria with
  | [] => ["UI state verification"]
  | _ :: _ => criteria
  end.

Definition _extract_locate_target (descr : string) : string :=
  if PyStr.contains "wifi" (PyStr.lower descr) then "WiFi option"
  else if PyStr.contains "settings" (PyStr.lower descr) then "Settings elements"
  else "Target element".

Definition _plan_verification_action (action descr : string) (st : ui_state)
    : action_plan :=
  {| action_type := "screenshot"; target_element := None; coordinates := None;
     description := "Take screenshot for verification"; plan_text := None;
     verification_criteria := Some (_extract_verification_criteria descr);
     locate_target := None |}.

Definition _plan_input_action (action descr : string) (st : ui_state)
    : option action_plan :=
  match usable (_find_element_by_criteria st
                  [by_type "EditText"; by_type "TextField"; by_class "EditText"]) with
  | Some input_element =>
      Some {| action_type := "type"; target_element := Some input_element;
              coordinates := None;
              description := "Type 'test text' into input field";
              plan_text := Some "test text"; verification_criteria := None;
              locate_target := None |}
  | None => None
  end.

Definition _plan_locate_action (action descr : string) (st : ui_state) : action_plan :=
  {| action_type := "screenshot"; target_element := None; coordinates := None;
     description := "Take screenshot to locate elements"; plan_text := None;
     verification_criteria := None;
     locate_target := Some (_extract_locate_target descr) |}.

(** A subgoal handed over by the planner; every key is read with [get]. *)
Record subgoal : Type := {
  sg_step_id : option Z;
  sg_action : option string;
  sg_action_type : option string;
  sg_description : option string
}.

Definition _analyze_subgoal (sg : subgoal) (st : ui_state) : option action_plan :=
  let action := PyStr.lower (Ui.get_str (sg_action sg)) in
  let kind := PyStr.lower (Ui.get_str (sg_action_type sg)) in
  let descr := PyStr.lower (Ui.get_str (sg_description sg)) in
  if String.eqb kind "navigation" || PyStr.contains "open" action
     || PyStr.contains "navigate" action
  then _plan_navigation_action action descr st
  else if String.eqb kind "touch" || PyStr.contains "tap" action
          || PyStr.contains "click" action
  then Some (_plan_touch_action action descr st)
  else if String.eqb kind "verify" || PyStr.contains "verify" action
          || PyStr.contains "check" action
  then Some (_plan_verification_action action descr st)
  else if String.eqb kind "input" || PyStr.contains "type" action
          || PyStr.contains "enter" action
  then _plan_input_action action descr st
  else if String.eqb kind "locate" || PyStr.contains "find" action
  then Some (_plan_locate_action action descr st)
  else None.

End Executor2.

(** ** Android helper (src/utils/android_helper.py) *)

Module AndroidHelper.

(** The dict [parse_ui_tree] builds for a node. *)
Record element : Type := {
  depth : Z;
  class : string;
  text : string;
  content_desc : string;
  resource_id : string;
  bounds : list Z;
  clickable : bool;
  scrollable : bool
}.

Definition element_of (d : Z) (n : node) : element :=
  {| depth := d;
     class := Ui.get_str (n_class n);
     text := Ui.get_str (n_text n);
     content_desc := Ui.get_str (n_content_desc n);
     resource_id := Ui.get_str (n_resource_id n);
     bounds := Ui.get_list (n_bounds n);
     clickable := Ui.get_bool (n_clickable n);
     scrollable := Ui.get_bool (n_scrollable n) |}.

(** [any([element['text'], element['content_desc'], element['resource_id']])] *)
Definition identifiable (el : element) : bool :=
  Py.truthy_str (text el) || Py.truthy_str (content_desc el)
  || Py.truthy_str (resource_id el).

(** The inner [traverse], threading the [elements] list it appends to. *)
Fixpoint traverse (max_depth : Z) (n : node) (d : Z) (elements : list element)
    : list element :=
  if (max_depth <? d)%Z then elements
  else
    let el := element_of d n in
    let elements1 := if identifiable el then elements ++ [el] else elements in
    match n with
    | Node _ _ _ _ _ _ _ ch =>
        match ch with
        | Some cs =>
            fold_left (fun acc child => traverse max_depth child (d + 1)%Z acc)
              cs elements1
        | None => elements1
        end
    end.

Definition parse_ui_tree (ui_tree : node) (max_depth : Z) : list element :=
  traverse max_depth ui_tree 0%Z [].

(** The default of the [max_depth] argument. *)
Definition default_max_depth : Z := 10%Z.

(** *** The reference traversal *)

(** Every node of the tree with its depth, parents before children and
    children left to right. *)
Fixpoint preorder (n : node) (d : Z) : list (Z * node) :=
  (d, n) ::
  match n with
  | Node _ _ _ _ _ _ _ ch =>
      match ch with
      | Some cs => flat_map (fun child => preorder child (d + 1)%Z) cs
      | None => []
      end
  end.

(** A node carries an identifying signal: a non-empty text,
    content-description or resource-id. *)
Definition has_signal (n : node) : bool :=
  Py.truthy_str (Ui.get_str (n_text n))
  || Py.truthy_str (Ui.get_str (n_content_desc n))
  || Py.truthy_str (Ui.get_str (n_resource_id n)).

Definition as_element (dn : Z * node) : element := element_of (fst dn) (snd dn).

(** The flattening the specification describes: pre-order, keeping every
    node with a signal. *)
Definition flatten_spec (ui_tree : node) : list element :=
  map as_element (filter (fun dn => has_signal (snd dn)) (preorder ui_tree 0%Z)).

(** A node with a signal that lies no deeper than [max_depth]. *)
Definition kept (max_depth : Z) (dn : Z * node) : bool :=
  has_signal (snd dn) && (fst dn <=? max_depth)%Z.

(** The same flattening, of the nodes no deeper than [max_depth] only. *)
Definition flatten_upto (max_depth : Z) (ui_tree : node) : list element :=
  map as_element (filter (kept max_depth) (preorder ui_tree 0%Z)).

(** A chain of [k] anonymous containers above [leaf]. *)
Fixpoint nest (k : nat) (leaf : node) : node :=
  match k with
  | O => leaf
  | S k' => Ui.anonymous [nest k' leaf]
  end.

(** *** Searching the flattened tree *)

(** The test of [find_element_by_text] on one flattened element. *)
Definition text_matches (text_lower : string) (partial_match : bool) (el : element)
    : bool :=
  let element_text := PyStr.lower (text el) in
  let element_desc := PyStr.lower (content_desc el) in
  if partial_match
  then PyStr.contains text_lower element_text || PyStr.contains text_lower element_desc
  else String.eqb text_lower element_text || String.eqb text_lower element_desc.

(** The first element of the flattened tree whose text or
    content-description matches; the tree is flattened with the default
    [max_depth]. *)
Definition find_element_by_text (ui_tree : node) (text : string) (partial_match : bool)
    : option element :=
  let elements := parse_ui_tree ui_tree default_max_depth in
  let text_lower := PyStr.lower text in
  find (text_matches text_lower partial_match) elements.

End AndroidHelper.

(** ** Planner (src/agents/planner_agent.py) *)

Module Planner.

Import Data.

Definition plan_step (act tgt expected fb : string) : step :=
  {| action := act; target := tgt; text := None;
     verification := expected; fallback := Some fb |}.

(** Fallback plan for WiFi testing. *)
Definition _get_default_wifi_test_plan : list step :=
  [ plan_step "tap" "Settings app" "Settings main screen visible" "Open from app drawer";
    plan_step "scroll" "Settings list" "Network settings visible" "Search for WiFi";
    plan_step "tap" "WiFi or Network option" "WiFi settings screen open"
      "Try 'Connections' first";
    plan_step "tap" "WiFi toggle switch" "WiFi is now ON" "Check if already on";
    plan_step "wait" "2 seconds" "WiFi networks appear" "Continue anyway";
    plan_step "tap" "WiFi toggle switch" "WiFi is now OFF" "Report as bug if stuck" ].

(** What [json.loads] makes of a response that is JSON, as far as the
    planner and the agents after it use the value: a value with a length,
    read as a list of step dicts, or a value without one ([null], a number,
    [true] or [false]), on which [len] and iteration raise TypeError.
    (A decoded string or object has a length too; it is no list of steps
    and lies outside this embedding, as does a list whose items are not
    step dicts.) *)
Inductive decoded : Type :=
| Sized (plan : list step)
| Unsized.

Section WithClient.

Variable client : Type.
Variable generate : string -> client -> string * client.

(** The prompt text of [_create_test_plan], built from the goal. *)
Variable plan_prompt : string -> string.

(** [json.loads(response)]; [None] when it raises [json.JSONDecodeError]. *)
Variable json_loads : string -> option decoded.

Local Notation session := (Llm.session client).
Local Notation ask := (Llm.ask client generate).

(** Inside the [try] the decoded value is measured with [len] for the log
    line, and the handler catches [json.JSONDecodeError] alone: the
    TypeError of a value without a length escapes. *)
Definition _create_test_plan (goal : string) (w : session)
    : res (list step) * session :=
  let prompt := plan_prompt goal in
  let (response, w1) := ask prompt w in
  match json_loads response with
  | Some (Sized plan) => (Ok plan, w1)
  | Some Unsized => (Raise TypeError, w1)
  | None => (Ok _get_default_wifi_test_plan, w1)
  end.

(** The response [_create_test_plan] decodes. *)
Definition response_to (goal : string) (w : session) : string :=
  fst (ask (plan_prompt goal) w).

End WithClient.

(** What the specification asks of a plan: at least one step, and a
    non-empty target and expected outcome in every step. *)
Definition well_formed (plan : list step) : Prop :=
  List.length plan <> 0%nat
  /\ Forall (fun st => target st <> EmptyString /\ verification st <> EmptyString) plan.

End Planner.

(** ** The control loop (MultiAgentQASystem.run_test, src/tests/test_wifi_settings.py) *)

Module System.

(** What a run prints and logs, in order. *)
Inductive event : Type :=
| TestStart (goal : string)
| IterationLine (iteration : nat) (message_type : string)
| TestCompleted
| UnknownRecipient (recipient : string)
| StepLogged (recipient message_type : string) (iteration : nat)
| ScreenshotSaved (iteration : nat)
| ExecutionFinished.

(** The way the [while] loop is left: by the [break] after the final
    report, by the [break] on an unknown recipient, or by its condition
    turning false.  The code keeps no such value; it classifies runs in the
    statements below. *)
Inductive leave : Type :=
| ByReport
| ByUnknownRecipient
| ByBudget.

Definition max_iterations : nat := 10.

Section WithAgents.

(** The [content] dict of a message. *)
Variable content : Type.

Record message : Type := {
  sender : string;
  recipient : string;
  message_type : string;
  msg_content : content;
  timestamp : float
}.

(** Everything the agents, the environment and the logger hold. *)
Variable world : Type.

(** [agent.process(message)]: the response, which is [None] when the agent
    has no branch for the message type, or an exception. *)
Variable planner : message -> world -> res (option message) * world.
Variable executor : message -> world -> res (option message) * world.
Variable verifier : message -> world -> res (option message) * world.
Variable supervisor : message -> world -> res (option message) * world.

(** [self._handle_final_report(content)] *)
Variable handle_final_report : content -> world -> res world.

(** [AndroidHelper.capture_screenshot] followed by [logger.save_screenshot]. *)
Variable save_screenshot : nat -> world -> world.

(** [{"goal": test_goal}] and [time.time()] *)
Variable goal_content : string -> content.
Variable clock : world -> float.

(** The state of a run when its loop is left or an exception escapes. *)
Record loop_end : Type := {
  how : res leave;
  iterations : nat;
  final_world : world;
  trace : list event
}.

(** The agent a recipient names, if it names one. *)
Definition agent_named (name : string)
    : option (message -> world -> res (option message) * world) :=
  if String.eqb name "PlannerAgent" then Some planner
  else if String.eqb name "ExecutorAgent" then Some executor
  else if String.eqb name "VerifierAgent" then Some verifier
  else if String.eqb name "SupervisorAgent" then Some supervisor
  else None.

(** The [while iteration < max_iterations] loop, by recursion on the
    iterations left, [budget = max_iterations - iteration].
    [current_message] is [None] once an agent has returned nothing;
    [response] is [None] while the local variable is unbound. *)
Fixpoint loop (budget : nat) (iteration : nat) (current_message : option message)
    (response : option (option message)) (w : world) (tr : list event) : loop_end :=
  match budget with
  | O => {| how := Ok ByBudget; iterations := iteration; final_world := w; trace := tr |}
  | S budget' =>
      let iteration := S iteration in
      match current_message with
      | None =>
          {| how := Raise (AttributeError "message_type"); iterations := iteration;
             final_world := w; trace := tr |}
      | Some m =>
          let tr := tr ++ [IterationLine iteration (message_type m)] in
          match agent_named (recipient m) with
          | Some process =>
              match process m w with
              | (Raise ex, w1) =>
                  {| how := Raise ex; iterations := iteration;
                     final_world := w1; trace := tr |}
              | (Ok answer, w1) =>
                  let tr := tr ++ [StepLogged (recipient m) (message_type m) iteration] in
                  if String.eqb (recipient m) "ExecutorAgent"
                  then loop budget' iteration answer (Some answer)
                         (save_screenshot iteration w1)
                         (tr ++ [ScreenshotSaved iteration])
                  else loop budget' iteration answer (Some answer) w1 tr
              end
          | None =>
              if String.eqb (recipient m) "System" then
                let tr := tr ++ [TestCompleted] in
                match response with
                | None =>
                    {| how := Raise (NameError "response"); iterations := iteration;
                       final_world := w; trace := tr |}
                | Some None =>
                    {| how := Raise (AttributeError "content"); iterations := iteration;
                       final_world := w; trace := tr |}
                | Some (Some r) =>
                    match handle_final_report (msg_content r) w with
                    | Raise ex =>
                        {| how := Raise ex; iterations := iteration;
                           final_world := w; trace := tr |}
                    | Ok w1 =>
                        {| how := Ok ByReport; iterations := iteration;
                           final_world := w1; trace := tr |}
                    end
                end
              else
                {| how := Ok ByUnknownRecipient; iterations := iteration;
                   final_world := w; trace := tr ++ [UnknownRecipient (recipient m)] |}
          end
      end
  end.

Definition initial_message (test_goal : string) (w : world) : message :=
  {| sender := "System"; recipient := "PlannerAgent"; message_type := "create_plan";
     msg_content := goal_content test_goal; timestamp := clock w |}.

(** The loop of [run_test], from its first message. *)
Definition run_loop (test_goal : string) (w : world) : loop_end :=
  loop (max_iterations - 0) 0 (Some (initial_message test_goal w)) None w
    [TestStart test_goal].

(** [run_test]: what it returns ([None], unless an exception escapes), the
    world it leaves and what it printed and logged. *)
Definition run_test (test_goal : string) (w : world) : res unit * world * list event :=
  let e := run_loop test_goal w in
  match how e with
  | Ok _ => (Ok tt, final_world e, trace e ++ [ExecutionFinished])
  | Raise ex => (Raise ex, final_world e, trace e)
  end.

(** The messages never leave a circle of agents: every recipient [inside]
    names an agent, and that agent always answers, with a message for a
    recipient that is [inside] again. *)
Definition never_reports (inside : string -> bool) : Prop :=
  forall name, inside name = true ->
  exists process,
    agent_named name = Some process
    /\ forall m w, exists m' w',
         process m w = (Ok (Some m'), w') /\ inside (recipient m') = true.

End WithAgents.

Arguments sender {content} _.
Arguments recipient {content} _.
Arguments message_type {content} _.
Arguments msg_content {content} _.
Arguments timestamp {content} _.
Arguments how {world} _.
Arguments iterations {world} _.
Arguments final_world {world} _.
Arguments trace {world} _.

(** The events that announce how a run ended. *)
Definition announces_end (ev : event) : bool :=
  match ev with
  | TestCompleted | UnknownRecipient _ => true
  | _ => false
  end.

Definition is_iteration_line (ev : event) : bool :=
  match ev with
  | IterationLine _ _ => true
  | _ => false
  end.

Definition is_step_logged (ev : event) : bool :=
  match ev with
  | StepLogged _ _ _ => true
  | _ => false
  end.

(** How many events of a kind a trace holds. *)
Definition count (f : event -> bool) (tr : list event) : nat :=
  List.length (filter f tr).

End System.

(** ** Printing numbers and coordinates

    [str] of an [int], and of the lists and pairs of ints that stand for
    coordinates, as f-strings and [str(...)] print them. *)

Module PyRepr.

Definition str_int (z : Z) : string := NilZero.string_of_int (Z.to_int z).

Definition str_list (items : list Z) : string :=
  ("[" ++ PyStr.join ", " (map str_int items) ++ "]")%string.

Definition str_pair (x y : Z) : string :=
  ("(" ++ str_int x ++ ", " ++ str_int y ++ ")")%string.

Definition str_coords (c : Executor2.coords) : string :=
  match c with
  | Executor2.AsTuple x y => str_pair x y
  | Executor2.AsList items => str_list items
  end.

(** Every character of the string satisfies the test. *)
Fixpoint all_chars (ok : ascii -> bool) (s : string) : bool :=
  match s with
  | EmptyString => true
  | String c rest => ok c && all_chars ok rest
  end.

(** The characters a printed list or pair of ints is made of. *)
Definition numeric_char (c : ascii) : bool :=
  let n := nat_of_ascii c in
  ((48 <=? n)%nat && (n <=? 57)%nat)
  || Ascii.eqb c "-" || Ascii.eqb c "," || Ascii.eqb c " "
  || Ascii.eqb c "[" || Ascii.eqb c "]" || Ascii.eqb c "(" || Ascii.eqb c ")".

End PyRepr.

(** ** The Android environment wrapper (src/multi_agent_qa/main.py) *)

Module Wrapper.

Import Executor2.

(** The action dict given to [step]; every key is read with [get]. *)
Record android_action : Type := {
  a_type : option string;
  a_coordinates : option coords;
  a_text : option string
}.

(** The dict [_execute_mock_action] returns. *)
Record action_result : Type := {
  ar_success : bool;
  ar_action_executed : android_action;
  ar_result : option string;
  ar_error : option string;
  ar_ui_changed : bool
}.

Record activity : Type := {
  current_app : option string;
  screen_type : option string
}.

(** An observation: the five keys of a mock observation, or the single
    [error] key of the unimplemented real one. *)
Record observation : Type := {
  ob_screenshot : option string;
  ob_ui_elements : option (list element);
  ob_activity_info : option activity;
  ob_timestamp : option float;
  ob_step_count : option Z;
  ob_error : option string
}.

(** [bool(observation)] *)
Definition truthy_observation (o : observation) : bool :=
  Ui.is_some (ob_screenshot o) || Ui.is_some (ob_ui_elements o)
  || Ui.is_some (ob_activity_info o) || Ui.is_some (ob_timestamp o)
  || Ui.is_some (ob_step_count o) || Ui.is_some (ob_error o).

(** The wrapper object. *)
Record wrapper : Type := {
  task_name : string;
  verbose : bool;
  step_count : Z;
  max_steps : Z;
  current_observation : option observation;
  mock_mode : bool
}.

(** The dict [step] returns. *)
Record response : Type := {
  rs_observation : observation;
  rs_action_result : action_result;
  rs_done : bool;
  rs_step_count : Z;
  rs_max_steps : Z
}.

Definition __init__ (task : string) (verbose : bool) : wrapper :=
  {| task_name := task; verbose := verbose; step_count := 0; max_steps := 50;
     current_observation := None; mock_mode := true |}.

Definition launcher_elements : list element :=
  [ {| e_text := Some "Settings"; e_id := Some "settings_icon"; e_class := None;
       e_type := None; e_bounds := Some [100; 200; 200; 300]%Z |};
    {| e_text := Some "Home"; e_id := Some "home_button"; e_class := None;
       e_type := None; e_bounds := Some [400; 800; 500; 900]%Z |} ].

Definition settings_elements : list element :=
  [ {| e_text := Some "WiFi"; e_id := Some "wifi_option"; e_class := None;
       e_type := None; e_bounds := Some [50; 200; 350; 250]%Z |};
    {| e_text := Some "Bluetooth"; e_id := Some "bluetooth_option"; e_class := None;
       e_type := None; e_bounds := Some [50; 260; 350; 310]%Z |};
    {| e_text := Some "Back"; e_id := Some "back_button"; e_class := None;
       e_type := None; e_bounds := Some [20; 50; 80; 100]%Z |} ].

Definition wifi_elements : list element :=
  [ {| e_text := Some "WiFi Toggle"; e_id := Some "wifi_toggle"; e_class := None;
       e_type := None; e_bounds := Some [300; 100; 400; 150]%Z |};
    {| e_text := Some "Available Networks"; e_id := Some "network_list";
       e_class := None; e_type := None; e_bounds := Some [50; 200; 350; 600]%Z |};
    {| e_text := Some "Back"; e_id := Some "back_button"; e_class := None;
       e_type := None; e_bounds := Some [20; 50; 80; 100]%Z |} ].

Definition app_screen (app screen : string) : activity :=
  {| current_app := Some app; screen_type := Some screen |}.

Definition _get_real_android_observation : observation :=
  {| ob_screenshot := None; ob_ui_elements := None; ob_activity_info := None;
     ob_timestamp := None; ob_step_count := None;
     ob_error := Some "Real Android observation not implemented yet" |}.

(** [action.get("coordinates", default)] printed. *)
Definition printed_coordinates (a : android_action) (default : list Z) : string :=
  match a_coordinates a with
  | Some c => PyRepr.str_coords c
  | None => PyRepr.str_list default
  end.

Section WithClock.

(** The wall clock: [time.time()] and [time.sleep(seconds)]. *)
Variable clock : Type.
Variable time_time : clock -> float * clock.
Variable time_sleep : float -> clock -> clock.

Definition reset (w : wrapper) (k : clock) : observation * wrapper * clock :=
  if mock_mode w then
    let (now, k1) := time_time k in
    let obs := {| ob_screenshot := Some "mock_screenshot_initial.png";
                  ob_ui_elements := Some launcher_elements;
                  ob_activity_info := Some (app_screen "launcher" "home");
                  ob_timestamp := Some now; ob_step_count := Some 0%Z;
                  ob_error := None |} in
    (obs, {| task_name := task_name w; verbose := verbose w; step_count := 0;
             max_steps := max_steps w; current_observation := Some obs;
             mock_mode := mock_mode w |}, k1)
  else
    (_get_real_android_observation,
     {| task_name := task_name w; verbose := verbose w; step_count := 0;
        max_steps := max_steps w;
        current_observation := Some _get_real_android_observation;
        mock_mode := mock_mode w |}, k).

Definition mock_ok (a : android_action) (what : string) (changed : bool)
    : action_result :=
  {| ar_success := true; ar_action_executed := a; ar_result := Some what;
     ar_error := None; ar_ui_changed := changed |}.

Definition _execute_mock_action (w : wrapper) (a : android_action) (k : clock)
    : action_result * clock :=
  let kind := PyStr.lower (Ui.get_str (a_type a)) in
  let k1 := time_sleep 0.5%float k in
  if String.eqb kind "touch" then
    (mock_ok a ("Mock touch at coordinates " ++ printed_coordinates a [0; 0]%Z) true, k1)
  else if String.eqb kind "type" then
    (mock_ok a ("Mock typed text: '" ++ Ui.get_str (a_text a) ++ "'") true, k1)
  else if String.eqb kind "back" then (mock_ok a "Mock back button pressed" true, k1)
  else if String.eqb kind "home" then (mock_ok a "Mock home button pressed" true, k1)
  else if String.eqb kind "screenshot" then
    (mock_ok a ("Mock screenshot saved: step_" ++ PyRepr.str_int (step_count w)
                ++ "_screenshot.png") false, k1)
  else
    ({| ar_success := false; ar_action_executed := a; ar_result := None;
        ar_error := Some ("Unknown action type: " ++ kind)%string;
        ar_ui_changed := false |},
     k1).

(** "To be implemented": the real action falls back to the mock. *)
Definition _execute_real_action (w : wrapper) (a : android_action) (k : clock)
    : action_result * clock :=
  _execute_mock_action w a k.

Definition mock_observation (w : wrapper) (elements : option (list element))
    (info : option activity) (now : float) : observation :=
  {| ob_screenshot :=
       Some ("mock_screenshot_step_" ++ PyRepr.str_int (step_count w) ++ ".png")%string;
     ob_ui_elements := elements; ob_activity_info := info;
     ob_timestamp := Some now; ob_step_count := Some (step_count w);
     ob_error := None |}.

Definition _get_updated_observation (w : wrapper) (a : android_action)
    (result : action_result) (k : clock) : res observation * clock :=
  if mock_mode w then
    let kind := match a_type a with
                | Some t => t
                | None => EmptyString
                end in
    if String.eqb kind "touch" && PyStr.contains "settings" (printed_coordinates a [])
    then
      let (now, k1) := time_time k in
      (Ok (mock_observation w (Some settings_elements)
             (Some (app_screen "settings" "settings_main")) now), k1)
    else if PyStr.contains "wifi" (PyStr.lower (printed_coordinates a []))
    then
      let (now, k1) := time_time k in
      (Ok (mock_observation w (Some wifi_elements)
             (Some (app_screen "settings" "wifi_settings")) now), k1)
    else
      match current_observation w with
      | None => (Raise (AttributeError "get"), k)
      | Some cur =>
          let elements := Some (Ui.get_list (ob_ui_elements cur)) in
          let info := Some match ob_activity_info cur with
                           | Some i => i
                           | None => {| current_app := None; screen_type := None |}
                           end in
          let (now, k1) := time_time k in
          (Ok (mock_observation w elements info now), k1)
      end
  else (Ok _get_real_android_observation, k).

Definition _check_task_completion (w : wrapper) : bool :=
  if String.eqb (task_name w) "settings_wifi" then (8 <=? step_count w)%Z else false.

Definition step (w : wrapper) (a : android_action) (k : clock)
    : res response * wrapper * clock :=
  let w1 := {| task_name := task_name w; verbose := verbose w;
               step_count := (step_count w + 1)%Z; max_steps := max_steps w;
               current_observation := current_observation w;
               mock_mode := mock_mode w |} in
  let (result, k1) := if mock_mode w1 then _execute_mock_action w1 a k
                      else _execute_real_action w1 a k in
  match _get_updated_observation w1 a result k1 with
  | (Raise ex, k2) => (Raise ex, w1, k2)
  | (Ok obs, k2) =>
      let w2 := {| task_name := task_name w1; verbose := verbose w1;
                   step_count := step_count w1; max_steps := max_steps w1;
                   current_observation := Some obs; mock_mode := mock_mode w1 |} in
      let is_done := _check_task_completion w2
                     || (max_steps w2 <=? step_count w2)%Z in
      (Ok {| rs_observation := obs; rs_action_result := result; rs_done := is_done;
             rs_step_count := step_count w2; rs_max_steps := max_steps w2 |},
       w2, k2)
  end.

(** A sequence of calls to [step], stopping at the first exception. *)
Fixpoint steps (w : wrapper) (actions : list android_action) (k : clock)
    : res (list response) * wrapper * clock :=
  match actions with
  | [] => (Ok [], w, k)
  | a :: rest =>
      match step w a k with
      | (Raise ex, w1, k1) => (Raise ex, w1, k1)
      | (Ok r, w1, k1) =>
          match steps w1 rest k1 with
          | (Raise ex, w2, k2) => (Raise ex, w2, k2)
          | (Ok rs, w2, k2) => (Ok (r :: rs), w2, k2)
          end
      end
  end.

End WithClock.

Definition get_available_actions : list string :=
  ["touch"; "type"; "key"; "swipe"; "back"; "home"; "screenshot"].

Definition get_ui_elements (w : wrapper) : list element :=
  match current_observation w with
  | Some obs =>
      if truthy_observation obs then Ui.get_list (ob_ui_elements obs) else []
  | None => []
  end.

Definition find_element_by_text (w : wrapper) (text : string) : option element :=
  find (fun el => PyStr.contains (PyStr.lower text)
                    (PyStr.lower (Ui.get_str (e_text el))))
    (get_ui_elements w).

(** The [done] flag as [step] computes it from a count of steps. *)
Definition done_at (w : wrapper) (count : Z) : bool :=
  (String.eqb (task_name w) "settings_wifi" && (8 <=? count)%Z)
  || (max_steps w <=? count)%Z.

End Wrapper.

(** ** The QA planner (src/multi_agent_qa/agents/planner_agent.py) *)

Module Planner2.

(** One step of a QA plan: the seven keys every plan literal writes. *)
Record qa_step : Type := {
  step_id : Z;
  action : string;
  description : string;
  expected_result : string;
  verification_criteria : list string;
  action_type : string;
  timeout : Z
}.

(** The planner object.  Nothing in the module appends to
    [execution_history]. *)
Record planner : Type := {
  current_plan : list qa_step;
  execution_history : list qa_step
}.

Definition __init__ : planner := {| current_plan := []; execution_history := [] |}.

(** The plan literal of [_create_wifi_toggle_plan]. *)
Definition wifi_toggle_steps : list qa_step :=
  [ {| step_id := 1; action := "open_settings_app";
       description := "Navigate to Android Settings application";
       expected_result := "Settings app opens with main menu visible";
       verification_criteria := ["Settings app title visible"; "Menu options displayed"];
       action_type := "navigation"; timeout := 10 |};
    {| step_id := 2; action := "find_wifi_option";
       description := "Locate WiFi settings option in Settings menu";
       expected_result := "WiFi option is visible and clickable";
       verification_criteria := ["WiFi text visible"; "WiFi icon present"];
       action_type := "locate"; timeout := 5 |};
    {| step_id := 3; action := "tap_wifi_option";
       description := "Tap on WiFi settings option";
       expected_result := "WiFi settings screen opens";
       verification_criteria := ["WiFi settings title"; "Toggle switch visible"];
       action_type := "touch"; timeout := 10 |};
    {| step_id := 4; action := "check_current_wifi_state";
       description := "Determine current WiFi toggle state (on/off)";
       expected_result := "WiFi state is clearly identifiable";
       verification_criteria := ["Toggle position clear"; "Status text readable"];
       action_type := "verify"; timeout := 3 |};
    {| step_id := 5; action := "toggle_wifi_off";
       description := "Turn WiFi off if currently on";
       expected_result := "WiFi is disabled";
       verification_criteria := ["Toggle shows off position"; "Status shows disabled"];
       action_type := "touch"; timeout := 15 |};
    {| step_id := 6; action := "verify_wifi_off";
       description := "Confirm WiFi is completely disabled";
       expected_result := "WiFi functionality is off";
       verification_criteria := ["No network connections"; "Toggle clearly off"];
       action_type := "verify"; timeout := 10 |};
    {| step_id := 7; action := "toggle_wifi_on";
       description := "Turn WiFi back on";
       expected_result := "WiFi is enabled and scanning";
       verification_criteria := ["Toggle shows on position"; "Networks list appears"];
       action_type := "touch"; timeout := 15 |};
    {| step_id := 8; action := "verify_wifi_on";
       description := "Confirm WiFi is fully functional";
       expected_result := "WiFi is working normally";
       verification_criteria := ["Networks visible"; "WiFi icon in status bar"];
       action_type := "verify"; timeout := 20 |} ]%Z.

(** The only writer of [current_plan]. *)
Definition _create_wifi_toggle_plan (p : planner) : list qa_step * planner :=
  let plan := wifi_toggle_steps in
  (plan, {| current_plan := plan; execution_history := execution_history p |}).

Definition _create_alarm_plan : list qa_step :=
  [ {| step_id := 1; action := "open_clock_app";
       description := "Open the Clock application";
       expected_result := "Clock app opens";
       verification_criteria := ["Clock interface visible"];
       action_type := "navigation"; timeout := 10 |};
    {| step_id := 2; action := "navigate_to_alarm_tab";
       description := "Navigate to alarm section";
       expected_result := "Alarm interface displayed";
       verification_criteria := ["Alarm list visible"; "Add alarm button present"];
       action_type := "navigation"; timeout := 5 |} ]%Z.

Definition _create_generic_plan (qa_goal : string) : list qa_step :=
  [ {| step_id := 1; action := "analyze_goal";
       description := ("Analyze the goal: " ++ qa_goal)%string;
       expected_result := "Goal understood";
       verification_criteria := ["Clear understanding of requirements"];
       action_type := "analysis"; timeout := 5 |} ]%Z.

Definition create_qa_plan (qa_goal : string) (p : planner) : list qa_step * planner :=
  if PyStr.contains "wifi" (PyStr.lower qa_goal) then _create_wifi_toggle_plan p
  else if PyStr.contains "alarm" (PyStr.lower qa_goal) then (_create_alarm_plan, p)
  else (_create_generic_plan qa_goal, p).

(** [replan]; of [error_context] it reads [error_type] alone, with
    [error_context.get("error_type", "unknown")]. *)
Definition replan (failed_step : qa_step) (error_type : option string) : list qa_step :=
  let failure_type := match error_type with
                      | Some t => t
                      | None => "unknown"
                      end in
  if String.eqb failure_type "element_not_found" then
    [ {| step_id := 99; action := "take_screenshot";
         description := "Capture current screen for analysis";
         expected_result := "Screenshot captured";
         verification_criteria := ["Image saved"];
         action_type := "capture"; timeout := 5 |};
      {| step_id := 100; action := "identify_current_screen";
         description := "Determine what screen we're currently on";
         expected_result := "Screen identified";
         verification_criteria := ["Screen type determined"];
         action_type := "analysis"; timeout := 5 |} ]%Z
  else
    [ {| step_id := 99; action := "go_back";
         description := "Go back to previous screen";
         expected_result := "Previous screen displayed";
         verification_criteria := ["Known screen visible"];
         action_type := "navigation"; timeout := 5 |} ]%Z.

(** The dict [get_plan_summary] returns. *)
Record plan_summary : Type := {
  total_steps : Z;
  executed_steps : Z;
  remaining_steps : Z;
  summary_plan : list qa_step
}.

Definition get_plan_summary (p : planner) : plan_summary :=
  {| total_steps := Z.of_nat (List.length (current_plan p));
     executed_steps := Z.of_nat (List.length (execution_history p));
     remaining_steps := (Z.of_nat (List.length (current_plan p))
                         - Z.of_nat (List.length (execution_history p)))%Z;
     summary_plan := current_plan p |}.

(** The two calls that ask a planner for steps. *)
Inductive call : Type :=
| CreateQaPlan (qa_goal : string)
| Replan (failed_step : qa_step) (error_type : option string).

Definition answer (c : call) (p : planner) : list qa_step * planner :=
  match c with
  | CreateQaPlan qa_goal => create_qa_plan qa_goal p
  | Replan failed_step error_type => (replan failed_step error_type, p)
  end.

(** The planner after a sequence of calls, the first call first. *)
Definition after (calls : list call) (p : planner) : planner :=
  fold_left (fun q c => snd (answer c q)) calls p.

(** The call is [create_qa_plan] with a goal that mentions WiFi. *)
Definition asks_for_wifi (c : call) : bool :=
  match c with
  | CreateQaPlan qa_goal => PyStr.contains "wifi" (PyStr.lower qa_goal)
  | Replan _ _ => false
  end.

End Planner2.

(** ** The QA executor on the environment wrapper
       (src/multi_agent_qa/agents/executor_agent.py, with the
       AndroidEnvWrapper of src/multi_agent_qa/main.py as its
       [android_env]) *)

Module Executor2Env.

Import Executor2 Wrapper.

(** The [error] text of a failed execution: one of the four messages of the
    module, with the part it formats in. *)
Inductive failure : Type :=
| NoActionPlan
| AndroidActionFailed (error_msg : string)
| ActionException (e : exn)
| ExecutionException (e : exn).

(** The dict [_create_execution_result] builds.  [duration] defaults to 0;
    [action_plan], [env_result], [message], [error] and [ui_state_after]
    are written only under their conditions. *)
Record execution_result : Type := {
  er_success : bool;
  subgoal_id : Z;
  subgoal_action : string;
  er_timestamp : float;
  duration : float;
  er_action_plan : option action_plan;
  env_result : option response;
  er_message : option string;
  er_error : option failure;
  ui_state_after : option observation
}.

(** [execution_result["duration"] = d] *)
Definition with_duration (d : float) (r : execution_result) : execution_result :=
  {| er_success := er_success r; subgoal_id := subgoal_id r;
     subgoal_action := subgoal_action r; er_timestamp := er_timestamp r;
     duration := d; er_action_plan := er_action_plan r; env_result := env_result r;
     er_message := er_message r; er_error := er_error r;
     ui_state_after := ui_state_after r |}.

(** One entry of [execution_history].  Its [result] is the dict that
    [execute_subgoal] returns, so it carries the duration written after the
    entry was appended. *)
Record history_entry : Type := {
  h_subgoal : subgoal;
  h_action_plan : action_plan;
  h_result : execution_result;
  h_timestamp : float
}.

(** The executor object. *)
Record executor : Type := {
  android_env : wrapper;
  execution_history : list history_entry;
  current_ui_state : option observation
}.

Definition __init__ (env : wrapper) : executor :=
  {| android_env := env; execution_history := []; current_ui_state := None |}.

(** The wrapper's current observation when it has a truthy one, else
    [{"ui_elements": [], "activity_info": {}}]. *)
Definition _get_current_ui_state (env : wrapper) : observation :=
  let fallback := {| ob_screenshot := None; ob_ui_elements := Some [];
                     ob_activity_info := Some {| current_app := None;
                                                 screen_type := None |};
                     ob_timestamp := None; ob_step_count := None;
                     ob_error := None |} in
  match current_observation env with
  | Some obs => if truthy_observation obs then obs else fallback
  | None => fallback
  end.

(** The part of an observation the planning functions read. *)
Definition as_ui_state (obs : observation) : ui_state :=
  {| ui_elements := ob_ui_elements obs |}.

(** The action dict [_execute_action_plan] prepares: a touch needs the
    plan's [coordinates], a type its [text]. *)
Definition android_action_of (plan : action_plan) : res android_action :=
  if String.eqb (action_type plan) "touch" then
    match coordinates plan with
    | Some c => Ok {| a_type := Some (action_type plan); a_coordinates := Some c;
                      a_text := None |}
    | None => Raise (KeyError "coordinates")
    end
  else if String.eqb (action_type plan) "type" then
    match plan_text plan with
    | Some t => Ok {| a_type := Some (action_type plan); a_coordinates := None;
                      a_text := Some t |}
    | None => Raise (KeyError "text")
    end
  else Ok {| a_type := Some (action_type plan); a_coordinates := None;
             a_text := None |}.

(** A plan step as the executor reads it: the same dict, of which it
    reads four keys. *)
Definition as_subgoal (s : Planner2.qa_step) : subgoal :=
  {| sg_step_id := Some (Planner2.step_id s);
     sg_action := Some (Planner2.action s);
     sg_action_type := Some (Planner2.action_type s);
     sg_description := Some (Planner2.description s) |}.

(** [len(self.execution_history)] and the like as a float operand: exact
    below 2^53. *)
Definition float_of_nat (n : nat) : float :=
  PrimFloat.of_uint63 (Uint63.of_Z (Z.of_nat n)).

(** The dict [get_execution_summary] returns; [success_rate] is the
    quotient, or 0 when nothing was executed. *)
Record execution_summary : Type := {
  total_executions : nat;
  successful_executions : nat;
  success_rate : float;
  recent_executions : list history_entry
}.

Definition get_execution_summary (ex : executor) : execution_summary :=
  let total := List.length (execution_history ex) in
  let successful :=
    List.length (filter (fun e => er_success (h_result e)) (execution_history ex)) in
  {| total_executions := total;
     successful_executions := successful;
     success_rate := if (0 <? total)%nat
                     then PrimFloat.div (float_of_nat successful) (float_of_nat total)
                     else 0%float;
     recent_executions := skipn (total - 5) (execution_history ex) |}.

Section WithClock.

Variable clock : Type.
Variable time_time : clock -> float * clock.
Variable time_sleep : float -> clock -> clock.

Local Notation step := (Wrapper.step clock time_time time_sleep).

Definition _create_execution_result (success : bool) (sg : subgoal)
    (plan : option action_plan) (result : option response) (message : string)
    (error : option failure) (d : float) (env : wrapper) (k : clock)
    : execution_result * clock :=
  let (now, k1) := time_time k in
  ({| er_success := success;
      subgoal_id := match sg_step_id sg with
                    | Some i => i
                    | None => 0%Z
                    end;
      subgoal_action := Ui.get_str (sg_action sg);
      er_timestamp := now;
      duration := d;
      er_action_plan := plan;
      env_result := result;
      er_message := if Py.truthy_str message then Some message else None;
      er_error := error;
      ui_state_after := if success then Some (_get_current_ui_state env) else None |},
   k1).

(** Every exception of the body is caught and reported in the result. *)
Definition _execute_action_plan (plan : action_plan) (sg : subgoal) (env : wrapper)
    (k : clock) : execution_result * wrapper * clock :=
  match android_action_of plan with
  | Raise e =>
      let (r, k1) := _create_execution_result false sg (Some plan) None ""
                       (Some (ActionException e)) 0%float env k in
      (r, env, k1)
  | Ok a =>
      match step env a k with
      | (Raise e, env1, k1) =>
          let (r, k2) := _create_execution_result false sg (Some plan) None ""
                           (Some (ActionException e)) 0%float env1 k1 in
          (r, env1, k2)
      | (Ok env_result, env1, k1) =>
          if ar_success (rs_action_result env_result) then
            let (r, k2) := _create_execution_result true sg (Some plan)
                             (Some env_result) "Action executed successfully" None
                             0%float env1 k1 in
            (r, env1, k2)
          else
            let error_msg := match ar_error (rs_action_result env_result) with
                             | Some e => e
                             | None => "Unknown error"
                             end in
            let (r, k2) := _create_execution_result false sg (Some plan)
                             (Some env_result) ""
                             (Some (AndroidActionFailed error_msg)) 0%float env1 k1 in
            (r, env1, k2)
      end
  end.

(** [execute_subgoal].  The line printed before the [try] reads
    [subgoal['description']]; inside the [try] nothing of this embedding
    raises past [_execute_action_plan], so the outer handler stays unused. *)
Definition execute_subgoal (ex : executor) (sg : subgoal) (k : clock)
    : res execution_result * executor * clock :=
  match sg_description sg with
  | None => (Raise (KeyError "description"), ex, k)
  | Some _ =>
      let (start_time, k1) := time_time k in
      let st := _get_current_ui_state (android_env ex) in
      match _analyze_subgoal sg (as_ui_state st) with
      | None =>
          let (now, k2) := time_time k1 in
          let (r, k3) := _create_execution_result false sg None None ""
                           (Some NoActionPlan) (PrimFloat.sub now start_time)
                           (android_env ex) k2 in
          (Ok r, {| android_env := android_env ex;
                    execution_history := execution_history ex;
                    current_ui_state := Some st |}, k3)
      | Some plan =>
          match _execute_action_plan plan sg (android_env ex) k1 with
          | (r, env1, k2) =>
              let (stamp, k3) := time_time k2 in
              let (now, k4) := time_time k3 in
              let r1 := with_duration (PrimFloat.sub now start_time) r in
              (Ok r1,
               {| android_env := env1;
                  execution_history :=
                    execution_history ex
                    ++ [{| h_subgoal := sg; h_action_plan := plan; h_result := r1;
                           h_timestamp := stamp |}];
                  current_ui_state := Some st |},
               k4)
          end
      end
  end.

(** A sequence of calls to [execute_subgoal], one per subgoal, stopping at
    the first exception. *)
Fixpoint execute_subgoals (ex : executor) (subgoals : list subgoal) (k : clock)
    : res (list execution_result) * executor * clock :=
  match subgoals with
  | [] => (Ok [], ex, k)
  | sg :: rest =>
      match execute_subgoal ex sg k with
      | (Raise e, ex1, k1) => (Raise e, ex1, k1)
      | (Ok r, ex1, k1) =>
          match execute_subgoals ex1 rest k1 with
          | (Raise e, ex2, k2) => (Raise e, ex2, k2)
          | (Ok rs, ex2, k2) => (Ok (r :: rs), ex2, k2)
          end
      end
  end.

End WithClock.

(** The subgoal finds an action plan on a screen showing [elements]. *)
Definition planned (elements : list element) (sg : subgoal) : bool :=
  Ui.is_some (_analyze_subgoal sg {| ui_elements := Some elements |}).

(** The action type, target element and coordinates of the plan a result
    records. *)
Definition performed (r : execution_result)
    : option (string * option element * option coords) :=
  match er_action_plan r with
  | Some plan => Some (action_type plan, target_element plan, coordinates plan)
  | None => None
  end.

(** The step count and the [done] flag of the environment's response a
    result records. *)
Definition reported (r : execution_result) : option (Z * bool) :=
  match env_result r with
  | Some resp => Some (rs_step_count resp, rs_done resp)
  | None => None
  end.

(** The step counts the environment reports over a run that starts after
    [n] steps: one more for each subgoal that is performed, none for the
    others. *)
Fixpoint step_numbers (n : Z) (flags : list bool) : list (option Z) :=
  match flags with
  | [] => []
  | true :: rest => Some (n + 1)%Z :: step_numbers (n + 1)%Z rest
  | false :: rest => None :: step_numbers n rest
  end.

(** What one call of [execute_subgoal] leaves behind when the wrapper is a
    mock that shows [els]: result [r] and executor [ex'], from executor
    [ex] and subgoal [sg]. *)
Definition one_call (els : list element) (ex : executor) (sg : subgoal)
    (r : execution_result) (ex' : executor) : Prop :=
  er_action_plan r = _analyze_subgoal sg {| ui_elements := Some els |}
  /\ er_success r = planned els sg
  /\ match _analyze_subgoal sg {| ui_elements := Some els |} with
     | None =>
         er_error r = Some NoActionPlan /\ env_result r = None
         /\ android_env ex' = android_env ex
         /\ execution_history ex' = execution_history ex
     | Some plan =>
         er_error r = None /\ er_message r = Some "Action executed successfully"
         /\ (exists resp,
               env_result r = Some resp
               /\ rs_step_count resp = (step_count (android_env ex) + 1)%Z
               /\ rs_done resp
                  = done_at (android_env ex) (step_count (android_env ex) + 1))
         /\ step_count (android_env ex') = (step_count (android_env ex) + 1)%Z
         /\ (exists stamp,
               execution_history ex'
               = execution_history ex
                 ++ [{| h_subgoal := sg; h_action_plan := plan; h_result := r;
                        h_timestamp := stamp |}])
         /\ (exists shown,
               ui_state_after r = Some shown /\ ob_ui_elements shown = Some els)
     end.

End Executor2Env.

(** ** Messages and their routing (src/agents/base_agent.py and the
       [process] methods of the planner, the executor and the verifier) *)

Module Base.

Import Data.

Section WithPixels.

Variable pixels : Type.

(** The [content] dict of a message, by the keys its writer gives it:
    - [{"goal": ...}] of the control loop;
    - [{"plan": ...}] and [{"plan": ..., "is_recovery": True}] of the planner,
      whose plan is whatever was decoded;
    - [{"plan": ..., "results": ...}] of the executor;
    - [{"original_goal": ..., "current_state": ..., "error": ...}] and
      [{"verification_results": ..., "overall_status": ...}] of the verifier. *)
Inductive content : Type :=
| CGoal (goal : string)
| CPlan (plan : Planner.decoded) (is_recovery : option bool)
| CExecution (plan : list step) (results : list (result pixels))
| CReplan (original_goal : option string) (current_state : option node)
    (error : string)
| CCompleted (verification_results : list Verifier.verification)
    (overall_status : string).

(** [content["goal"]] *)
Definition get_goal (c : content) : res string :=
  match c with
  | CGoal goal => Ok goal
  | _ => Raise (KeyError "goal")
  end.

(** [content["plan"]] *)
Definition get_plan (c : content) : res Planner.decoded :=
  match c with
  | CPlan plan _ => Ok plan
  | CExecution plan _ => Ok (Planner.Sized plan)
  | _ => Raise (KeyError "plan")
  end.

(** [content["results"]] *)
Definition get_results (c : content) : res (list (result pixels)) :=
  match c with
  | CExecution _ results => Ok results
  | _ => Raise (KeyError "results")
  end.

(** [content.get("original_goal")] *)
Definition original_goal_or_none (c : content) : option string :=
  match c with
  | CReplan original_goal _ _ => original_goal
  | _ => None
  end.

(** [content["original_goal"]], [content["current_state"]] and
    [content["error"]], read in this order. *)
Definition get_replan (c : content) : res (option string * option node * string) :=
  match c with
  | CReplan original_goal current_state error =>
      Ok (original_goal, current_state, error)
  | _ => Raise (KeyError "original_goal")
  end.

(** The fields of [BaseAgent] that [send_message] uses. *)
Record agent : Type := {
  name : string;
  message_history : list (System.message content)
}.

Section WithClock.

Variable clock : Type.
Variable time_time : clock -> float * clock.

Definition send_message (a : agent) (to message_type : string) (c : content)
    (k : clock) : System.message content * agent * clock :=
  let (now, k1) := time_time k in
  let msg := {| System.sender := name a; System.recipient := to;
                System.message_type := message_type; System.msg_content := c;
                System.timestamp := now |} in
  (msg, {| name := name a; message_history := message_history a ++ [msg] |}, k1).

End WithClock.

End WithPixels.

Arguments CGoal {pixels} _.
Arguments CPlan {pixels} _ _.
Arguments CExecution {pixels} _ _.
Arguments CReplan {pixels} _ _ _.
Arguments CCompleted {pixels} _ _.
Arguments name {pixels} _.
Arguments message_history {pixels} _.

(** [xs[-1]] *)
Definition last_item {A : Type} (xs : list A) : res A :=
  match rev xs with
  | x :: _ => Ok x
  | [] => Raise IndexError
  end.

End Base.

Module PlannerAgent.

Import Data Base.

(** The recovery plan [_adapt_plan] falls back to: two taps without a
    [fallback] key. *)
Definition recovery_template : list step :=
  [ {| action := "tap"; target := "Back button"; text := None;
       verification := "Previous screen"; fallback := None |};
    {| action := "tap"; target := "Home button"; text := None;
       verification := "Home screen"; fallback := None |} ].

Section WithClient.

Variable pixels : Type.

Variable client : Type.
Variable generate : string -> client -> string * client.

(** The prompt texts of [_create_test_plan] and [_adapt_plan]. *)
Variable plan_prompt : string -> string.
Variable adapt_prompt : option string -> option node -> string -> string.

(** [json.loads(response)]; [None] when it raises. *)
Variable json_loads : string -> option Planner.decoded.

Variable clock : Type.
Variable time_time : clock -> float * clock.

Local Notation session := (Llm.session client).
Local Notation ask := (Llm.ask client generate).
Local Notation message := (System.message (content pixels)).

(** The decoded value is returned as it is, with or without a length; the
    bare [except] replaces any failure to decode by the template. *)
Definition _adapt_plan (original_goal : option string) (current_state : option node)
    (error : string) (w : session) : Planner.decoded * session :=
  let prompt := adapt_prompt original_goal current_state error in
  let (response, w1) := ask prompt w in
  match json_loads response with
  | Some plan => (plan, w1)
  | None => (Planner.Sized recovery_template, w1)
  end.

Definition process (m : message) (a : agent pixels) (w : session) (k : clock)
    : res (option message) * agent pixels * session * clock :=
  if String.eqb (System.message_type m) "create_plan" then
    match get_goal pixels (System.msg_content m) with
    | Raise e => (Raise e, a, w, k)
    | Ok goal =>
        match Planner._create_test_plan client generate plan_prompt json_loads
                goal w with
        | (Raise e, w1) => (Raise e, a, w1, k)
        | (Ok plan, w1) =>
            match send_message pixels clock time_time a "ExecutorAgent"
                    "execute_plan" (CPlan (Planner.Sized plan) None) k with
            | (msg, a1, k1) => (Ok (Some msg), a1, w1, k1)
            end
        end
    end
  else if String.eqb (System.message_type m) "replan_needed" then
    match get_replan pixels (System.msg_content m) with
    | Raise e => (Raise e, a, w, k)
    | Ok (original_goal, current_state, error) =>
        let (new_plan, w1) := _adapt_plan original_goal current_state error w in
        match send_message pixels clock time_time a "ExecutorAgent" "execute_plan"
                (CPlan new_plan (Some true)) k with
        | (msg, a1, k1) => (Ok (Some msg), a1, w1, k1)
        end
    end
  else (Ok None, a, w, k).

End WithClient.

End PlannerAgent.

Module ExecutorAgent.

Import Data Base.

Section WithEnv.

Variable pixels : Type.

Variable env : Type.
Variable observe : env -> observation pixels * env.
Variable env_step : env_action -> env -> env.
Variable py_float : string -> res float.
Variable sleep : float -> env -> res env.

Variable clock : Type.
Variable time_time : clock -> float * clock.

Local Notation message := (System.message (content pixels)).

(** [process].  A plan without a length cannot be enumerated: the loop
    of [_execute_plan] raises TypeError before its first turn. *)
Definition process (m : message) (a : agent pixels) (x : Executor.agent pixels env)
    (k : clock)
    : res (option message) * agent pixels * Executor.agent pixels env * clock :=
  if String.eqb (System.message_type m) "execute_plan" then
    match get_plan pixels (System.msg_content m) with
    | Raise e => (Raise e, a, x, k)
    | Ok Planner.Unsized => (Raise TypeError, a, x, k)
    | Ok (Planner.Sized plan) =>
        match Executor._execute_plan pixels env observe env_step py_float sleep
                plan x with
        | (Raise e, x1) => (Raise e, a, x1, k)
        | (Ok results, x1) =>
            match send_message pixels clock time_time a "VerifierAgent"
                    "verify_execution" (CExecution plan results) k with
            | (msg, a1, k1) => (Ok (Some msg), a1, x1, k1)
            end
        end
    end
  else (Ok None, a, x, k).

End WithEnv.

End ExecutorAgent.

Module VerifierAgent.

Import Data Base.

Section WithClient.

Variable pixels : Type.

Variable client : Type.
Variable generate : string -> client -> string * client.
Variable verify_prompt : string -> option node -> string.
Variable json_loads : string -> option Verifier.verification.

Variable clock : Type.
Variable time_time : clock -> float * clock.

Local Notation session := (Llm.session client).
Local Notation message := (System.message (content pixels)).

(** [process].  The content of a replanning request is built key by key:
    [content.get("original_goal")], then the [current_state] of the last
    verification, which [_verify_results] always writes, then its [error],
    which only some verifications have.  Both arguments of
    [_verify_results] are read before it is called; a plan without a length
    cannot be zipped. *)
Definition process (m : message) (a : agent pixels) (w : session) (k : clock)
    : res (option message) * agent pixels * session * clock :=
  if String.eqb (System.message_type m) "verify_execution" then
    match get_plan pixels (System.msg_content m) with
    | Raise e => (Raise e, a, w, k)
    | Ok plan_value =>
        match get_results pixels (System.msg_content m) with
        | Raise e => (Raise e, a, w, k)
        | Ok results =>
            match
              match plan_value with
              | Planner.Sized plan =>
                  Verifier._verify_results pixels client generate verify_prompt
                    json_loads plan results w
              | Planner.Unsized => (Raise TypeError, w)
              end
            with
            | (Raise e, w1) => (Raise e, a, w1, k)
            | (Ok verification_results, w1) =>
                if Verifier._needs_replanning verification_results then
                  match last_item verification_results with
                  | Raise e => (Raise e, a, w1, k)
                  | Ok final =>
                      match Verifier.error final with
                      | None => (Raise (KeyError "error"), a, w1, k)
                      | Some error =>
                          match send_message pixels clock time_time a "PlannerAgent"
                                  "replan_needed"
                                  (CReplan
                                     (original_goal_or_none pixels
                                        (System.msg_content m))
                                     (Verifier.current_state final) error) k with
                          | (msg, a1, k1) => (Ok (Some msg), a1, w1, k1)
                          end
                      end
                  end
                else
                  match send_message pixels clock time_time a "SupervisorAgent"
                          "test_completed"
                          (CCompleted verification_results
                             (Verifier._determine_overall_status
                                verification_results)) k with
                  | (msg, a1, k1) => (Ok (Some msg), a1, w1, k1)
                  end
            end
        end
    end
  else (Ok None, a, w, k).

End WithClient.

(** The results a verification covers: [zip(plan, results)] stops at the
    shorter of the two. *)
Definition verified {pixels : Type} (plan : list step) (results : list (result pixels))
    : list (result pixels) :=
  firstn (List.length plan) results.

(** The execution of the result failed. *)
Definition failed {pixels : Type} (r : result pixels) : bool := negb (success r).

(** What the verification [v] of a result [r] holds when the heuristic
    judged it: the error and the replanning request of a failed execution
    and of no other, the UI tree of the result, and a status PASSED or
    FAILED. *)
Definition mirrors {pixels : Type} (v : Verifier.verification) (r : result pixels)
    : Prop :=
  Verifier.error v = (if success r then None else Some (details_error (r_details r)))
  /\ Verifier.current_state v = ui_hierarchy r
  /\ (Verifier.status v = Some "PASSED" \/ Verifier.status v = Some "FAILED")
  /\ (Py.truthy_opt_bool (Verifier.needs_replanning v)
      || (Verifier.status_is v "FAILED" && Verifier.confidence_above v 0.7%float))
     = failed r.

End VerifierAgent.

(** ** The three agents wired into the control loop
       (MultiAgentQASystem, src/tests/test_wifi_settings.py) *)

Module QASystem.

Import Data Base.

(** The names the planner, the executor and the verifier are addressed by,
    in the order a plan passes through them. *)
Definition pipeline : list string := ["PlannerAgent"; "ExecutorAgent"; "VerifierAgent"].

(** The agent at position [i] of a run that keeps to the pipeline. *)
Definition turn (i : nat) : string := nth (i mod 3) pipeline EmptyString.

(** The recipients whose message was processed and logged, in order. *)
Fixpoint logged (tr : list System.event) : list string :=
  match tr with
  | [] => []
  | System.StepLogged to _ _ :: rest => to :: logged rest
  | _ :: rest => logged rest
  end.

(** The names keep to the pipeline from position [p] on: the first [n] of
    them are the agents whose turn it is, and either there is no other
    name or the next one is the supervisor, standing in the planner's
    place, after a verification. *)
Definition keeps_to (p : nat) (names : list string) : Prop :=
  exists n,
    firstn n names = map turn (seq p n)
    /\ (n = List.length names
        \/ (nth_error names n = Some "SupervisorAgent"
            /\ (p + n) mod 3 = 0 /\ 0 < n)).

Section WithWorld.

Variable pixels : Type.

Variable env : Type.
Variable observe : env -> observation pixels * env.
Variable env_step : env_action -> env -> env.
Variable py_float : string -> res float.
Variable sleep : float -> env -> res env.

Variable client : Type.
Variable generate : string -> client -> string * client.
Variable plan_prompt : string -> string.
Variable adapt_prompt : option string -> option node -> string -> string.
Variable json_loads_plan : string -> option Planner.decoded.
Variable verify_prompt : string -> option node -> string.
Variable json_loads : string -> option Verifier.verification.

Variable clock : Type.
Variable time_time : clock -> float * clock.

(** The supervisor, the logger and whatever else a run holds. *)
Variable others : Type.

(** The objects of a [MultiAgentQASystem]: the three agents, the language
    model client the planner and the verifier share, the wall clock, and
    the rest. *)
Record world : Type := {
  planner : agent pixels;
  executor : agent pixels;
  executor_fields : Executor.agent pixels env;
  verifier : agent pixels;
  llm_client : Llm.session client;
  wall_clock : clock;
  rest : others
}.

Local Notation message := (System.message (content pixels)).

(** The error of a tap on the first step of the recovery template. *)
Definition back_button_missing : string := "Could not find element: Back button".

(** The messages of a recovery that does not get past its first step, by
    the position [p] of their recipient in the pipeline: the verifier's
    request to replan, the planner's recovery template, and the executor's
    report of the one failed tap. *)
Definition recovering (p : nat) (m : message) : Prop :=
  System.recipient m = turn p
  /\ match p mod 3 with
     | 0 =>
         System.message_type m = "replan_needed"
         /\ exists original_goal current_state error,
              System.msg_content m = CReplan original_goal current_state error
     | 1 =>
         System.message_type m = "execute_plan"
         /\ exists is_recovery,
              System.msg_content m
              = CPlan (Planner.Sized PlannerAgent.recovery_template) is_recovery
     | _ =>
         System.message_type m = "verify_execution"
         /\ exists r,
              System.msg_content m = CExecution PlannerAgent.recovery_template [r]
              /\ success r = false
              /\ r_details r = DError back_button_missing
     end.

(** [self.planner.process(current_message)] *)
Definition planner_process (m : message) (w : world) : res (option message) * world :=
  match PlannerAgent.process pixels client generate plan_prompt adapt_prompt
          json_loads_plan clock time_time m (planner w) (llm_client w)
          (wall_clock w) with
  | (out, a, s, k) =>
      (out, {| planner := a; executor := executor w;
               executor_fields := executor_fields w; verifier := verifier w;
               llm_client := s; wall_clock := k; rest := rest w |})
  end.

(** [self.executor.process(current_message)] *)
Definition executor_process (m : message) (w : world) : res (option message) * world :=
  match ExecutorAgent.process pixels env observe env_step py_float sleep clock
          time_time m (executor w) (executor_fields w) (wall_clock w) with
  | (out, a, x, k) =>
      (out, {| planner := planner w; executor := a; executor_fields := x;
               verifier := verifier w; llm_client := llm_client w;
               wall_clock := k; rest := rest w |})
  end.

(** [self.verifier.process(current_message)] *)
Definition verifier_process (m : message) (w : world) : res (option message) * world :=
  match VerifierAgent.process pixels client generate verify_prompt json_loads clock
          time_time m (verifier w) (llm_client w) (wall_clock w) with
  | (out, a, s, k) =>
      (out, {| planner := planner w; executor := executor w;
               executor_fields := executor_fields w; verifier := a;
               llm_client := s; wall_clock := k; rest := rest w |})
  end.

End WithWorld.

End QASystem.

(** ** Reference readings of the tree searches

    What the recursive searches of the executor and the verifier compute,
    said over the pre-order listing of the tree. *)

Module Reference.

(** The nodes of a tree, parents before children, children left to right. *)
Definition nodes (ui_tree : node) : list node :=
  map snd (AndroidHelper.preorder ui_tree 0%Z).

(** The test at the head of [search_tree]: the lower-cased target occurs in
    the lower-cased text, content-desc or resource-id of the node. *)
Definition names_target (target_lower : string) (n : node) : bool :=
  PyStr.contains target_lower (PyStr.lower (Ui.get_str (n_text n)))
  || PyStr.contains target_lower (PyStr.lower (Ui.get_str (n_content_desc n)))
  || PyStr.contains target_lower (PyStr.lower (Ui.get_str (n_resource_id n))).

(** What [extract] appends for one node: its text, then its
    content-desc, each when non-empty. *)
Definition texts_of (n : node) : list string :=
  (if Py.truthy_opt_str (n_text n) then [Ui.get_str (n_text n)] else [])
  ++ (if Py.truthy_opt_str (n_content_desc n)
      then [Ui.get_str (n_content_desc n)] else []).

(** [observation.get('screen_height', 1920)] and
    [observation.get('screen_width', 1080)] *)
Definition screen_height {pixels : Type} (obs : Data.observation pixels) : Z :=
  match Data.o_screen_height obs with
  | Some h => h
  | None => 1920%Z
  end.

Definition screen_width {pixels : Type} (obs : Data.observation pixels) : Z :=
  match Data.o_screen_width obs with
  | Some w => w
  | None => 1080%Z
  end.

End Reference.

(** ** Sample data used by the worked instances below *)

Module Samples.

Import Verifier.

(** The verification the heuristic writes when a check succeeds. *)
Definition v_passed : verification := passed_because "Expected content found".

(** The heuristic's conservative default. *)
Definition v_unverified : verification := could_not_verify.

(** A model answer that reports a failure it is sure of. *)
Definition v_failed_sure : verification :=
  {| status := Some "FAILED"; reason := Some "Toggle did not change";
     confidence := Some 0.9%float; needs_replanning := None; error := None;
     step_num := None; current_state := None |}.

(** A client that answers every prompt with text that does not decode. *)
Definition mute_client (prompt : string) (c : unit) : string * unit := ("", c).

Definition plain_prompt (expected : string) (tree : option node) : string := expected.

Definition never_decodes (response : string) : option verification := None.

Definition fresh_session : Llm.session unit :=
  {| Llm.llm := tt; Llm.consulted := [] |}.

Definition tap_settings : Data.step :=
  {| Data.action := "tap"; Data.target := "Settings app"; Data.text := None;
     Data.verification := "Settings main screen visible";
     Data.fallback := Some "Open from app drawer" |}.

(** The result the executor records when the target is not on screen. *)
Definition tap_settings_failed : Data.result unit :=
  {| Data.r_step := tap_settings; Data.success := false;
     Data.r_details := Data.DError "Could not find element: Settings app";
     Data.screenshot := None; Data.ui_hierarchy := Some (Ui.labelled "Home" []) |}.

(** A screen with a Settings icon and, inside an unlabelled container, a
    WiFi row and its toggle. *)
Definition settings_screen : node :=
  Ui.labelled "Home"
    [Ui.widget "Settings" [0; 0; 100; 100]%Z;
     Ui.anonymous [Ui.widget "WiFi" [0; 100; 300; 150]%Z;
                   Ui.widget "Toggle" [300; 100; 400; 150]%Z]].

Definition toggle_widget : node := Ui.widget "Toggle" [300; 100; 400; 150]%Z.

Definition settings_observation : Data.observation unit :=
  {| Data.o_pixels := None; Data.o_ui_tree := Some settings_screen;
     Data.o_screen_height := None; Data.o_screen_width := None |}.

(** A recording environment: the screen never changes, and the state is
    the list of actions performed so far. *)
Definition recorder : Type := list Data.env_action.

Definition rec_observe (e : recorder) : Data.observation unit * recorder :=
  (settings_observation, e).

Definition rec_step (a : Data.env_action) (e : recorder) : recorder := e ++ [a].

(** No plan below waits, so the two clock functions are never reached. *)
Definition rec_float (token : string) : res float := Raise ValueError.

Definition rec_sleep (seconds : float) (e : recorder) : res recorder := Ok e.

Definition idle_agent : Executor.agent unit recorder :=
  {| Executor.a_env := []; Executor.current_observation := None |}.

Definition tap (target expected : string) (fallback : option string) : Data.step :=
  {| Data.action := "tap"; Data.target := target; Data.text := None;
     Data.verification := expected; Data.fallback := fallback |}.

Definition step_settings : Data.step :=
  tap "Settings" "Settings screen open" (Some "Open from app drawer").
Definition step_bluetooth : Data.step := tap "Bluetooth" "Bluetooth screen open" None.
Definition step_wifi : Data.step := tap "WiFi" "WiFi settings visible" None.
Definition step_toggle : Data.step := tap "Toggle" "WiFi is now ON" None.

Definition result_settings : Data.result unit :=
  {| Data.r_step := step_settings; Data.success := true;
     Data.r_details := Data.DTapped 50 50 "Settings";
     Data.screenshot := None; Data.ui_hierarchy := Some settings_screen |}.

Definition result_bluetooth : Data.result unit :=
  {| Data.r_step := step_bluetooth; Data.success := false;
     Data.r_details := Data.DError "Could not find element: Bluetooth";
     Data.screenshot := None; Data.ui_hierarchy := Some settings_screen |}.

Definition agent_after (actions : list Data.env_action) : Executor.agent unit recorder :=
  {| Executor.a_env := actions;
     Executor.current_observation := Some settings_observation |}.

(** A labelled leaf eleven levels below the root. *)
Definition deep_leaf : node := Ui.widget "Deep" [0; 0; 10; 10]%Z.

Definition deep_screen : node := AndroidHelper.nest 11 deep_leaf.

(** A client whose answer to every prompt is the JSON text of an empty
    list. *)
Definition answers_empty_list (prompt : string) (c : unit) : string * unit := ("[]", c).

(** A client whose answer to every prompt is the JSON text [null]. *)
Definition answers_null (prompt : string) (c : unit) : string * unit := ("null", c).

(** [json.loads] on the two texts those clients produce: [[]] decodes to
    the empty list and [null] to [None].  (No other text is passed to it
    below.) *)
Definition decode_plan (response : string) : option Planner.decoded :=
  if String.eqb response "[]" then Some (Planner.Sized [])
  else if String.eqb response "null" then Some Planner.Unsized
  else None.

Definition plain_goal_prompt (goal : string) : string := goal.

Definition never_decodes_plan (response : string) : option Planner.decoded := None.

(** Two wirings of the four agents over a world without state.  In
    [replanning] the verifier always asks for a new plan; in [reporting] it
    hands over to the supervisor, whose report goes to "System". *)
Definition reply (from to kind : string) : System.message string :=
  {| System.sender := from; System.recipient := to; System.message_type := kind;
     System.msg_content := kind; System.timestamp := 0%float |}.

Definition answer_with (from to kind : string) (m : System.message string) (w : unit)
    : res (option (System.message string)) * unit :=
  (Ok (Some (reply from to kind)), w).

Definition planner_stub := answer_with "PlannerAgent" "ExecutorAgent" "execute_plan".
Definition executor_stub := answer_with "ExecutorAgent" "VerifierAgent" "verify_execution".
Definition verifier_replans := answer_with "VerifierAgent" "PlannerAgent" "replan_needed".
Definition verifier_completes :=
  answer_with "VerifierAgent" "SupervisorAgent" "test_completed".
Definition supervisor_stub := answer_with "SupervisorAgent" "System" "test_report".

(** The agents the replanning circle passes through. *)
Definition working_agents (name : string) : bool :=
  String.eqb name "PlannerAgent" || String.eqb name "ExecutorAgent"
  || String.eqb name "VerifierAgent".

Definition accept_report (report : string) (w : unit) : res unit := Ok w.
Definition keep_screenshot (iteration : nat) (w : unit) : unit := w.
Definition goal_dict (goal : string) : string := goal.
Definition epoch (w : unit) : float := 0%float.

Definition replanning_loop : System.loop_end unit :=
  System.run_loop string unit planner_stub executor_stub verifier_replans
    supervisor_stub accept_report keep_screenshot goal_dict epoch
    "Test turning WiFi on and off" tt.

Definition replanning_run : res unit * unit * list System.event :=
  System.run_test string unit planner_stub executor_stub verifier_replans
    supervisor_stub accept_report keep_screenshot goal_dict epoch
    "Test turning WiFi on and off" tt.

Definition reporting_loop : System.loop_end unit :=
  System.run_loop string unit planner_stub executor_stub verifier_completes
    supervisor_stub accept_report keep_screenshot goal_dict epoch
    "Test turning WiFi on and off" tt.

Definition reporting_run : res unit * unit * list System.event :=
  System.run_test string unit planner_stub executor_stub verifier_completes
    supervisor_stub accept_report keep_screenshot goal_dict epoch
    "Test turning WiFi on and off" tt.

(** A step that asks for typing, and a wait whose target is blank. *)
Definition step_type : Data.step :=
  {| Data.action := "type"; Data.target := "Search box"; Data.text := Some "wifi";
     Data.verification := "Text entered"; Data.fallback := Some "Skip" |}.

Definition step_blank_wait : Data.step :=
  {| Data.action := "wait"; Data.target := "  "; Data.text := None;
     Data.verification := "Screen settled"; Data.fallback := Some "Continue anyway" |}.

(** A screen description with the two sizes given. *)
Definition sized_observation (height width : Z) : Data.observation unit :=
  {| Data.o_pixels := None; Data.o_ui_tree := None;
     Data.o_screen_height := Some height; Data.o_screen_width := Some width |}.

(** The three elements of the second executor's own test screen. *)
Definition settings_icon : Executor2.element :=
  {| Executor2.e_text := Some "Settings"; Executor2.e_id := Some "settings_icon";
     Executor2.e_class := None; Executor2.e_type := None;
     Executor2.e_bounds := Some [100; 200; 200; 300]%Z |}.

Definition wifi_option : Executor2.element :=
  {| Executor2.e_text := Some "WiFi"; Executor2.e_id := Some "wifi_option";
     Executor2.e_class := None; Executor2.e_type := None;
     Executor2.e_bounds := Some [50; 350; 350; 400]%Z |}.

Definition wifi_toggle : Executor2.element :=
  {| Executor2.e_text := Some "Toggle"; Executor2.e_id := Some "wifi_toggle";
     Executor2.e_class := None; Executor2.e_type := None;
     Executor2.e_bounds := Some [300; 100; 400; 150]%Z |}.

Definition test_screen : Executor2.ui_state :=
  {| Executor2.ui_elements := Some [settings_icon; wifi_option; wifi_toggle] |}.

(** A clock that counts its readings, and a wrapper as constructed. *)
Definition tick (k : nat) : float * nat := (0%float, S k).
Definition doze (seconds : float) (k : nat) : nat := k.

Definition wifi_wrapper : Wrapper.wrapper := Wrapper.__init__ "settings_wifi" true.

Definition touch_action (x y : Z) : Wrapper.android_action :=
  {| Wrapper.a_type := Some "touch";
     Wrapper.a_coordinates := Some (Executor2.AsList [x; y]);
     Wrapper.a_text := None |}.

Definition swipe_action : Wrapper.android_action :=
  {| Wrapper.a_type := Some "swipe"; Wrapper.a_coordinates := None;
     Wrapper.a_text := None |}.

(** A fresh QA executor on the freshly reset wrapper of the WiFi task, and
    two subgoals: one the executor can plan, one it cannot. *)
Definition reset_wrapper : Wrapper.wrapper :=
  snd (fst (Wrapper.reset nat tick wifi_wrapper 0%nat)).

Definition launcher_observation : Wrapper.observation :=
  fst (fst (Wrapper.reset nat tick wifi_wrapper 0%nat)).

Definition fresh_executor : Executor2Env.executor := Executor2Env.__init__ reset_wrapper.

Definition tap_wifi_option : Executor2.subgoal :=
  {| Executor2.sg_step_id := Some 3%Z;
     Executor2.sg_action := Some "tap_wifi_option";
     Executor2.sg_action_type := Some "touch";
     Executor2.sg_description := Some "Tap on WiFi settings option" |}.

Definition open_clock_app : Executor2.subgoal :=
  {| Executor2.sg_step_id := Some 1%Z;
     Executor2.sg_action := Some "open_clock_app";
     Executor2.sg_action_type := Some "navigation";
     Executor2.sg_description := Some "Open the Clock application" |}.

(** The verifier as constructed, and the executor's message about a run of
    two steps: the first tap failed and had a fallback, the second
    succeeded. *)
Definition verifier_agent : Base.agent unit :=
  {| Base.name := "VerifierAgent"; Base.message_history := [] |}.

Definition recovered_run : System.message (Base.content unit) :=
  {| System.sender := "ExecutorAgent"; System.recipient := "VerifierAgent";
     System.message_type := "verify_execution";
     System.msg_content :=
       Base.CExecution [tap_settings; step_settings]
         [tap_settings_failed; result_settings];
     System.timestamp := 0%float |}.

(** The system on the recording environment: a world whose agents have
    sent nothing yet, a supervisor that answers nothing, and the
    verifier's request to replan after a tap that found no Bluetooth. *)
Definition plain_adapt_prompt (original_goal : option string)
    (current_state : option node) (error : string) : string := error.

Definition qa_world : Type := QASystem.world unit recorder unit nat unit.

Definition idle_world : qa_world :=
  {| QASystem.planner := {| Base.name := "PlannerAgent"; Base.message_history := [] |};
     QASystem.executor := {| Base.name := "ExecutorAgent"; Base.message_history := [] |};
     QASystem.executor_fields := idle_agent;
     QASystem.verifier := verifier_agent;
     QASystem.llm_client := fresh_session;
     QASystem.wall_clock := 0%nat;
     QASystem.rest := tt |}.

Definition silent_supervisor (m : System.message (Base.content unit)) (w : qa_world)
    : res (option (System.message (Base.content unit))) * qa_world := (Ok None, w).

Definition accept_qa_report (c : Base.content unit) (w : qa_world) : res qa_world := Ok w.

Definition keep_qa_screenshot (iteration : nat) (w : qa_world) : qa_world := w.

Definition replan_request : System.message (Base.content unit) :=
  {| System.sender := "VerifierAgent"; System.recipient := "PlannerAgent";
     System.message_type := "replan_needed";
     System.msg_content :=
       Base.CReplan None None "Could not find element: Bluetooth";
     System.timestamp := 0%float |}.

End Samples.

(* ===================================================================== *)
(** * Properties *)
(* ===================================================================== *)

(** ** Membership and truthiness *)

Lemma str_in_In (x : string) (xs : list string) :
  Py.str_in x xs = true <-> In x xs.
Proof.
  unfold Py.str_in. rewrite existsb_exists. split.
  - intros [y [Hy He]]. apply String.eqb_eq in He. now subst.
  - intros H. exists x. split; [assumption | apply String.eqb_refl].
Qed.

Lemma str_in_not_In (x : string) (xs : list string) :
  Py.str_in x xs = false <-> ~ In x xs.
Proof.
  rewrite <- str_in_In. destruct (Py.str_in x xs); split; congruence.
Qed.

Lemma str_in_perm (x : string) (xs ys : list string) :
  Permutation xs ys -> Py.str_in x xs = Py.str_in x ys.
Proof.
  intros HP.
  destruct (Py.str_in x ys) eqn:Hy.
  - apply str_in_In. apply str_in_In in Hy.
    eapply Permutation_in; [apply Permutation_sym; eassumption | assumption].
  - apply str_in_not_In. apply str_in_not_In in Hy.
    intros Hx. apply Hy. eapply Permutation_in; eassumption.
Qed.

Lemma all_passed_forallb (xs : list string) :
  forallb (fun s => String.eqb s "PASSED") xs = true <->
  (forall s, In s xs -> s = "PASSED").
Proof.
  rewrite forallb_forall. split; intros H s Hs.
  - apply String.eqb_eq. now apply H.
  - apply String.eqb_eq. now apply H.
Qed.

Lemma all_passed_perm (xs ys : list string) :
  Permutation xs ys ->
  forallb (fun s => String.eqb s "PASSED") xs =
  forallb (fun s => String.eqb s "PASSED") ys.
Proof.
  induction 1; simpl.
  - reflexivity.
  - now rewrite IHPermutation.
  - destruct (String.eqb x "PASSED"), (String.eqb y "PASSED"); reflexivity.
  - congruence.
Qed.

(** ** The status fold *)

Section StatusFold.

Import Verifier.

Lemma statuses_set_status_at (i : nat) (s : string) (rs : list verification) :
  i < List.length rs -> In s (statuses_of (set_status_at i s rs)).
Proof.
  revert i. induction rs as [| r rs IH]; intros i Hi; simpl in Hi.
  - lia.
  - destruct i as [| j]; simpl.
    + left. reflexivity.
    + right. apply IH. lia.
Qed.

Lemma overall_bug (rs : list verification) :
  In "BUG_DETECTED" (statuses_of rs) ->
  _determine_overall_status rs = "BUG_DETECTED".
Proof.
  intros H. unfold _determine_overall_status.
  apply str_in_In in H. cbv zeta. now rewrite H.
Qed.



(** C10. With no verified step at all the fold answers PASSED: the
    membership tests fail and [all] of an empty list holds. *)
Theorem overall_status_empty :
  _determine_overall_status [] = "PASSED".
Proof. reflexivity. Qed.

End StatusFold.

(** ** The replanning trigger *)

Section Replanning.

Import Verifier.

(** On binary64, [c <= t] excludes [t < c] (and a NaN satisfies neither). *)
Lemma float_leb_not_ltb (t c : float) :
  PrimFloat.leb c t = true -> PrimFloat.ltb t c = false.
Proof.
  rewrite leb_spec, ltb_spec. unfold SFleb, SFltb.
  destruct (Prim2SF c) as [sc | sc | | sc mc ec], (Prim2SF t) as [st | st | | st mt et];
    simpl; try congruence;
    try (destruct sc; simpl; congruence);
    try (destruct st; simpl; congruence);
    try (destruct sc, st; simpl; congruence).
  destruct sc, st; simpl; try congruence.
  - rewrite (Z.compare_antisym et ec).
    destruct (et ?= ec)%Z; simpl; try congruence.
    change (Pos.compare_cont Eq mc mt) with (Pos.compare_cont (CompOpp Eq) mc mt).
    rewrite <- Pos.compare_cont_antisym.
    destruct (Pos.compare_cont Eq mt mc); simpl; congruence.
  - rewrite (Z.compare_antisym et ec).
    destruct (et ?= ec)%Z; simpl; try congruence.
    change (Pos.compare_cont Eq mc mt) with (Pos.compare_cont (CompOpp Eq) mc mt).
    rewrite <- Pos.compare_cont_antisym.
    destruct (Pos.compare_cont Eq mt mc); simpl; congruence.
Qed.

Lemma triggers_step (r : verification) :
  (Py.truthy_opt_bool (needs_replanning r)
   || (status_is r "FAILED" && confidence_above r 0.7%float)) = true
  <-> triggers r.
Proof.
  unfold triggers, status_is, confidence_above, Py.truthy_opt_bool.
  rewrite orb_true_iff, andb_true_iff. split.
  - intros [H | [Hs Hc]].
    + left. destruct (needs_replanning r) as [[|] |]; simpl in H; congruence.
    + right. destruct (status r) as [s |]; [| discriminate].
      apply String.eqb_eq in Hs. subst s. split; [reflexivity |].
      destruct (confidence r) as [c |].
      * exists c. now split.
      * vm_compute in Hc. discriminate.
  - intros [H | [Hs [c [Hc Hlt]]]].
    + left. now rewrite H.
    + right. rewrite Hs, Hc. split; [reflexivity | assumption].
Qed.

(** C4. A run needs replanning exactly when some entry carries
    [needs_replanning = True] or is FAILED with confidence strictly above
    0.7; a lone FAILED entry at or below 0.7 (the heuristic's 0.3 among
    them) does not trigger it. *)
Theorem needs_replanning_iff (rs : list verification) :
  (_needs_replanning rs = true <-> exists r, In r rs /\ triggers r)
  /\ (forall r c,
        status r = Some "FAILED" -> confidence r = Some c ->
        needs_replanning r <> Some true ->
        PrimFloat.leb c 0.7%float = true ->
        ~ triggers r /\ _needs_replanning [r] = false)
  /\ _needs_replanning [Samples.v_unverified] = false.
Proof.
  split; [| split].
  - induction rs as [| r rs IH]; simpl.
    + split; [discriminate | intros [r [[] _]]].
    + destruct (Py.truthy_opt_bool (needs_replanning r)
                || (status_is r "FAILED" && confidence_above r 0.7%float)) eqn:E.
      * assert (Ht : triggers r) by now apply triggers_step.
        apply orb_true_iff in E.
        replace (if Py.truthy_opt_bool (needs_replanning r) then true
                 else if status_is r "FAILED" && confidence_above r 0.7%float
                      then true else _needs_replanning rs) with true.
        -- split; [| reflexivity]. intros _. exists r. split; [now left | assumption].
        -- destruct (Py.truthy_opt_bool (needs_replanning r)); [reflexivity |].
           destruct E as [E | E]; [discriminate | now rewrite E].
      * assert (Hn : ~ triggers r).
        { intros Ht. apply triggers_step in Ht. congruence. }
        apply orb_false_iff in E. destruct E as [E1 E2]. rewrite E1, E2.
        rewrite IH. split.
        -- intros [r' [Hin Ht]]. exists r'. split; [now right | assumption].
        -- intros [r' [[Heq | Hin] Ht]].
           ++ subst r'. contradiction.
           ++ exists r'. now split.
  - intros r c Hs Hc Hnr Hle.
    assert (Hn : ~ triggers r).
    { intros [H | [_ [c' [Hc' Hlt]]]]; [contradiction |].
      rewrite Hc in Hc'. injection Hc' as <-.
      apply float_leb_not_ltb in Hle. congruence. }
    split; [exact Hn |].
    simpl.
    destruct (Py.truthy_opt_bool (needs_replanning r)
              || (status_is r "FAILED" && confidence_above r 0.7%float)) eqn:E.
    + apply triggers_step in E. contradiction.
    + apply orb_false_iff in E. destruct E as [E1 E2]. now rewrite E1, E2.
  - vm_compute. reflexivity.
Qed.

(** C4, worked: the heuristic's default entry alone, and next to an entry
    the model is sure has failed. *)
Lemma needs_replanning_iff_witness :
  (status Samples.v_unverified = Some "FAILED"
   /\ confidence Samples.v_unverified = Some 0.3%float
   /\ needs_replanning Samples.v_unverified <> Some true
   /\ PrimFloat.leb 0.3%float 0.7%float = true)
  /\ (~ triggers Samples.v_unverified
      /\ _needs_replanning [Samples.v_unverified] = false)
  /\ ((exists r, In r [Samples.v_unverified; Samples.v_failed_sure] /\ triggers r)
      /\ _needs_replanning [Samples.v_unverified; Samples.v_failed_sure] = true).
Proof.
  assert (H1 : status Samples.v_unverified = Some "FAILED") by reflexivity.
  assert (H2 : confidence Samples.v_unverified = Some 0.3%float) by reflexivity.
  assert (H3 : needs_replanning Samples.v_unverified <> Some true) by discriminate.
  assert (H4 : PrimFloat.leb 0.3%float 0.7%float = true) by (vm_compute; reflexivity).
  assert (H5 : exists r,
             In r [Samples.v_unverified; Samples.v_failed_sure] /\ triggers r).
  { exists Samples.v_failed_sure. split; [right; now left |].
    right. split; [reflexivity |]. exists 0.9%float.
    split; [reflexivity | vm_compute; reflexivity]. }
  split; [now repeat split |].
  split.
  - exact (proj1 (proj2 (needs_replanning_iff []))
             Samples.v_unverified 0.3%float H1 H2 H3 H4).
  - split; [exact H5 |].
    exact (proj2 (proj1
      (needs_replanning_iff [Samples.v_unverified; Samples.v_failed_sure])) H5).
Defined.

End Replanning.

(** ** Classification of executed steps *)

Section Classification.

Import Llm Verifier.

Variable pixels : Type.
Variable client : Type.
Variable generate : string -> client -> string * client.
Variable verify_prompt : string -> option node -> string.
Variable json_loads : string -> option verification.

Local Notation classify := (classify pixels client generate verify_prompt json_loads).
Local Notation verify_from := (verify_from pixels client generate verify_prompt json_loads).
Local Notation _verify_results :=
  (_verify_results pixels client generate verify_prompt json_loads).
Local Notation _verify_step_outcome :=
  (_verify_step_outcome pixels client generate verify_prompt json_loads).
Local Notation prompts_for := (prompts_for pixels verify_prompt).

Lemma step_outcome_consults (expected : string) (tree : option node)
    (shot : option pixels) (w : session client) :
  consulted (snd (_verify_step_outcome expected tree shot w))
  = consulted w ++ [verify_prompt expected tree].
Proof.
  unfold Verifier._verify_step_outcome, Llm.ask.
  destruct (generate (verify_prompt expected tree) (llm w)) as [response c].
  destruct (json_loads response); [reflexivity |].
  destruct tree; reflexivity.
Qed.

Lemma classify_failed (i : nat) (st : Data.step) (r : Data.result pixels)
    (w : session client) :
  Data.success r = false ->
  classify i st r w = (Ok (execution_failed i (Data.r_details r)), w).
Proof.
  intros H. unfold Verifier.classify. now rewrite H.
Qed.

Lemma classify_succeeded_consults (i : nat) (st : Data.step) (r : Data.result pixels)
    (w : session client) :
  Data.success r = true ->
  consulted (snd (classify i st r w))
  = consulted w ++ [verify_prompt (Data.verification st) (Data.ui_hierarchy r)].
Proof.
  intros H. unfold Verifier.classify. rewrite H. simpl.
  rewrite <- (step_outcome_consults (Data.verification st) (Data.ui_hierarchy r)
                (Data.screenshot r) w).
  destruct (_verify_step_outcome _ _ _ w) as [[v | e] w1]; reflexivity.
Qed.

Lemma verify_from_ok (plan : list Data.step) :
  forall (results : list (Data.result pixels)) i acc w vs w',
  verify_from i plan results acc w = (Ok vs, w') ->
  exists tail,
    vs = acc ++ tail
    /\ List.length tail = Nat.min (List.length plan) (List.length results)
    /\ consulted w' = consulted w ++ prompts_for plan results
    /\ forall k r, nth_error results k = Some r -> (k < List.length plan)%nat ->
         Data.success r = false ->
         nth_error tail k
         = Some (with_current_state (Data.ui_hierarchy r)
                   (execution_failed (i + k) (Data.r_details r))).
Proof.
  induction plan as [| st plan IH]; intros results i acc w vs w' H.
  - simpl in H. injection H as <- <-. exists []. rewrite app_nil_r.
    repeat split; simpl; try now rewrite app_nil_r.
    intros k r _ Hk. inversion Hk.
  - destruct results as [| r results].
    + simpl in H. injection H as <- <-. exists []. rewrite app_nil_r.
      repeat split; simpl; try now rewrite app_nil_r.
      intros k r Hk. destruct k; discriminate.
    + simpl in H.
      destruct (classify i st r w) as [[v | e] w1] eqn:Hc; [| discriminate].
      apply IH in H. destruct H as [tail [Hvs [Hlen [Hcons Hnth]]]].
      exists (with_current_state (Data.ui_hierarchy r) v :: tail).
      split; [| split; [| split]].
      * rewrite Hvs, <- app_assoc. reflexivity.
      * simpl. now rewrite Hlen.
      * rewrite Hcons. simpl.
        destruct (Data.success r) eqn:Hs.
        -- pose proof (classify_succeeded_consults i st r w Hs) as Hq.
           rewrite Hc in Hq. simpl in Hq. rewrite Hq, <- app_assoc. reflexivity.
        -- rewrite (classify_failed i st r w Hs) in Hc.
           injection Hc as _ <-. reflexivity.
      * intros k r' Hk Hlt Hfail. destruct k as [| k]; simpl in Hk.
        -- injection Hk as <-. rewrite (classify_failed i st r w Hfail) in Hc.
           injection Hc as <- _. simpl. now rewrite Nat.add_0_r.
        -- simpl. rewrite (Hnth k r' Hk); [| simpl in Hlt; lia | assumption].
           now replace (S i + k)%nat with (i + S k)%nat by lia.
Qed.

Lemma verify_from_consults (plan : list Data.step) :
  forall (results : list (Data.result pixels)) i acc w,
  exists sent rest,
    consulted (snd (verify_from i plan results acc w)) = consulted w ++ sent
    /\ prompts_for plan results = sent ++ rest.
Proof.
  induction plan as [| st plan IH]; intros results i acc w.
  - exists [], []. simpl. now rewrite app_nil_r.
  - destruct results as [| r results].
    + exists [], []. simpl. now rewrite app_nil_r.
    + simpl. destruct (classify i st r w) as [[v | e] w1] eqn:Hc.
      * destruct (IH results (S i)
                    (acc ++ [with_current_state (Data.ui_hierarchy r) v]) w1)
          as [sent [rest [Hs Hp]]].
        destruct (Data.success r) eqn:Hsucc.
        -- pose proof (classify_succeeded_consults i st r w Hsucc) as Hq.
           rewrite Hc in Hq. simpl in Hq.
           exists (verify_prompt (Data.verification st) (Data.ui_hierarchy r) :: sent), rest.
           split.
           ++ rewrite Hs, Hq, <- app_assoc. reflexivity.
           ++ simpl. now rewrite Hp.
        -- rewrite (classify_failed i st r w Hsucc) in Hc.
           injection Hc as _ <-. exists sent, rest. now split.
      * destruct (Data.success r) eqn:Hsucc.
        -- pose proof (classify_succeeded_consults i st r w Hsucc) as Hq.
           rewrite Hc in Hq. simpl in Hq. simpl.
           exists [verify_prompt (Data.verification st) (Data.ui_hierarchy r)],
                  (prompts_for plan results).
           now split.
        -- rewrite (classify_failed i st r w Hsucc) in Hc. discriminate.
Qed.

(** A run whose successful results all carry a UI tree is verified to the
    end, whatever the client answers. *)
Lemma verify_from_returns (plan : list Data.step) :
  forall (results : list (Data.result pixels)) i acc w,
  Forall (fun r => Data.success r = true -> Data.ui_hierarchy r <> None) results ->
  exists vs w', verify_from i plan results acc w = (Ok vs, w').
Proof.
  induction plan as [| st plan IH]; intros results i acc w Hall.
  - now exists acc, w.
  - destruct results as [| r results]; [now exists acc, w |].
    inversion Hall as [| ? ? Hr Hrest]; subst. simpl.
    unfold Verifier.classify.
    destruct (Data.success r) eqn:Hs; simpl.
    + unfold Verifier._verify_step_outcome.
      destruct (Llm.ask client generate _ w) as [response w1].
      destruct (json_loads response) as [v |]; [now apply IH |].
      destruct (Data.ui_hierarchy r) as [tree |] eqn:Htree;
        [now apply IH | now destruct (Hr eq_refl)].
    + now apply IH.
Qed.

(** C5. A step whose execution failed is classified FAILED with
    [needs_replanning = True] whatever the judgment strategy would say, and
    the strategy is not consulted for it: the client and the record of its
    prompts are left as they were.  Over a whole run the prompts sent are
    those of steps whose execution succeeded, in order (all of them when
    the run is verified to the end), and every failed step's entry is the
    forced one.  A run whose successful results all carry a UI tree is
    always verified to the end. *)
Theorem failed_step_forces_replanning :
  (forall i st (r : Data.result pixels) (w : session client),
     Data.success r = false ->
     exists v,
       classify i st r w = (Ok v, w)
       /\ status v = Some "FAILED" /\ needs_replanning v = Some true
       /\ triggers v)
  /\ (forall plan (results : list (Data.result pixels)) w,
        exists sent rest,
          consulted (snd (_verify_results plan results w)) = consulted w ++ sent
          /\ prompts_for plan results = sent ++ rest)
  /\ (forall plan (results : list (Data.result pixels)) w vs w',
        _verify_results plan results w = (Ok vs, w') ->
        List.length vs = Nat.min (List.length plan) (List.length results)
        /\ consulted w' = consulted w ++ prompts_for plan results
        /\ forall k r, nth_error results k = Some r -> (k < List.length plan)%nat ->
             Data.success r = false ->
             exists v, nth_error vs k = Some v
               /\ status v = Some "FAILED" /\ needs_replanning v = Some true
               /\ step_num v = Some k)
  /\ (forall plan (results : list (Data.result pixels)) w,
        Forall (fun r => Data.success r = true -> Data.ui_hierarchy r <> None)
          results ->
        exists vs w', _verify_results plan results w = (Ok vs, w')).
Proof.
  split; [| split; [| split]].
  - intros i st r w H. exists (execution_failed i (Data.r_details r)).
    split; [now apply classify_failed |].
    repeat split. now left.
  - intros plan results w. apply verify_from_consults.
  - intros plan results w vs w' H. unfold Verifier._verify_results in H.
    apply verify_from_ok in H. destruct H as [tail [Hvs [Hlen [Hcons Hnth]]]].
    simpl in Hvs. subst vs. split; [assumption |]. split; [assumption |].
    intros k r Hk Hlt Hfail. eexists. split; [apply (Hnth k r Hk Hlt Hfail) |].
    now repeat split.
  - intros plan results w Hall. now apply verify_from_returns.
Qed.

End Classification.

(** C5, worked: a tap whose target was not found, verified by a client that
    is never asked. *)
Lemma failed_step_forces_replanning_witness :
  Data.success Samples.tap_settings_failed = false
  /\ exists v,
       Verifier.classify unit unit Samples.mute_client Samples.plain_prompt
         Samples.never_decodes 0 Samples.tap_settings Samples.tap_settings_failed
         Samples.fresh_session
       = (Ok v, Samples.fresh_session)
       /\ Verifier.status v = Some "FAILED"
       /\ Verifier.needs_replanning v = Some true
       /\ Verifier.triggers v.
Proof.
  split; [reflexivity |].
  exact (proj1 (failed_step_forces_replanning unit unit Samples.mute_client
                  Samples.plain_prompt Samples.never_decodes)
           0%nat Samples.tap_settings Samples.tap_settings_failed
           Samples.fresh_session eq_refl).
Defined.

(** ** The heuristic verifier *)

Section Heuristic.

Import Verifier.

Lemma heuristic_cases (expected : string) (ui_tree : node) :
  _heuristic_verification expected ui_tree = could_not_verify
  \/ exists why, _heuristic_verification expected ui_tree = passed_because why.
Proof.
  unfold _heuristic_verification. cbv zeta.
  destruct (PyStr.contains "visible" (PyStr.lower expected)
            || PyStr.contains "open" (PyStr.lower expected)).
  - destruct (existsb _ _); [right; eexists; reflexivity | now left].
  - destruct (PyStr.contains "on" (PyStr.lower expected)
              || PyStr.contains "off" (PyStr.lower expected)); [| now left].
    destruct (_ && _); [right; eexists; reflexivity |].
    destruct (_ && _); [right; eexists; reflexivity | now left].
Qed.

(** The heuristic answers PASSED or FAILED, never one of the other two
    statuses. *)
Lemma heuristic_status (expected : string) (ui_tree : node) :
  status (_heuristic_verification expected ui_tree) = Some "PASSED"
  \/ status (_heuristic_verification expected ui_tree) = Some "FAILED".
Proof.
  destruct (heuristic_cases expected ui_tree) as [H | [why H]]; rewrite H;
    [right | left]; reflexivity.
Qed.

(** An expectation of neither family is FAILED with confidence 0.3. *)
Lemma heuristic_unrecognised (expected : string) (ui_tree : node) :
  presence_family expected = false -> toggle_family expected = false ->
  _heuristic_verification expected ui_tree = could_not_verify
  /\ status (_heuristic_verification expected ui_tree) = Some "FAILED"
  /\ confidence (_heuristic_verification expected ui_tree) = Some 0.3%float.
Proof.
  unfold presence_family, toggle_family. intros Hp Ht.
  assert (H : _heuristic_verification expected ui_tree = could_not_verify).
  { unfold _heuristic_verification. cbv zeta. now rewrite Hp, Ht. }
  rewrite H. now repeat split.
Qed.

(** A FAILED answer of the heuristic carries confidence 0.3, which lies in
    the unit interval; a PASSED answer carries none. *)
Lemma heuristic_confidence (expected : string) (ui_tree : node) :
  (status (_heuristic_verification expected ui_tree) = Some "FAILED" ->
   confidence (_heuristic_verification expected ui_tree) = Some 0.3%float)
  /\ (status (_heuristic_verification expected ui_tree) = Some "PASSED" ->
      confidence (_heuristic_verification expected ui_tree) = None)
  /\ PrimFloat.leb 0%float 0.3%float = true
  /\ PrimFloat.leb 0.3%float 1%float = true.
Proof.
  destruct (heuristic_cases expected ui_tree) as [H | [why H]]; rewrite H;
    repeat split; simpl; intros; congruence.
Qed.

(** C6. At the expectation "Settings main screen visible" over a screen
    that shows "Settings", the heuristic answers PASSED and the answer has
    no [confidence] key: the dict holds a status and a reason only. *)
Theorem heuristic_passed_without_confidence :
  _heuristic_verification "Settings main screen visible" (Ui.labelled "Settings" [])
  = passed_because "Expected content found"
  /\ confidence
       (_heuristic_verification "Settings main screen visible" (Ui.labelled "Settings" []))
     = None.
Proof. split; vm_compute; reflexivity. Qed.

End Heuristic.

(** ** Tap grounding *)

Section TapGrounding.

Import Data Executor.

Variable pixels : Type.
Variable env : Type.
Variable observe : env -> observation pixels * env.
Variable env_step : env_action -> env -> env.

Local Notation _execute_tap := (_execute_tap pixels env env_step).
Local Notation searched_tree := (searched_tree pixels).

(** The floor midpoint of a non-empty interval lies inside it. *)
Lemma midpoint_inside (lo hi : Z) :
  (lo < hi)%Z -> (lo <= (lo + hi) / 2 < hi)%Z.
Proof.
  intros H.
  pose proof (Z.div_mod (lo + hi) 2 ltac:(lia)) as Hdm.
  pose proof (Z.mod_pos_bound (lo + hi) 2 ltac:(lia)) as Hm.
  lia.
Qed.

(** C8. When the target is matched by an element whose bounds are
    [left, top, right, bottom] with [left < right] and [top < bottom], the
    tap is issued at the floor midpoint [((left + right) div 2,
    (top + bottom) div 2)], which lies inside the bounds; the second
    executor computes the same centre. *)
Theorem tap_at_integer_midpoint
    (target : string) (obs : observation pixels) (e : env)
    (element : node) (left top right bottom : Z) :
  _find_ui_element target (searched_tree obs) = Some element ->
  n_bounds element = Some [left; top; right; bottom] ->
  (left < right)%Z -> (top < bottom)%Z ->
  _execute_tap target obs e
  = ((true, DTapped ((left + right) / 2) ((top + bottom) / 2)
              (Ui.get_str (n_text element))),
     env_step (Touch ((left + right) / 2) ((top + bottom) / 2)) e)
  /\ (left <= (left + right) / 2 < right)%Z
  /\ (top <= (top + bottom) / 2 < bottom)%Z
  /\ (forall el, Executor2.e_bounds el = Some [left; top; right; bottom] ->
        Executor2._get_element_center el
        = (((left + right) / 2)%Z, ((top + bottom) / 2)%Z)).
Proof.
  intros Hfind Hb Hlr Htb.
  split; [| split; [| split]].
  - unfold Executor._execute_tap. cbv zeta. rewrite Hfind.
    assert (Ht : Ui.truthy_node element = true).
    { unfold Ui.truthy_node. rewrite Hb. simpl.
      now rewrite !orb_true_r. }
    simpl. rewrite Ht, Hb. reflexivity.
  - now apply midpoint_inside.
  - now apply midpoint_inside.
  - intros el Hel. unfold Executor2._get_element_center. now rewrite Hel.
Qed.

End TapGrounding.

(** C8, worked: the toggle at [300, 100, 400, 150] is tapped at (350, 125). *)
Lemma tap_at_integer_midpoint_witness :
  Executor._find_ui_element "toggle"
    (Executor.searched_tree unit Samples.settings_observation)
  = Some Samples.toggle_widget
  /\ n_bounds Samples.toggle_widget = Some [300; 100; 400; 150]%Z
  /\ (300 < 400)%Z /\ (100 < 150)%Z
  /\ Executor._execute_tap unit Samples.recorder Samples.rec_step "toggle"
       Samples.settings_observation []
     = ((true, Data.DTapped 350 125 "Toggle"), [Data.Touch 350 125]).
Proof.
  assert (H1 : Executor._find_ui_element "toggle"
                 (Executor.searched_tree unit Samples.settings_observation)
               = Some Samples.toggle_widget) by (vm_compute; reflexivity).
  assert (H2 : n_bounds Samples.toggle_widget = Some [300; 100; 400; 150]%Z)
    by reflexivity.
  assert (H3 : (300 < 400)%Z) by lia.
  assert (H4 : (100 < 150)%Z) by lia.
  repeat (split; [assumption |]).
  exact (proj1 (tap_at_integer_midpoint unit Samples.recorder Samples.rec_step
                  "toggle" Samples.settings_observation [] Samples.toggle_widget
                  300 100 400 150 H1 H2 H3 H4)).
Defined.

(** ** Plan execution *)

Section PlanExecution.

Import Data Executor.

Variable pixels : Type.
Variable env : Type.
Variable observe : env -> observation pixels * env.
Variable env_step : env_action -> env -> env.
Variable py_float : string -> res float.
Variable sleep : float -> env -> res env.

Local Notation execute_step := (execute_step pixels env observe env_step py_float sleep).
Local Notation execute_from := (execute_from pixels env observe env_step py_float sleep).
Local Notation _execute_plan := (_execute_plan pixels env observe env_step py_float sleep).
Local Notation stops_here := (stops_here pixels).
Local Notation agent := (agent pixels env).

Lemma execute_step_records_step (st : step) (a a1 : agent) (r : result pixels) :
  execute_step st a = (Ok r, a1) -> r_step r = st.
Proof.
  unfold Executor.execute_step.
  destruct (observe (a_env a)) as [obs e1].
  destruct (perform pixels env env_step py_float sleep st obs e1) as [[[ok det] | ex] e2];
    intros H; [| discriminate].
  injection H as <- _. reflexivity.
Qed.

(** The results accumulated so far are only ever appended to. *)
Lemma execute_from_acc (plan : list step) :
  forall (acc : list (result pixels)) (a : agent),
  execute_from plan acc a
  = match execute_from plan [] a with
    | (Ok rs, a1) => (Ok (acc ++ rs), a1)
    | (Raise ex, a1) => (Raise ex, a1)
    end.
Proof.
  induction plan as [| st plan IH]; intros acc a; simpl.
  - now rewrite app_nil_r.
  - destruct (execute_step st a) as [[r | ex] a1]; [| reflexivity].
    destruct (stops_here r); [reflexivity |].
    rewrite (IH (acc ++ [r])), (IH [r]).
    destruct (execute_from plan [] a1) as [[rs | ex] a2]; [| reflexivity].
    now rewrite <- app_assoc.
Qed.

(** A prefix that runs through without stopping hands over to the rest. *)
Lemma execute_from_prefix (pre : list step) :
  forall (a a1 : agent) (rs : list (result pixels)),
  execute_from pre [] a = (Ok rs, a1) ->
  Forall (fun r => stops_here r = false) rs ->
  map r_step rs = pre
  /\ forall rest acc, execute_from (pre ++ rest) acc a = execute_from rest (acc ++ rs) a1.
Proof.
  induction pre as [| st pre IH]; intros a a1 rs H Hgo; simpl in H.
  - injection H as <- <-. split; [reflexivity |].
    intros rest acc. now rewrite app_nil_r.
  - destruct (execute_step st a) as [[r | ex] a2] eqn:Hs; [| discriminate].
    pose proof (execute_step_records_step _ _ _ _ Hs) as Hr.
    destruct (stops_here r) eqn:Hstop.
    + injection H as <- <-. inversion Hgo; subst. congruence.
    + rewrite execute_from_acc in H.
      destruct (execute_from pre [] a2) as [[rs' | ex] a3] eqn:Hpre; [| discriminate].
      injection H as <- <-. simpl in Hgo. inversion Hgo as [| ? ? _ Hgo']; subst.
      destruct (IH a2 a3 rs' Hpre Hgo') as [Hmap Hrest].
      split; [simpl; now rewrite Hmap |].
      intros rest acc. simpl. rewrite Hs, Hstop.
      rewrite Hrest. now rewrite <- app_assoc.
Qed.

(** Every returned list is a run of steps that did not stop, followed, when
    the plan was cut short, by the one result that stopped it. *)
Lemma execute_from_shape (plan : list step) :
  forall (a a1 : agent) (rs : list (result pixels)),
  execute_from plan [] a = (Ok rs, a1) ->
  (Forall (fun r => stops_here r = false) rs /\ map r_step rs = plan)
  \/ exists init r pre post,
       rs = init ++ [r] /\ plan = pre ++ r_step r :: post
       /\ map r_step init = pre
       /\ Forall (fun r' => stops_here r' = false) init
       /\ stops_here r = true.
Proof.
  induction plan as [| st plan IH]; intros a a1 rs H; simpl in H.
  - injection H as <- <-. left. split; constructor.
  - destruct (execute_step st a) as [[r | ex] a2] eqn:Hs; [| discriminate].
    pose proof (execute_step_records_step _ _ _ _ Hs) as Hr.
    destruct (stops_here r) eqn:Hstop.
    + injection H as <- <-. right. exists [], r, [], plan.
      rewrite Hr. repeat split; try constructor. assumption.
    + rewrite execute_from_acc in H.
      destruct (execute_from plan [] a2) as [[rs' | ex] a3] eqn:Hpl; [| discriminate].
      injection H as <- <-.
      destruct (IH a2 a3 rs' Hpl) as [[Hgo Hmap] | [init [r' [pre [post H']]]]].
      * left. split; [constructor; assumption | simpl; now rewrite Hr, Hmap].
      * destruct H' as [Hrs [Hplan [Hmap [Hgo Hst]]]].
        right. exists (r :: init), r', (st :: pre), post.
        subst rs' plan. repeat split.
        -- simpl. now rewrite Hr, Hmap.
        -- constructor; assumption.
        -- assumption.
Qed.

(** A plan of taps, scrolls and unknown actions always returns. *)
Lemma execute_from_returns (plan : list step) :
  Forall (fun st => taps_and_scrolls st = true) plan ->
  forall (acc : list (result pixels)) (a : agent),
  exists rs a1, execute_from plan acc a = (Ok rs, a1).
Proof.
  induction 1 as [| st plan Hst _ IH]; intros acc a; simpl.
  - now exists acc, a.
  - unfold taps_and_scrolls in Hst. apply andb_true_iff in Hst.
    destruct Hst as [Ht Hw]. apply negb_true_iff in Ht, Hw.
    unfold Executor.execute_step, Executor.perform.
    destruct (observe (a_env a)) as [obs e1]. rewrite Ht, Hw.
    destruct (String.eqb (action st) "tap").
    + destruct (Executor._execute_tap pixels env env_step (target st) obs e1)
        as [[ok det] e2].
      destruct (stops_here _); [eexists; eexists; reflexivity | apply IH].
    + destruct (String.eqb (action st) "scroll").
      * destruct (Executor._execute_scroll pixels env env_step (target st) obs e1)
          as [[ok det] e2].
        destruct (stops_here _); [eexists; eexists; reflexivity | apply IH].
      * destruct (stops_here _); [eexists; eexists; reflexivity | apply IH].
Qed.

(** C3. Execution halts at the first step that fails without a declared
    fallback.  Whatever a run returns is the results of the steps before it,
    none of which stopped the run, then that step's result and nothing
    after; when the steps before it run through and the step fails without
    fallback, the run returns exactly those results, one per executed step,
    and leaves the environment as that step left it; for a plan of four
    steps stopped by its second, two results.  A plan of taps and scrolls
    always returns. *)
Theorem execute_plan_stops_at_first_unrecovered_failure :
  (forall plan (a a1 : agent) rs,
     _execute_plan plan a = (Ok rs, a1) ->
     (Forall (fun r => stops_here r = false) rs /\ map r_step rs = plan)
     \/ exists init r pre post,
          rs = init ++ [r] /\ plan = pre ++ r_step r :: post
          /\ map r_step init = pre
          /\ Forall (fun r' => stops_here r' = false) init
          /\ success r = false
          /\ Py.truthy_opt_str (fallback (r_step r)) = false)
  /\ (forall pre st post (a a1 a2 : agent) rs r,
        _execute_plan pre a = (Ok rs, a1) ->
        Forall (fun r' => stops_here r' = false) rs ->
        execute_step st a1 = (Ok r, a2) ->
        success r = false ->
        Py.truthy_opt_str (fallback st) = false ->
        _execute_plan (pre ++ st :: post) a = (Ok (rs ++ [r]), a2)
        /\ map r_step (rs ++ [r]) = pre ++ [st]
        /\ List.length (rs ++ [r]) = S (List.length pre))
  /\ (forall s1 s2 s3 s4 (a a1 a2 : agent) r1 r2,
        execute_step s1 a = (Ok r1, a1) ->
        stops_here r1 = false ->
        execute_step s2 a1 = (Ok r2, a2) ->
        success r2 = false ->
        Py.truthy_opt_str (fallback s2) = false ->
        _execute_plan [s1; s2; s3; s4] a = (Ok [r1; r2], a2)
        /\ List.length [r1; r2] = 2%nat)
  /\ (forall plan (a : agent),
        Forall (fun st => taps_and_scrolls st = true) plan ->
        exists rs a1, _execute_plan plan a = (Ok rs, a1)).
Proof.
  split; [| split; [| split]].
  - intros plan a a1 rs H. unfold Executor._execute_plan in H.
    destruct (execute_from_shape plan a a1 rs H)
      as [Hl | [init [r [pre [post [H1 [H2 [H3 [H4 H5]]]]]]]]]; [now left |].
    right. exists init, r, pre, post.
    unfold Executor.stops_here in H5. apply andb_true_iff in H5.
    destruct H5 as [H5 H6]. apply negb_true_iff in H5, H6.
    now repeat split.
  - intros pre st post a a1 a2 rs r Hpre Hgo Hst Hfail Hfb.
    unfold Executor._execute_plan in *.
    destruct (execute_from_prefix pre a a1 rs Hpre Hgo) as [Hmap Hrest].
    pose proof (execute_step_records_step _ _ _ _ Hst) as Hr.
    assert (Hstop : stops_here r = true).
    { unfold Executor.stops_here. now rewrite Hfail, Hr, Hfb. }
    split; [| split].
    + rewrite Hrest. simpl. now rewrite Hst, Hstop.
    + now rewrite map_app, Hmap; simpl; rewrite Hr.
    + rewrite length_app, <- Hmap, length_map. simpl. lia.
  - intros s1 s2 s3 s4 a a1 a2 r1 r2 H1 Hgo H2 Hfail Hfb.
    pose proof (execute_step_records_step _ _ _ _ H2) as Hr.
    split; [| reflexivity].
    unfold Executor._execute_plan. simpl. rewrite H1, Hgo. simpl.
    rewrite H2. unfold Executor.stops_here. now rewrite Hfail, Hr, Hfb.
  - intros plan a Hplan. now apply execute_from_returns.
Qed.

End PlanExecution.

(** C3, worked: of four taps the second names an element that is not on
    screen and has no fallback; two results come back and only the first
    tap reached the environment. *)
Lemma execute_plan_stops_at_first_unrecovered_failure_witness :
  Executor.execute_step unit Samples.recorder Samples.rec_observe Samples.rec_step
    Samples.rec_float Samples.rec_sleep Samples.step_settings Samples.idle_agent
  = (Ok Samples.result_settings, Samples.agent_after [Data.Touch 50 50])
  /\ Executor.stops_here unit Samples.result_settings = false
  /\ Executor.execute_step unit Samples.recorder Samples.rec_observe Samples.rec_step
       Samples.rec_float Samples.rec_sleep Samples.step_bluetooth
       (Samples.agent_after [Data.Touch 50 50])
     = (Ok Samples.result_bluetooth, Samples.agent_after [Data.Touch 50 50])
  /\ Data.success Samples.result_bluetooth = false
  /\ Py.truthy_opt_str (Data.fallback Samples.step_bluetooth) = false
  /\ Executor._execute_plan unit Samples.recorder Samples.rec_observe Samples.rec_step
       Samples.rec_float Samples.rec_sleep
       [Samples.step_settings; Samples.step_bluetooth; Samples.step_wifi;
        Samples.step_toggle]
       Samples.idle_agent
     = (Ok [Samples.result_settings; Samples.result_bluetooth],
        Samples.agent_after [Data.Touch 50 50]).
Proof.
  assert (H1 : Executor.execute_step unit Samples.recorder Samples.rec_observe
                 Samples.rec_step Samples.rec_float Samples.rec_sleep
                 Samples.step_settings Samples.idle_agent
               = (Ok Samples.result_settings, Samples.agent_after [Data.Touch 50 50]))
    by (vm_compute; reflexivity).
  assert (H2 : Executor.stops_here unit Samples.result_settings = false)
    by reflexivity.
  assert (H3 : Executor.execute_step unit Samples.recorder Samples.rec_observe
                 Samples.rec_step Samples.rec_float Samples.rec_sleep
                 Samples.step_bluetooth (Samples.agent_after [Data.Touch 50 50])
               = (Ok Samples.result_bluetooth, Samples.agent_after [Data.Touch 50 50]))
    by (vm_compute; reflexivity).
  assert (H4 : Data.success Samples.result_bluetooth = false) by reflexivity.
  assert (H5 : Py.truthy_opt_str (Data.fallback Samples.step_bluetooth) = false)
    by reflexivity.
  repeat (split; [assumption |]).
  exact (proj1 (proj1 (proj2 (proj2 (execute_plan_stops_at_first_unrecovered_failure
           unit Samples.recorder Samples.rec_observe Samples.rec_step
           Samples.rec_float Samples.rec_sleep)))
           Samples.step_settings Samples.step_bluetooth Samples.step_wifi
           Samples.step_toggle Samples.idle_agent
           (Samples.agent_after [Data.Touch 50 50])
           (Samples.agent_after [Data.Touch 50 50])
           Samples.result_settings Samples.result_bluetooth H1 H2 H3 H4 H5)).
Defined.

(** ** Flattening the UI tree *)

Section Flattening.

Import AndroidHelper.

(** Induction over a tree and, with it, all the children of its root. *)
Lemma node_induction (P : node -> Prop) :
  (forall c t d r b cl sc ch,
     Forall P (Ui.get_list ch) -> P (Node c t d r b cl sc ch)) ->
  forall n, P n.
Proof.
  intros H. fix IH 1. intros [c t d r b cl sc ch]. apply H.
  destruct ch as [l |]; simpl; [| constructor].
  induction l as [| x xs IHl]; constructor; [apply IH | exact IHl].
Qed.

Lemma preorder_depths (n : node) :
  forall d, Forall (fun dn => (d <= fst dn)%Z) (preorder n d).
Proof.
  induction n as [c t ds r b cl sc ch IH] using node_induction.
  intros d. simpl. constructor; [simpl; lia |].
  destruct ch as [cs |]; [| constructor]. simpl in IH.
  induction cs as [| x xs IHxs]; simpl; [constructor |].
  inversion IH as [| ? ? Hx Hxs]; subst.
  apply Forall_app. split.
  - eapply Forall_impl; [| apply (Hx (d + 1)%Z)]. simpl. intros a Ha. lia.
  - now apply IHxs.
Qed.

Lemma filter_nothing {A : Type} (f : A -> bool) (l : list A) :
  Forall (fun x => f x = false) l -> filter f l = [].
Proof.
  induction 1 as [| x xs Hx _ IH]; simpl; [reflexivity |]. now rewrite Hx.
Qed.

Lemma filter_same {A : Type} (f g : A -> bool) (l : list A) :
  Forall (fun x => f x = g x) l -> filter f l = filter g l.
Proof.
  induction 1 as [| x xs Hx _ IH]; simpl; [reflexivity |]. now rewrite Hx, IH.
Qed.

Lemma traverse_children (max_depth d : Z) (cs : list node) :
  Forall (fun child => forall d' acc,
            traverse max_depth child d' acc
            = acc ++ map as_element (filter (kept max_depth) (preorder child d'))) cs ->
  forall acc,
  fold_left (fun acc child => traverse max_depth child d acc) cs acc
  = acc ++ map as_element
             (filter (kept max_depth) (flat_map (fun child => preorder child d) cs)).
Proof.
  induction 1 as [| x xs Hx _ IH]; intros acc; simpl.
  - now rewrite app_nil_r.
  - rewrite Hx, IH, filter_app, map_app, app_assoc. reflexivity.
Qed.

Lemma traverse_preorder (max_depth : Z) (n : node) :
  forall d acc,
  traverse max_depth n d acc
  = acc ++ map as_element (filter (kept max_depth) (preorder n d)).
Proof.
  induction n as [c t ds r b cl sc ch IH] using node_induction.
  intros d acc.
  destruct (max_depth <? d)%Z eqn:Hd.
  - assert (Hnone : filter (kept max_depth)
                      (preorder (Node c t ds r b cl sc ch) d) = []).
    { apply filter_nothing.
      eapply Forall_impl; [| apply preorder_depths].
      intros [d' n'] Hle. unfold kept. simpl in *.
      apply Z.ltb_lt in Hd.
      replace (d' <=? max_depth)%Z with false
        by (symmetry; apply Z.leb_gt; lia).
      apply andb_false_r. }
    rewrite Hnone. simpl. rewrite Hd. now rewrite app_nil_r.
  - simpl. rewrite Hd.
    assert (Hk : kept max_depth (d, Node c t ds r b cl sc ch)
                 = identifiable (element_of d (Node c t ds r b cl sc ch))).
    { unfold kept, has_signal, identifiable. simpl.
      apply Z.ltb_ge in Hd.
      replace (d <=? max_depth)%Z with true
        by (symmetry; apply Z.leb_le; lia).
      apply andb_true_r. }
    rewrite Hk.
    destruct ch as [cs |]; simpl in IH.
    + rewrite (traverse_children max_depth (d + 1)%Z cs IH).
      destruct (identifiable _); simpl; [now rewrite <- app_assoc | reflexivity].
    + destruct (identifiable _); simpl; [reflexivity | now rewrite app_nil_r].
Qed.

(** C9, as the code has it.  Flattening yields, in depth-first pre-order,
    the elements of the tree that lie no deeper than [max_depth] (10 unless
    the caller says otherwise) and carry a non-empty text,
    content-description or resource-id; when no node of the tree is deeper
    than [max_depth] this is exactly the pre-order sequence of all elements
    with such a signal. *)
Theorem parse_ui_tree_preorder_upto (ui_tree : node) (max_depth : Z) :
  parse_ui_tree ui_tree max_depth = flatten_upto max_depth ui_tree
  /\ (Forall (fun dn => (fst dn <= max_depth)%Z) (preorder ui_tree 0) ->
      parse_ui_tree ui_tree max_depth = flatten_spec ui_tree).
Proof.
  assert (H : parse_ui_tree ui_tree max_depth = flatten_upto max_depth ui_tree).
  { unfold parse_ui_tree. rewrite traverse_preorder. reflexivity. }
  split; [exact H |].
  intros Hshallow. rewrite H. unfold flatten_upto, flatten_spec. f_equal.
  apply filter_same. eapply Forall_impl; [| exact Hshallow].
  intros [d n] Hle. unfold kept. simpl in *.
  replace (d <=? max_depth)%Z with true by (symmetry; apply Z.leb_le; lia).
  apply andb_true_r.
Qed.

(** C9, worked: the sample settings screen is three levels deep. *)
Lemma parse_ui_tree_preorder_upto_witness :
  Forall (fun dn => (fst dn <= default_max_depth)%Z)
    (preorder Samples.settings_screen 0)
  /\ parse_ui_tree Samples.settings_screen default_max_depth
     = flatten_spec Samples.settings_screen.
Proof.
  assert (H : Forall (fun dn => (fst dn <= default_max_depth)%Z)
                (preorder Samples.settings_screen 0)).
  { unfold default_max_depth. simpl. repeat constructor; simpl; lia. }
  split; [exact H |].
  exact (proj2 (parse_ui_tree_preorder_upto Samples.settings_screen default_max_depth) H).
Defined.

(** C9 as stated fails eleven levels down: the labelled leaf of
    [deep_screen] has a text, stands in the pre-order sequence, and is not
    in the flattened list. *)
Lemma parse_ui_tree_drops_deep_elements :
  has_signal Samples.deep_leaf = true
  /\ In (11%Z, Samples.deep_leaf) (preorder Samples.deep_screen 0)
  /\ flatten_spec Samples.deep_screen = [element_of 11 Samples.deep_leaf]
  /\ parse_ui_tree Samples.deep_screen default_max_depth = []
  /\ parse_ui_tree Samples.deep_screen default_max_depth
     <> flatten_spec Samples.deep_screen.
Proof.
  assert (H1 : flatten_spec Samples.deep_screen = [element_of 11 Samples.deep_leaf])
    by (vm_compute; reflexivity).
  assert (H2 : parse_ui_tree Samples.deep_screen default_max_depth = [])
    by (vm_compute; reflexivity).
  split; [reflexivity |].
  split; [vm_compute; tauto |].
  split; [exact H1 |]. split; [exact H2 |].
  rewrite H1, H2. discriminate.
Qed.

End Flattening.

(** ** Plan creation *)

Section PlanCreation.

Import Data Planner.

Variable client : Type.
Variable generate : string -> client -> string * client.
Variable plan_prompt : string -> string.
Variable json_loads : string -> option decoded.

Local Notation _create_test_plan :=
  (_create_test_plan client generate plan_prompt json_loads).
Local Notation response_to := (response_to client generate plan_prompt).

Lemma default_plan_well_formed : well_formed _get_default_wifi_test_plan.
Proof.
  split; [simpl; lia |].
  unfold _get_default_wifi_test_plan. repeat constructor; discriminate.
Qed.


End PlanCreation.



(** ** The control loop *)

Section ControlLoop.

Import System.

Variable content : Type.
Variable world : Type.
Variable planner executor verifier supervisor :
  message content -> world -> res (option (message content)) * world.
Variable handle_final_report : content -> world -> res world.
Variable save_screenshot : nat -> world -> world.
Variable goal_content : string -> content.
Variable clock : world -> float.

Local Notation loop :=
  (loop content world planner executor verifier supervisor handle_final_report
     save_screenshot).
Local Notation run_loop :=
  (run_loop content world planner executor verifier supervisor handle_final_report
     save_screenshot goal_content clock).
Local Notation run_test :=
  (run_test content world planner executor verifier supervisor handle_final_report
     save_screenshot goal_content clock).
Local Notation agent_named := (agent_named content world planner executor verifier supervisor).
Local Notation never_reports :=
  (never_reports content world planner executor verifier supervisor).

Lemma count_app (f : event -> bool) (tr tr' : list event) :
  count f (tr ++ tr') = (count f tr + count f tr')%nat.
Proof. unfold count. now rewrite filter_app, length_app. Qed.

Lemma loop_invariant (budget : nat) :
  forall iteration cur resp w tr,
  (iterations (loop budget iteration cur resp w tr) <= iteration + budget)%nat
  /\ (count is_iteration_line (trace (loop budget iteration cur resp w tr))
      <= count is_iteration_line tr + budget)%nat
  /\ (count is_step_logged (trace (loop budget iteration cur resp w tr))
      <= count is_step_logged tr + budget)%nat
  /\ (how (loop budget iteration cur resp w tr) = Ok ByBudget ->
      iterations (loop budget iteration cur resp w tr) = (iteration + budget)%nat
      /\ filter announces_end (trace (loop budget iteration cur resp w tr))
         = filter announces_end tr).
Proof.
  induction budget as [| budget IH]; intros iteration cur resp w tr.
  - simpl. repeat split; try lia.
  - cbn [System.loop].
    destruct cur as [m |]; [| simpl; repeat split; try lia; discriminate].
    destruct (agent_named (recipient m)) as [process |] eqn:Hagent.
    + destruct (process m w) as [[answer | ex] w1].
      * destruct (String.eqb (recipient m) "ExecutorAgent").
        -- specialize (IH (S iteration) answer (Some answer) (save_screenshot (S iteration) w1)
             (((tr ++ [IterationLine (S iteration) (message_type m)])
                 ++ [StepLogged (recipient m) (message_type m) (S iteration)])
                ++ [ScreenshotSaved (S iteration)])).
           rewrite !count_app, !filter_app in IH. simpl in IH.
           rewrite !app_nil_r in IH.
           destruct IH as [I1 [I2 [I3 I4]]].
           unfold count in *. simpl in *.
           split; [lia | split; [lia | split; [lia |]]].
           intros Hb. destruct (I4 Hb) as [J1 J2]. split; [lia | exact J2].
        -- specialize (IH (S iteration) answer (Some answer) w1
             ((tr ++ [IterationLine (S iteration) (message_type m)])
                 ++ [StepLogged (recipient m) (message_type m) (S iteration)])).
           rewrite !count_app, !filter_app in IH. simpl in IH.
           rewrite !app_nil_r in IH.
           destruct IH as [I1 [I2 [I3 I4]]].
           unfold count in *. simpl in *.
           split; [lia | split; [lia | split; [lia |]]].
           intros Hb. destruct (I4 Hb) as [J1 J2]. split; [lia | exact J2].
      * simpl. rewrite !count_app. unfold count. simpl.
        repeat split; try lia; discriminate.
    + destruct (String.eqb (recipient m) "System").
      * destruct resp as [[r |] |].
        -- destruct (handle_final_report (msg_content r) w) as [w1 | ex];
             simpl; rewrite !count_app; unfold count; simpl;
             repeat split; try lia; discriminate.
        -- simpl; rewrite !count_app; unfold count; simpl;
             repeat split; try lia; discriminate.
        -- simpl; rewrite !count_app; unfold count; simpl;
             repeat split; try lia; discriminate.
      * simpl; rewrite !count_app; unfold count; simpl;
             repeat split; try lia; discriminate.
Qed.

(** While every agent answers with a message for an agent, the loop runs
    its whole budget. *)
Lemma loop_cycles (inside : string -> bool) (Hcycle : never_reports inside)
    (budget : nat) :
  forall iteration m resp w tr,
  inside (recipient m) = true ->
  how (loop budget iteration (Some m) resp w tr) = Ok ByBudget.
Proof.
  induction budget as [| budget IH]; intros iteration m resp w tr Hin.
  - reflexivity.
  - cbn [System.loop].
    destruct (Hcycle _ Hin) as [process [Hagent Hanswer]]. rewrite Hagent.
    destruct (Hanswer m w) as [m' [w' [Hp Hin']]]. rewrite Hp.
    destruct (String.eqb (recipient m) "ExecutorAgent"); now apply IH.
Qed.

(** C2, as the code has it.  The loop runs at most [max_iterations] = 10
    iterations, and so calls an agent at most 10 times, whatever the agents
    answer; when no message ever leaves the four agents it runs exactly 10
    and is left by its condition.  Leaving it that way announces nothing:
    no completion or unknown-recipient line is printed, the closing line
    follows as after any run, and [run_test] returns [None] as it does
    however the loop was left. *)
Theorem control_loop_bounded (test_goal : string) (w : world) :
  (iterations (run_loop test_goal w) <= max_iterations)%nat
  /\ (count is_iteration_line (trace (run_loop test_goal w)) <= max_iterations)%nat
  /\ (count is_step_logged (trace (run_loop test_goal w)) <= max_iterations)%nat
  /\ (forall inside, never_reports inside -> inside "PlannerAgent" = true ->
      how (run_loop test_goal w) = Ok ByBudget
      /\ iterations (run_loop test_goal w) = max_iterations)
  /\ (how (run_loop test_goal w) = Ok ByBudget ->
      iterations (run_loop test_goal w) = max_iterations
      /\ filter announces_end (trace (run_loop test_goal w)) = []
      /\ run_test test_goal w
         = (Ok tt, final_world (run_loop test_goal w),
            trace (run_loop test_goal w) ++ [ExecutionFinished]))
  /\ (forall l, how (run_loop test_goal w) = Ok l ->
      fst (fst (run_test test_goal w)) = Ok tt).
Proof.
  pose proof (loop_invariant (max_iterations - 0) 0
                (Some (initial_message content world goal_content clock test_goal w))
                None w [TestStart test_goal]) as [I1 [I2 [I3 I4]]].
  fold (run_loop test_goal w) in I1, I2, I3, I4.
  unfold System.count in *. simpl in I1, I2, I3, I4.
  assert (Hb : how (run_loop test_goal w) = Ok ByBudget ->
               iterations (run_loop test_goal w) = max_iterations
               /\ filter announces_end (trace (run_loop test_goal w)) = []
               /\ run_test test_goal w
                  = (Ok tt, final_world (run_loop test_goal w),
                     trace (run_loop test_goal w) ++ [ExecutionFinished])).
  { intros H. destruct (I4 H) as [J1 J2].
    split; [exact J1 | split; [exact J2 |]].
    unfold System.run_test. cbv zeta. now rewrite H. }
  split; [exact I1 | split; [exact I2 | split; [exact I3 | split; [| split]]]].
  - intros inside Hcycle Hstart.
    assert (H : how (run_loop test_goal w) = Ok ByBudget).
    { unfold System.run_loop. eapply loop_cycles; [exact Hcycle |].
      exact Hstart. }
    split; [exact H | apply (Hb H)].
  - exact Hb.
  - intros l H. unfold System.run_test. cbv zeta. now rewrite H.
Qed.

End ControlLoop.

Lemma replanning_never_reports :
  System.never_reports string unit Samples.planner_stub Samples.executor_stub
    Samples.verifier_replans Samples.supervisor_stub Samples.working_agents.
Proof.
  intros name Hin. unfold Samples.working_agents in Hin.
  destruct (String.eqb name "PlannerAgent") eqn:Hp.
  - apply String.eqb_eq in Hp. subst name. eexists. split; [reflexivity |].
    intros m w. eexists. exists w. split; reflexivity.
  - destruct (String.eqb name "ExecutorAgent") eqn:He.
    + apply String.eqb_eq in He. subst name. eexists. split; [reflexivity |].
      intros m w. eexists. exists w. split; reflexivity.
    + destruct (String.eqb name "VerifierAgent") eqn:Hv; [| discriminate].
      apply String.eqb_eq in Hv. subst name. eexists. split; [reflexivity |].
      intros m w. eexists. exists w. split; reflexivity.
Qed.

(** C2, worked: with a verifier that always asks for a new plan the loop
    runs ten iterations and is left by its condition. *)
Lemma control_loop_bounded_witness :
  System.never_reports string unit Samples.planner_stub Samples.executor_stub
    Samples.verifier_replans Samples.supervisor_stub Samples.working_agents
  /\ Samples.working_agents "PlannerAgent" = true
  /\ System.how Samples.replanning_loop = Ok System.ByBudget
  /\ System.iterations Samples.replanning_loop = System.max_iterations.
Proof.
  split; [exact replanning_never_reports |]. split; [reflexivity |].
  exact (proj1 (proj2 (proj2 (proj2
    (control_loop_bounded string unit Samples.planner_stub Samples.executor_stub
       Samples.verifier_replans Samples.supervisor_stub Samples.accept_report
       Samples.keep_screenshot Samples.goal_dict Samples.epoch
       "Test turning WiFi on and off" tt))))
    Samples.working_agents replanning_never_reports eq_refl).
Defined.

(** C2 as stated fails on the replanning circle: the loop is left by its
    budget after ten iterations, [run_test] returns what it returns after a
    run that delivered its report, and nothing in what it printed or logged
    tells the exhausted budget: the trace holds the ten iteration lines and
    step logs, the screenshots, and the closing line. *)
Lemma budget_exhaustion_not_surfaced :
  System.how Samples.replanning_loop = Ok System.ByBudget
  /\ System.iterations Samples.replanning_loop = 10%nat
  /\ System.how Samples.reporting_loop = Ok System.ByReport
  /\ fst (fst Samples.replanning_run) = Ok tt
  /\ fst (fst Samples.replanning_run) = fst (fst Samples.reporting_run)
  /\ filter System.announces_end (snd Samples.replanning_run) = []
  /\ Forall (fun ev => match ev with
                       | System.TestStart _ | System.IterationLine _ _
                       | System.StepLogged _ _ _ | System.ScreenshotSaved _
                       | System.ExecutionFinished => True
                       | _ => False
                       end) (snd Samples.replanning_run).
Proof.
  split; [vm_compute; reflexivity |]. split; [vm_compute; reflexivity |].
  split; [vm_compute; reflexivity |]. split; [vm_compute; reflexivity |].
  split; [vm_compute; reflexivity |]. split; [vm_compute; reflexivity |].
  vm_compute; repeat constructor.
Qed.

(* ===================================================================== *)
(** * Further properties of the code around the claims *)
(* ===================================================================== *)

(** ** Substrings *)

Lemma prefix_same (s : string) : String.prefix s s = true.
Proof.
  induction s as [| c s IH]; simpl; [reflexivity |].
  destruct (ascii_dec c c) as [_ | Hne]; [exact IH | now destruct Hne].
Qed.

Lemma contains_empty (s : string) : PyStr.contains EmptyString s = true.
Proof. destruct s; reflexivity. Qed.

Lemma contains_same (s : string) : PyStr.contains s s = true.
Proof.
  destruct s as [| c s]; [reflexivity |].
  cbn [PyStr.contains]. now rewrite prefix_same.
Qed.

Lemma contains_in_empty (sub : string) :
  PyStr.contains sub EmptyString = true -> sub = EmptyString.
Proof. destruct sub; [reflexivity | discriminate]. Qed.

Lemma prefix_app (sub post : string) :
  String.prefix sub (sub ++ post)%string = true.
Proof.
  induction sub as [| c sub IH]; simpl; [destruct post; reflexivity |].
  destruct (ascii_dec c c) as [_ | Hne]; [exact IH | now destruct Hne].
Qed.

Lemma contains_skip (sub s : string) (c : ascii) :
  PyStr.contains sub s = true -> PyStr.contains sub (String c s) = true.
Proof.
  intros H. cbn [PyStr.contains].
  destruct (String.prefix sub (String c s)); [reflexivity | exact H].
Qed.

Lemma contains_at_head (sub post : string) :
  PyStr.contains sub (sub ++ post)%string = true.
Proof.
  destruct sub as [| c sub].
  - apply contains_empty.
  - change (String c sub ++ post)%string with (String c (sub ++ post)%string).
    cbn [PyStr.contains].
    change (String c (sub ++ post)%string) with (String c sub ++ post)%string.
    now rewrite prefix_app.
Qed.

Lemma contains_app (sub pre post : string) :
  PyStr.contains sub (pre ++ sub ++ post)%string = true.
Proof.
  induction pre as [| c pre IH]; simpl.
  - apply contains_at_head.
  - now apply contains_skip.
Qed.

(** ** Finding an element for a tap *)

Section ElementSearch.

Import Executor Reference.

Lemma find_app {A : Type} (f : A -> bool) (l l' : list A) :
  find f (l ++ l') = match find f l with
                     | Some x => Some x
                     | None => find f l'
                     end.
Proof.
  induction l as [| x l IH]; simpl; [reflexivity |].
  destruct (f x); [reflexivity | exact IH].
Qed.

(** A node that names a non-empty target has one of the three keys. *)
Lemma names_target_truthy (target_lower : string) (n : node) :
  target_lower <> EmptyString ->
  names_target target_lower n = true -> Ui.truthy_node n = true.
Proof.
  intros Hne H. unfold names_target in H. unfold Ui.truthy_node.
  destruct n as [c t d r b cl sc ch]. simpl in *.
  destruct t as [t |]; [simpl; now rewrite ?orb_true_r |].
  destruct d as [d |]; [simpl; now rewrite ?orb_true_r |].
  destruct r as [r |]; [simpl; now rewrite ?orb_true_r |].
  destruct target_lower; [now destruct Hne | simpl in H; discriminate].
Qed.

Lemma search_tree_first (target_lower : string) (n : node) :
  search_tree target_lower n = find (names_target target_lower) (nodes n).
Proof.
  unfold nodes. generalize 0%Z.
  induction n as [c t d r b cl sc ch IH] using node_induction. intros depth.
  cbn [search_tree AndroidHelper.preorder map find].
  change (names_target target_lower (snd (depth, Node c t d r b cl sc ch)))
    with (PyStr.contains target_lower (PyStr.lower (Ui.get_str t))
          || PyStr.contains target_lower (PyStr.lower (Ui.get_str d))
          || PyStr.contains target_lower (PyStr.lower (Ui.get_str r))).
  destruct (PyStr.contains target_lower (PyStr.lower (Ui.get_str t))
            || PyStr.contains target_lower (PyStr.lower (Ui.get_str d))
            || PyStr.contains target_lower (PyStr.lower (Ui.get_str r))) eqn:Hroot;
    [reflexivity |].
  assert (Hne : target_lower <> EmptyString).
  { intros ->. now rewrite contains_empty in Hroot. }
  destruct ch as [cs |]; [| reflexivity]. simpl in IH.
  induction cs as [| child rest IHrest]; [reflexivity |].
  inversion IH as [| ? ? Hchild Hrest]; subst.
  cbn [flat_map]. rewrite map_app, find_app, <- (Hchild (depth + 1)%Z).
  destruct (search_tree target_lower child) as [found |] eqn:Hfound.
  - assert (Ht : Ui.truthy_node found = true).
    { apply (names_target_truthy target_lower); [exact Hne |].
      pose proof (eq_sym (Hchild (depth + 1)%Z)) as Hfirst.
      now apply find_some in Hfirst. }
    now rewrite Ht.
  - now apply IHrest.
Qed.

(** X1. [_find_ui_element] returns the first node of the tree, in
    depth-first pre-order and at whatever depth, whose lower-cased text,
    content-desc or resource-id contains the lower-cased target; it
    returns nothing exactly when no node does. *)
Theorem find_ui_element_first_in_preorder (target : string) (ui_tree : node) :
  _find_ui_element target ui_tree
  = find (names_target (PyStr.lower target)) (nodes ui_tree)
  /\ (_find_ui_element target ui_tree = None <->
      forall n, In n (nodes ui_tree) -> names_target (PyStr.lower target) n = false)
  /\ (forall found, _find_ui_element target ui_tree = Some found ->
      In found (nodes ui_tree) /\ names_target (PyStr.lower target) found = true).
Proof.
  unfold _find_ui_element. rewrite search_tree_first.
  split; [reflexivity | split].
  - split.
    + intros H n Hn. now apply (find_none _ _ H).
    + intros H. destruct (find _ (nodes ui_tree)) as [found |] eqn:E; [| reflexivity].
      apply find_some in E. destruct E as [Hin Hm]. rewrite (H _ Hin) in Hm.
      discriminate.
  - intros found H. now apply find_some in H.
Qed.

End ElementSearch.

(** X1, worked: the toggle of the sample screen, two levels down. *)
Lemma find_ui_element_first_in_preorder_witness :
  Executor._find_ui_element "toggle" Samples.settings_screen = Some Samples.toggle_widget
  /\ In Samples.toggle_widget (Reference.nodes Samples.settings_screen)
  /\ Reference.names_target (PyStr.lower "toggle") Samples.toggle_widget = true.
Proof.
  assert (H : Executor._find_ui_element "toggle" Samples.settings_screen
              = Some Samples.toggle_widget) by (vm_compute; reflexivity).
  split; [exact H |].
  exact (proj2 (proj2 (find_ui_element_first_in_preorder "toggle" Samples.settings_screen))
           Samples.toggle_widget H).
Defined.

(** ** What a tap and a scroll do to the environment *)

Section TapAndScroll.

Import Data Executor Reference.

Variable pixels : Type.
Variable env : Type.
Variable env_step : env_action -> env -> env.

Local Notation _execute_tap := (_execute_tap pixels env env_step).
Local Notation _execute_scroll := (_execute_scroll pixels env env_step).
Local Notation searched_tree := (searched_tree pixels).

(** X2. A tap has three outcomes and no other: the target is matched by an
    element with exactly four bounds, and one touch is sent, at the centre;
    no element is matched, the error is "Could not find element: <target>";
    the matched element's bounds are not four numbers, the error is
    "Invalid element bounds".  In both failures nothing is sent: the
    environment is left as it was. *)
Theorem tap_outcomes (target : string) (obs : observation pixels) (e : env) :
  ((exists element left top right bottom,
      found_element (_find_ui_element target (searched_tree obs)) = Some element
      /\ Ui.get_list (n_bounds element) = [left; top; right; bottom]
      /\ _execute_tap target obs e
         = ((true, DTapped ((left + right) / 2) ((top + bottom) / 2)
                     (Ui.get_str (n_text element))),
            env_step (Touch ((left + right) / 2) ((top + bottom) / 2)) e))
   \/ (found_element (_find_ui_element target (searched_tree obs)) = None
       /\ _execute_tap target obs e
          = ((false, DError ("Could not find element: " ++ target)), e))
   \/ (exists element,
         found_element (_find_ui_element target (searched_tree obs)) = Some element
         /\ List.length (Ui.get_list (n_bounds element)) <> 4%nat
         /\ _execute_tap target obs e = ((false, DError "Invalid element bounds"), e)))
  /\ (fst (fst (_execute_tap target obs e)) = false ->
      snd (_execute_tap target obs e) = e).
Proof.
  unfold Executor._execute_tap. cbv zeta.
  destruct (found_element (_find_ui_element target (searched_tree obs)))
    as [element |] eqn:Hfound.
  - destruct (Ui.get_list (n_bounds element)) as [| b0 [| b1 [| b2 [| b3 [| b4 more]]]]] eqn:Hb.
    all: try (split;
      [right; right; exists element; rewrite Hb;
       split; [reflexivity | split; [simpl; lia | reflexivity]]
      | reflexivity]).
    split; [| simpl; discriminate].
    left. exists element, b0, b1, b2, b3. now repeat split.
  - split; [right; left; now split | reflexivity].
Qed.

(** X3. A scroll ignores its target and always succeeds with one swipe of
    500 ms, down the vertical line at half the screen width, from three
    quarters of the screen height to one quarter (floor division; 1920 by
    1080 when the observation gives no size).  On a screen of non-negative
    size the swipe stays on the screen, runs upwards, and its recorded
    distance is half the height to within one half. *)
Theorem scroll_geometry (target : string) (obs : observation pixels) (e : env) :
  (0 <= screen_height obs)%Z -> (0 <= screen_width obs)%Z ->
  exists x start_y end_y,
    _execute_scroll target obs e
    = ((true, DScrolled "down" (start_y - end_y)),
       env_step (Swipe x start_y x end_y 500) e)
    /\ x = (screen_width obs / 2)%Z
    /\ start_y = (screen_height obs * 3 / 4)%Z
    /\ end_y = (screen_height obs / 4)%Z
    /\ (0 <= x <= screen_width obs)%Z
    /\ (0 <= end_y <= start_y)%Z /\ (start_y <= screen_height obs)%Z
    /\ (-1 <= 2 * (start_y - end_y) - screen_height obs <= 1)%Z.
Proof.
  intros Hh Hw.
  exists (screen_width obs / 2)%Z, (screen_height obs * 3 / 4)%Z,
         (screen_height obs / 4)%Z.
  split; [reflexivity |].
  pose proof (Z.div_mod (screen_width obs) 2 ltac:(lia)) as W.
  pose proof (Z.mod_pos_bound (screen_width obs) 2 ltac:(lia)) as W'.
  pose proof (Z.div_mod (screen_height obs * 3) 4 ltac:(lia)) as S.
  pose proof (Z.mod_pos_bound (screen_height obs * 3) 4 ltac:(lia)) as S'.
  pose proof (Z.div_mod (screen_height obs) 4 ltac:(lia)) as E.
  pose proof (Z.mod_pos_bound (screen_height obs) 4 ltac:(lia)) as E'.
  repeat split; try reflexivity; lia.
Qed.

End TapAndScroll.

(** X2, worked: a tap on something the sample screen does not show. *)
Lemma tap_outcomes_witness :
  fst (fst (Executor._execute_tap unit Samples.recorder Samples.rec_step "Bluetooth"
              Samples.settings_observation [Data.Touch 50 50])) = false
  /\ snd (Executor._execute_tap unit Samples.recorder Samples.rec_step "Bluetooth"
            Samples.settings_observation [Data.Touch 50 50]) = [Data.Touch 50 50].
Proof.
  assert (H : fst (fst (Executor._execute_tap unit Samples.recorder Samples.rec_step
                          "Bluetooth" Samples.settings_observation [Data.Touch 50 50]))
              = false) by (vm_compute; reflexivity).
  split; [exact H |].
  exact (proj2 (tap_outcomes unit Samples.recorder Samples.rec_step "Bluetooth"
                  Samples.settings_observation [Data.Touch 50 50]) H).
Defined.

(** X3, worked: a screen 801 high and 480 wide. *)
Lemma scroll_geometry_witness :
  (0 <= Reference.screen_height (Samples.sized_observation 801 480))%Z
  /\ (0 <= Reference.screen_width (Samples.sized_observation 801 480))%Z
  /\ exists x start_y end_y,
       Executor._execute_scroll unit Samples.recorder Samples.rec_step "Settings list"
         (Samples.sized_observation 801 480) []
       = ((true, Data.DScrolled "down" (start_y - end_y)),
          Samples.rec_step (Data.Swipe x start_y x end_y 500) [])
       /\ x = (Reference.screen_width (Samples.sized_observation 801 480) / 2)%Z
       /\ start_y = (Reference.screen_height (Samples.sized_observation 801 480) * 3 / 4)%Z
       /\ end_y = (Reference.screen_height (Samples.sized_observation 801 480) / 4)%Z
       /\ (0 <= x <= Reference.screen_width (Samples.sized_observation 801 480))%Z
       /\ (0 <= end_y <= start_y)%Z
       /\ (start_y <= Reference.screen_height (Samples.sized_observation 801 480))%Z
       /\ (-1 <= 2 * (start_y - end_y)
                 - Reference.screen_height (Samples.sized_observation 801 480) <= 1)%Z.
Proof.
  assert (Hh : (0 <= Reference.screen_height (Samples.sized_observation 801 480))%Z)
    by (vm_compute; discriminate).
  assert (Hw : (0 <= Reference.screen_width (Samples.sized_observation 801 480))%Z)
    by (vm_compute; discriminate).
  split; [exact Hh |]. split; [exact Hw |].
  exact (scroll_geometry unit Samples.recorder Samples.rec_step "Settings list"
           (Samples.sized_observation 801 480) [] Hh Hw).
Defined.

(** ** Steps the executor cannot run *)

Section UnrunnableSteps.

Import Data Executor.

Variable pixels : Type.
Variable env : Type.
Variable observe : env -> observation pixels * env.
Variable env_step : env_action -> env -> env.
Variable py_float : string -> res float.
Variable sleep : float -> env -> res env.

Local Notation execute_step := (execute_step pixels env observe env_step py_float sleep).
Local Notation execute_from := (execute_from pixels env observe env_step py_float sleep).
Local Notation _execute_plan := (_execute_plan pixels env observe env_step py_float sleep).
Local Notation stops_here := (stops_here pixels).
Local Notation agent := (agent pixels env).
Local Notation observed := (observed pixels env observe).

Lemma execute_step_type (st : step) (a : agent) :
  action st = "type" ->
  execute_step st a = (Raise (AttributeError "_execute_type"), observed a).
Proof.
  intros H. unfold Executor.execute_step, Executor.perform, Executor.observed.
  destruct (observe (a_env a)) as [obs e1]. now rewrite H.
Qed.

Lemma execute_step_blank_wait (st : step) (a : agent) :
  action st = "wait" -> PyStr.split (target st) = [] ->
  execute_step st a = (Raise IndexError, observed a).
Proof.
  intros H Hblank. unfold Executor.execute_step, Executor.perform, Executor.observed.
  destruct (observe (a_env a)) as [obs e1]. now rewrite H, Hblank.
Qed.

Lemma execute_step_unknown (st : step) (a : agent) :
  action st <> "tap" -> action st <> "scroll" ->
  action st <> "type" -> action st <> "wait" ->
  execute_step st a
  = (Ok {| r_step := st; success := false;
           r_details := DError ("Unknown action: " ++ action st);
           screenshot := o_pixels (fst (observe (a_env a)));
           ui_hierarchy := o_ui_tree (fst (observe (a_env a))) |},
     observed a).
Proof.
  intros H1 H2 H3 H4. unfold Executor.execute_step, Executor.perform, Executor.observed.
  destruct (observe (a_env a)) as [obs e1].
  apply String.eqb_neq in H1, H2, H3, H4. now rewrite H1, H2, H3, H4.
Qed.

(** X4. A plan that reaches a step it cannot run loses everything: when
    the steps before it ran without stopping the plan and the next step's
    action is "type" (the class has no [_execute_type]) or is a "wait" whose
    target holds no token, [_execute_plan] raises (AttributeError, resp.
    IndexError) after looking at the screen once more, and none of the
    results gathered so far is returned.  A step whose action is none of
    tap, scroll, type and wait is not an exception: it is recorded as a
    failure "Unknown action: <action>", and ends the plan when it has no
    fallback. *)
Theorem plan_lost_at_unrunnable_step
    (pre post : list step) (st : step) (a a1 : agent) (rs : list (result pixels)) :
  _execute_plan pre a = (Ok rs, a1) ->
  Forall (fun r => stops_here r = false) rs ->
  (action st = "type" ->
   _execute_plan (pre ++ st :: post) a
   = (Raise (AttributeError "_execute_type"), observed a1))
  /\ (action st = "wait" -> PyStr.split (target st) = [] ->
      _execute_plan (pre ++ st :: post) a = (Raise IndexError, observed a1))
  /\ (action st <> "tap" -> action st <> "scroll" ->
      action st <> "type" -> action st <> "wait" ->
      Py.truthy_opt_str (fallback st) = false ->
      exists r,
        _execute_plan (pre ++ st :: post) a = (Ok (rs ++ [r]), observed a1)
        /\ success r = false
        /\ r_details r = DError ("Unknown action: " ++ action st)).
Proof.
  intros Hpre Hgo. unfold Executor._execute_plan in *.
  destruct (execute_from_prefix pixels env observe env_step py_float sleep
              pre a a1 rs Hpre Hgo) as [_ Hrest].
  split; [| split].
  - intros Ht. rewrite Hrest. simpl. now rewrite (execute_step_type st a1 Ht).
  - intros Hw Hblank. rewrite Hrest. simpl.
    now rewrite (execute_step_blank_wait st a1 Hw Hblank).
  - intros H1 H2 H3 H4 Hfb. rewrite Hrest. simpl.
    rewrite (execute_step_unknown st a1 H1 H2 H3 H4).
    unfold Executor.stops_here. simpl. rewrite Hfb. simpl.
    eexists. split; [reflexivity |]. now split.
Qed.

End UnrunnableSteps.

(** X4, worked: a tap that succeeds, then a step that asks for typing. *)
Lemma plan_lost_at_unrunnable_step_witness :
  Executor._execute_plan unit Samples.recorder Samples.rec_observe Samples.rec_step
    Samples.rec_float Samples.rec_sleep [Samples.step_settings] Samples.idle_agent
  = (Ok [Samples.result_settings], Samples.agent_after [Data.Touch 50 50])
  /\ Forall (fun r => Executor.stops_here unit r = false) [Samples.result_settings]
  /\ Data.action Samples.step_type = "type"
  /\ Executor._execute_plan unit Samples.recorder Samples.rec_observe Samples.rec_step
       Samples.rec_float Samples.rec_sleep
       ([Samples.step_settings] ++ Samples.step_type :: [Samples.step_toggle])
       Samples.idle_agent
     = (Raise (AttributeError "_execute_type"),
        Executor.observed unit Samples.recorder Samples.rec_observe
          (Samples.agent_after [Data.Touch 50 50])).
Proof.
  assert (H1 : Executor._execute_plan unit Samples.recorder Samples.rec_observe
                 Samples.rec_step Samples.rec_float Samples.rec_sleep
                 [Samples.step_settings] Samples.idle_agent
               = (Ok [Samples.result_settings], Samples.agent_after [Data.Touch 50 50]))
    by (vm_compute; reflexivity).
  assert (H2 : Forall (fun r => Executor.stops_here unit r = false)
                 [Samples.result_settings])
    by (repeat constructor).
  split; [exact H1 |]. split; [exact H2 |]. split; [reflexivity |].
  exact (proj1 (plan_lost_at_unrunnable_step unit Samples.recorder Samples.rec_observe
                  Samples.rec_step Samples.rec_float Samples.rec_sleep
                  [Samples.step_settings] [Samples.step_toggle] Samples.step_type
                  Samples.idle_agent (Samples.agent_after [Data.Touch 50 50])
                  [Samples.result_settings] H1 H2) eq_refl).
Defined.

(** ** More on substrings *)

Lemma prefix_inv (sub s : string) :
  String.prefix sub s = true -> exists post, s = (sub ++ post)%string.
Proof.
  revert s. induction sub as [| c sub IH]; intros s H.
  - now exists s.
  - destruct s as [| c' s]; [discriminate |]. simpl in H.
    destruct (ascii_dec c c') as [<- | _]; [| discriminate].
    destruct (IH s H) as [post ->]. now exists post.
Qed.

Lemma contains_inv (sub s : string) :
  PyStr.contains sub s = true ->
  exists pre post, s = (pre ++ sub ++ post)%string.
Proof.
  induction s as [| c s IH]; cbn [PyStr.contains]; intros H.
  - destruct (String.prefix sub EmptyString) eqn:E; [| discriminate].
    destruct (prefix_inv _ _ E) as [post Hpost]. now exists EmptyString, post.
  - destruct (String.prefix sub (String c s)) eqn:E.
    + destruct (prefix_inv _ _ E) as [post Hpost]. now exists EmptyString, post.
    + destruct (IH H) as [pre [post ->]]. now exists (String c pre), post.
Qed.

Lemma string_app_assoc (a b c : string) :
  ((a ++ b) ++ c = a ++ b ++ c)%string.
Proof. induction a as [| x a IH]; simpl; [reflexivity | now rewrite IH]. Qed.

Lemma contains_trans (a b c : string) :
  PyStr.contains a b = true -> PyStr.contains b c = true ->
  PyStr.contains a c = true.
Proof.
  intros Hab Hbc.
  destruct (contains_inv _ _ Hab) as [p1 [q1 ->]].
  destruct (contains_inv _ _ Hbc) as [p2 [q2 ->]].
  replace (p2 ++ (p1 ++ a ++ q1) ++ q2)%string
    with ((p2 ++ p1) ++ a ++ (q1 ++ q2))%string.
  - apply contains_app.
  - now rewrite !string_app_assoc.
Qed.

Lemma lower_app (a b : string) :
  PyStr.lower (a ++ b)%string = (PyStr.lower a ++ PyStr.lower b)%string.
Proof. induction a as [| x a IH]; simpl; [reflexivity | now rewrite IH]. Qed.

Lemma contains_lower (a b : string) :
  PyStr.contains a b = true ->
  PyStr.contains (PyStr.lower a) (PyStr.lower b) = true.
Proof.
  intros H. destruct (contains_inv _ _ H) as [pre [post ->]].
  rewrite !lower_app. apply contains_app.
Qed.

Lemma contains_app_r (sub a b : string) :
  PyStr.contains sub b = true -> PyStr.contains sub (a ++ b)%string = true.
Proof.
  intros H. induction a as [| c a IH]; simpl; [exact H | now apply contains_skip].
Qed.

Lemma contains_join (sep s : string) (parts : list string) :
  In s parts -> PyStr.contains s (PyStr.join sep parts) = true.
Proof.
  induction parts as [| p rest IH]; intros Hin; [destruct Hin |].
  destruct rest as [| q rest].
  - destruct Hin as [<- | []]. apply contains_same.
  - change (PyStr.join sep (p :: q :: rest))
      with (p ++ sep ++ PyStr.join sep (q :: rest))%string.
    destruct Hin as [<- | Hin].
    + apply contains_at_head.
    + apply contains_app_r, contains_app_r. now apply IH.
Qed.

(** ** The text of a screen *)

Section ScreenText.

Import Verifier Reference.

Lemma extract_children (cs : list node) (d : Z) :
  Forall (fun child => forall d' acc,
            extract child acc
            = acc ++ flat_map texts_of (map snd (AndroidHelper.preorder child d'))) cs ->
  forall acc,
  fold_left (fun acc child => extract child acc) cs acc
  = acc ++ flat_map texts_of
             (map snd (flat_map (fun child => AndroidHelper.preorder child d) cs)).
Proof.
  induction 1 as [| x xs Hx _ IH]; intros acc; simpl.
  - now rewrite app_nil_r.
  - rewrite (Hx d), IH, map_app, flat_map_app, app_assoc. reflexivity.
Qed.

Lemma extract_preorder (n : node) :
  forall d acc,
  extract n acc = acc ++ flat_map texts_of (map snd (AndroidHelper.preorder n d)).
Proof.
  induction n as [c t ds r b cl sc ch IH] using node_induction.
  intros d acc. cbn [extract AndroidHelper.preorder map flat_map].
  change (texts_of (snd (d, Node c t ds r b cl sc ch)))
    with ((if Py.truthy_opt_str t then [Ui.get_str t] else [])
          ++ (if Py.truthy_opt_str ds then [Ui.get_str ds] else [])).
  destruct ch as [cs |]; simpl in IH.
  - rewrite (extract_children cs (d + 1)%Z IH).
    destruct (Py.truthy_opt_str t), (Py.truthy_opt_str ds); simpl;
      rewrite <- ?app_assoc; reflexivity.
  - destruct (Py.truthy_opt_str t), (Py.truthy_opt_str ds); simpl;
      rewrite <- ?app_assoc, ?app_nil_r; reflexivity.
Qed.

Lemma extracted_text_holds (ui_tree n : node) (s : string) :
  In n (nodes ui_tree) -> In s (texts_of n) ->
  PyStr.contains s (_extract_all_text ui_tree) = true.
Proof.
  intros Hn Hs. unfold _extract_all_text.
  rewrite (extract_preorder ui_tree 0%Z []). simpl.
  apply contains_join. apply in_flat_map. now exists n.
Qed.

(** X5. [_extract_all_text] is the texts and content-descs of the nodes
    of the tree, in depth-first pre-order and at every depth, each node's
    text before its content-desc, empty ones left out, joined by single
    spaces.  So the non-empty text and content-desc of every node occur in
    it, and occur in its lower-cased form in theirs. *)
Theorem extract_all_text_preorder (ui_tree : node) :
  _extract_all_text ui_tree = PyStr.join " " (flat_map texts_of (nodes ui_tree))
  /\ (forall n s, In n (nodes ui_tree) -> In s (texts_of n) ->
        PyStr.contains s (_extract_all_text ui_tree) = true
        /\ PyStr.contains (PyStr.lower s) (PyStr.lower (_extract_all_text ui_tree))
           = true).
Proof.
  split.
  - unfold _extract_all_text. now rewrite (extract_preorder ui_tree 0%Z []).
  - intros n s Hn Hs.
    pose proof (extracted_text_holds ui_tree n s Hn Hs) as H.
    split; [exact H | now apply contains_lower].
Qed.

(** X6. A presence check passes on every screen that shows one of its
    keywords: when the expectation mentions "visible" or "open" and one of
    the words left after removing those two occurs in the lower-cased text
    or content-desc of some node, at any depth, the heuristic answers
    PASSED. *)
Theorem presence_check_passes (expected word s : string) (ui_tree n : node) :
  presence_family expected = true ->
  In word (PyStr.split
             (PyStr.strip (PyStr.replace "open" ""
                (PyStr.replace "visible" "" (PyStr.lower expected))))) ->
  In n (nodes ui_tree) -> In s (texts_of n) ->
  PyStr.contains word (PyStr.lower s) = true ->
  _heuristic_verification expected ui_tree = passed_because "Expected content found".
Proof.
  intros Hfam Hword Hn Hs Hocc.
  unfold _heuristic_verification. cbv zeta.
  unfold presence_family in Hfam. rewrite Hfam.
  replace (existsb _ _) with true; [reflexivity |].
  symmetry. apply existsb_exists. exists word. split; [exact Hword |].
  apply (contains_trans word (PyStr.lower s)); [exact Hocc |].
  apply contains_lower. now apply (extracted_text_holds ui_tree n s).
Qed.

End ScreenText.

(** X5, worked: the sample screen reads "Home Settings WiFi Toggle". *)
Lemma extract_all_text_preorder_witness :
  In Samples.toggle_widget (Reference.nodes Samples.settings_screen)
  /\ In "Toggle" (Reference.texts_of Samples.toggle_widget)
  /\ PyStr.contains "Toggle" (Verifier._extract_all_text Samples.settings_screen) = true
  /\ PyStr.contains (PyStr.lower "Toggle")
       (PyStr.lower (Verifier._extract_all_text Samples.settings_screen)) = true.
Proof.
  assert (H1 : In Samples.toggle_widget (Reference.nodes Samples.settings_screen))
    by (vm_compute; tauto).
  assert (H2 : In "Toggle" (Reference.texts_of Samples.toggle_widget))
    by (vm_compute; tauto).
  split; [exact H1 |]. split; [exact H2 |].
  exact (proj2 (extract_all_text_preorder Samples.settings_screen)
           Samples.toggle_widget "Toggle" H1 H2).
Defined.

(** X6, worked: "Settings main screen visible" over the sample screen. *)
Lemma presence_check_passes_witness :
  Verifier.presence_family "Settings main screen visible" = true
  /\ In "settings"
       (PyStr.split (PyStr.strip (PyStr.replace "open" ""
          (PyStr.replace "visible" "" (PyStr.lower "Settings main screen visible")))))
  /\ In (Ui.widget "Settings" [0; 0; 100; 100]%Z)
       (Reference.nodes Samples.settings_screen)
  /\ In "Settings" (Reference.texts_of (Ui.widget "Settings" [0; 0; 100; 100]%Z))
  /\ PyStr.contains "settings" (PyStr.lower "Settings") = true
  /\ Verifier._heuristic_verification "Settings main screen visible"
       Samples.settings_screen
     = Verifier.passed_because "Expected content found".
Proof.
  assert (H1 : Verifier.presence_family "Settings main screen visible" = true)
    by (vm_compute; reflexivity).
  assert (H2 : In "settings"
                 (PyStr.split (PyStr.strip (PyStr.replace "open" ""
                    (PyStr.replace "visible" ""
                       (PyStr.lower "Settings main screen visible"))))))
    by (vm_compute; tauto).
  assert (H3 : In (Ui.widget "Settings" [0; 0; 100; 100]%Z)
                 (Reference.nodes Samples.settings_screen))
    by (vm_compute; tauto).
  assert (H4 : In "Settings" (Reference.texts_of (Ui.widget "Settings" [0; 0; 100; 100]%Z)))
    by (vm_compute; tauto).
  assert (H5 : PyStr.contains "settings" (PyStr.lower "Settings") = true)
    by (vm_compute; reflexivity).
  repeat (split; [assumption |]).
  exact (presence_check_passes "Settings main screen visible" "settings" "Settings"
           Samples.settings_screen (Ui.widget "Settings" [0; 0; 100; 100]%Z)
           H1 H2 H3 H4 H5).
Defined.

(** ** Verification when no answer decodes *)

Section UndecodedAnswers.

Import Llm Verifier.

Variable pixels : Type.
Variable client : Type.
Variable generate : string -> client -> string * client.
Variable verify_prompt : string -> option node -> string.
Variable json_loads : string -> option verification.

Local Notation classify := (classify pixels client generate verify_prompt json_loads).
Local Notation verify_from := (verify_from pixels client generate verify_prompt json_loads).
Local Notation _verify_results :=
  (_verify_results pixels client generate verify_prompt json_loads).

(** No response of the client decodes (as when [json] is not importable). *)
Hypothesis no_answer_decodes : forall response, json_loads response = None.

Lemma needs_replanning_cons (v : verification) (vs : list verification) :
  _needs_replanning (v :: vs)
  = (Py.truthy_opt_bool (needs_replanning v)
     || (status_is v "FAILED" && confidence_above v 0.7%float))
    || _needs_replanning vs.
Proof.
  simpl. destruct (Py.truthy_opt_bool (needs_replanning v)); [reflexivity |].
  destruct (status_is v "FAILED" && confidence_above v 0.7%float); reflexivity.
Qed.

Lemma classify_undecoded (i : nat) (st : Data.step) (r : Data.result pixels)
    (w : session client) :
  (Data.success r = true -> Data.ui_hierarchy r <> None) ->
  exists v w1,
    classify i st r w = (Ok v, w1)
    /\ (status v = Some "PASSED" \/ status v = Some "FAILED")
    /\ (Py.truthy_opt_bool (needs_replanning v)
        || (status_is v "FAILED" && confidence_above v 0.7%float))
       = negb (Data.success r).
Proof.
  intros Htree. unfold Verifier.classify.
  destruct (Data.success r) eqn:Hs; simpl.
  - unfold Verifier._verify_step_outcome.
    destruct (ask client generate _ w) as [response w1].
    rewrite no_answer_decodes.
    destruct (Data.ui_hierarchy r) as [tree |]; [| now destruct (Htree eq_refl)].
    eexists. exists w1. split; [reflexivity |].
    destruct (heuristic_cases (Data.verification st) tree) as [H | [why H]];
      rewrite H; split; try (now right); try (now left); vm_compute; reflexivity.
  - eexists. exists w. split; [reflexivity |]. split; [now right | reflexivity].
Qed.

Lemma verify_from_undecoded (plan : list Data.step) :
  forall (results : list (Data.result pixels)) i acc w,
  Forall (fun r => Data.success r = true -> Data.ui_hierarchy r <> None) results ->
  exists tail w',
    verify_from i plan results acc w = (Ok (acc ++ tail), w')
    /\ Forall (fun v => status v = Some "PASSED" \/ status v = Some "FAILED") tail
    /\ (_needs_replanning tail = true <->
        exists r, In r (firstn (List.length plan) results) /\ Data.success r = false).
Proof.
  induction plan as [| st plan IH]; intros results i acc w Hall.
  - exists [], w. simpl. rewrite app_nil_r. repeat split; try constructor.
    + discriminate.
    + intros [r [[] _]].
  - destruct results as [| r results].
    + exists [], w. simpl. rewrite app_nil_r. repeat split; try constructor.
      * discriminate.
      * intros [r [[] _]].
    + inversion Hall as [| ? ? Hr Hrest]; subst.
      destruct (classify_undecoded i st r w Hr) as [v [w1 [Hc [Hst Htrig]]]].
      destruct (IH results (S i)
                  (acc ++ [with_current_state (Data.ui_hierarchy r) v]) w1 Hrest)
        as [tail [w' [Hv [Hall' Hiff]]]].
      exists (with_current_state (Data.ui_hierarchy r) v :: tail), w'.
      split; [| split].
      * simpl. rewrite Hc, Hv, <- app_assoc. reflexivity.
      * constructor; [exact Hst | exact Hall'].
      * rewrite needs_replanning_cons.
        change (Py.truthy_opt_bool
                  (needs_replanning (with_current_state (Data.ui_hierarchy r) v))
                || (status_is (with_current_state (Data.ui_hierarchy r) v) "FAILED"
                    && confidence_above
                         (with_current_state (Data.ui_hierarchy r) v) 0.7%float))
          with (Py.truthy_opt_bool (needs_replanning v)
                || (status_is v "FAILED" && confidence_above v 0.7%float)).
        rewrite Htrig, orb_true_iff, Hiff. simpl. split.
        -- intros [Hf | [r' [Hin Hf]]].
           ++ exists r. split; [now left | now apply negb_true_iff].
           ++ exists r'. split; [now right | exact Hf].
        -- intros [r' [[<- | Hin] Hf]].
           ++ left. now apply negb_true_iff.
           ++ right. now exists r'.
Qed.

Lemma overall_of_passed_or_failed (vs : list verification) :
  Forall (fun v => status v = Some "PASSED" \/ status v = Some "FAILED") vs ->
  _determine_overall_status vs = "PASSED" \/ _determine_overall_status vs = "FAILED".
Proof.
  intros Hall. unfold _determine_overall_status. cbv zeta.
  assert (Hs : forall s, In s (statuses_of vs) -> s = "PASSED" \/ s = "FAILED").
  { intros s Hs. unfold statuses_of in Hs. apply in_map_iff in Hs.
    destruct Hs as [v [<- Hv]]. rewrite Forall_forall in Hall.
    unfold status_or_unknown. destruct (Hall v Hv) as [-> | ->]; [now left | now right]. }
  assert (Hb : Py.str_in "BUG_DETECTED" (statuses_of vs) = false).
  { apply str_in_not_In. intros Hin. destruct (Hs _ Hin); discriminate. }
  rewrite Hb.
  destruct (Py.str_in "FAILED" (statuses_of vs)) eqn:Hf; [now right |].
  left. replace (forallb _ _) with true; [reflexivity |].
  symmetry. apply all_passed_forallb. intros s Hin.
  destruct (Hs _ Hin) as [-> | ->]; [reflexivity |].
  apply str_in_not_In in Hf. contradiction.
Qed.

(** X7. When no answer of the client decodes, so that every executed step
    is judged by the heuristic, and every successful result carries a UI
    tree, the run is verified to the end, every verdict is PASSED or
    FAILED, the overall status is PASSED or FAILED, and replanning is
    requested exactly when the execution of some verified step failed: a
    FAILED verdict of the heuristic, at confidence 0.3, never requests it. *)
Theorem undecoded_run_replans_on_failed_execution_only
    (plan : list Data.step) (results : list (Data.result pixels))
    (w : session client) :
  Forall (fun r => Data.success r = true -> Data.ui_hierarchy r <> None) results ->
  exists vs w',
    _verify_results plan results w = (Ok vs, w')
    /\ Forall (fun v => status v = Some "PASSED" \/ status v = Some "FAILED") vs
    /\ (_needs_replanning vs = true <->
        exists r, In r (firstn (List.length plan) results) /\ Data.success r = false)
    /\ (_determine_overall_status vs = "PASSED"
        \/ _determine_overall_status vs = "FAILED").
Proof.
  intros Hall. unfold Verifier._verify_results.
  destruct (verify_from_undecoded plan results 0%nat [] w Hall)
    as [tail [w' [Hv [Hst Hiff]]]].
  exists tail, w'. simpl in Hv.
  split; [exact Hv | split; [exact Hst | split; [exact Hiff |]]].
  now apply overall_of_passed_or_failed.
Qed.

End UndecodedAnswers.

(** X7, worked: the two results of the sample run, a tap that succeeded and
    one that did not, judged without a decodable answer. *)
Lemma undecoded_run_replans_on_failed_execution_only_witness :
  (forall response, Samples.never_decodes response = None)
  /\ Forall (fun r => Data.success r = true -> Data.ui_hierarchy r <> None)
       [Samples.result_settings; Samples.result_bluetooth]
  /\ exists vs w',
       Verifier._verify_results unit unit Samples.mute_client Samples.plain_prompt
         Samples.never_decodes [Samples.step_settings; Samples.step_bluetooth]
         [Samples.result_settings; Samples.result_bluetooth] Samples.fresh_session
       = (Ok vs, w')
       /\ Forall (fun v => Verifier.status v = Some "PASSED"
                           \/ Verifier.status v = Some "FAILED") vs
       /\ (Verifier._needs_replanning vs = true <->
           exists r,
             In r (firstn (List.length [Samples.step_settings; Samples.step_bluetooth])
                     [Samples.result_settings; Samples.result_bluetooth])
             /\ Data.success r = false)
       /\ (Verifier._determine_overall_status vs = "PASSED"
           \/ Verifier._determine_overall_status vs = "FAILED").
Proof.
  assert (H1 : forall response, Samples.never_decodes response = None)
    by (intros response; reflexivity).
  assert (H2 : Forall (fun r => Data.success r = true -> Data.ui_hierarchy r <> None)
                 [Samples.result_settings; Samples.result_bluetooth]).
  { repeat constructor; simpl; discriminate. }
  split; [exact H1 |]. split; [exact H2 |].
  exact (undecoded_run_replans_on_failed_execution_only unit unit Samples.mute_client
           Samples.plain_prompt Samples.never_decodes H1
           [Samples.step_settings; Samples.step_bluetooth]
           [Samples.result_settings; Samples.result_bluetooth]
           Samples.fresh_session H2).
Defined.

(** ** The flattened tree and the search over it *)

Section FlattenedSearch.

Import AndroidHelper.

Lemma parsed_element (ui_tree : node) (max_depth : Z) (el : element) :
  In el (parse_ui_tree ui_tree max_depth) ->
  exists d n,
    In (d, n) (preorder ui_tree 0) /\ el = element_of d n
    /\ has_signal n = true /\ (0 <= d <= max_depth)%Z.
Proof.
  unfold parse_ui_tree. rewrite traverse_preorder. simpl.
  intros H. apply in_map_iff in H. destruct H as [[d n] [<- H]].
  apply filter_In in H. destruct H as [Hin Hk].
  unfold kept in Hk. apply andb_true_iff in Hk. destruct Hk as [Hs Hd].
  simpl in *. apply Z.leb_le in Hd.
  pose proof (preorder_depths ui_tree 0%Z) as Hge.
  rewrite Forall_forall in Hge. specialize (Hge _ Hin). simpl in Hge.
  exists d, n. repeat split; try assumption; lia.
Qed.

(** X8. Every element [parse_ui_tree] returns records a depth between 0
    and [max_depth] and has a non-empty text, content-description or
    resource-id; the list is never longer than the tree has nodes, and it
    is empty when [max_depth] is negative. *)
Theorem parse_ui_tree_elements (ui_tree : node) (max_depth : Z) :
  (forall el, In el (parse_ui_tree ui_tree max_depth) ->
     (0 <= depth el <= max_depth)%Z /\ identifiable el = true)
  /\ (List.length (parse_ui_tree ui_tree max_depth)
      <= List.length (Reference.nodes ui_tree))%nat
  /\ ((max_depth < 0)%Z -> parse_ui_tree ui_tree max_depth = []).
Proof.
  split; [| split].
  - intros el H. destruct (parsed_element _ _ _ H) as [d [n [_ [-> [Hs Hd]]]]].
    split; [exact Hd | exact Hs].
  - unfold parse_ui_tree, Reference.nodes. rewrite traverse_preorder. simpl.
    rewrite !length_map. apply filter_length_le.
  - intros Hneg. unfold parse_ui_tree.
    destruct ui_tree as [c t d r b cl sc ch]. simpl.
    now replace (max_depth <? 0)%Z with true by (symmetry; apply Z.ltb_lt; lia).
Qed.

Lemma text_matches_exact_partial (text_lower : string) (el : element) :
  text_matches text_lower false el = true -> text_matches text_lower true el = true.
Proof.
  unfold text_matches. cbv zeta. rewrite !orb_true_iff.
  intros [H | H]; apply String.eqb_eq in H; rewrite <- H;
    [left | right]; apply contains_same.
Qed.

Lemma find_exists {A : Type} (f : A -> bool) (l : list A) (x : A) :
  In x l -> f x = true -> exists y, find f l = Some y.
Proof.
  intros Hin Hf. destruct (find f l) as [y |] eqn:E; [now exists y |].
  now rewrite (find_none _ _ E _ Hin) in Hf.
Qed.

(** X9. [find_element_by_text] returns an element of the flattened tree,
    so one no deeper than 10, whose lower-cased text or
    content-description contains (or, without [partial_match], equals) the
    lower-cased query.  Whatever the exact search finds, the partial search
    finds something too; and whenever the partial search finds an element,
    the executor's [_find_ui_element] finds a node for the same query. *)
Theorem find_element_by_text_found (ui_tree : node) (query : string) :
  (forall partial_match el,
     find_element_by_text ui_tree query partial_match = Some el ->
     In el (parse_ui_tree ui_tree default_max_depth)
     /\ text_matches (PyStr.lower query) partial_match el = true
     /\ (0 <= depth el <= 10)%Z)
  /\ (forall el, find_element_by_text ui_tree query false = Some el ->
      exists el', find_element_by_text ui_tree query true = Some el')
  /\ (forall el, find_element_by_text ui_tree query true = Some el ->
      exists n, Executor._find_ui_element query ui_tree = Some n).
Proof.
  split; [| split].
  - intros partial_match el H. unfold find_element_by_text in H. cbv zeta in H.
    apply find_some in H. destruct H as [Hin Hm].
    split; [exact Hin | split; [exact Hm |]].
    destruct (parsed_element _ _ _ Hin) as [d [n [_ [-> [_ Hd]]]]]. exact Hd.
  - intros el H. unfold find_element_by_text in *. cbv zeta in *.
    apply find_some in H. destruct H as [Hin Hm].
    apply (find_exists _ _ el Hin). now apply text_matches_exact_partial.
  - intros el H. unfold find_element_by_text in H. cbv zeta in H.
    apply find_some in H. destruct H as [Hin Hm].
    destruct (parsed_element _ _ _ Hin) as [d [n [Hn [-> _]]]].
    unfold Executor._find_ui_element. rewrite search_tree_first.
    apply (find_exists _ _ n).
    + unfold Reference.nodes. apply in_map_iff. now exists (d, n).
    + unfold text_matches in Hm. cbv zeta in Hm. simpl in Hm.
      unfold Reference.names_target. apply orb_true_iff in Hm.
      destruct Hm as [Hm | Hm]; rewrite Hm; now rewrite ?orb_true_r.
Qed.

End FlattenedSearch.

(** X8, worked: flattening the sample screen no deeper than its root. *)
Lemma parse_ui_tree_elements_witness :
  In (AndroidHelper.element_of 0 Samples.settings_screen)
    (AndroidHelper.parse_ui_tree Samples.settings_screen 0)
  /\ (0 <= AndroidHelper.depth (AndroidHelper.element_of 0 Samples.settings_screen) <= 0)%Z
  /\ AndroidHelper.identifiable (AndroidHelper.element_of 0 Samples.settings_screen) = true.
Proof.
  assert (H : In (AndroidHelper.element_of 0 Samples.settings_screen)
                (AndroidHelper.parse_ui_tree Samples.settings_screen 0))
    by (vm_compute; tauto).
  split; [exact H |].
  exact (proj1 (parse_ui_tree_elements Samples.settings_screen 0) _ H).
Defined.

(** X9, worked: "wifi" is found in the sample screen by both searches. *)
Lemma find_element_by_text_found_witness :
  AndroidHelper.find_element_by_text Samples.settings_screen "wifi" true
  = Some (AndroidHelper.element_of 2 (Ui.widget "WiFi" [0; 100; 300; 150]%Z))
  /\ exists n, Executor._find_ui_element "wifi" Samples.settings_screen = Some n.
Proof.
  assert (H : AndroidHelper.find_element_by_text Samples.settings_screen "wifi" true
              = Some (AndroidHelper.element_of 2 (Ui.widget "WiFi" [0; 100; 300; 150]%Z)))
    by (vm_compute; reflexivity).
  split; [exact H |].
  exact (proj2 (proj2 (find_element_by_text_found Samples.settings_screen "wifi")) _ H).
Defined.

(** ** Grounding by criteria (the second executor) *)

Section CriteriaGrounding.

Import Executor2.

Lemma find_from_some (elements : list element) (criteria_list : list criterion)
    (el : element) :
  find_from elements criteria_list = Some el ->
  In el elements
  /\ exists c, In c criteria_list /\ _element_matches_criterion el c = true.
Proof.
  induction criteria_list as [| c rest IH]; simpl; [discriminate |].
  destruct (find (fun el => _element_matches_criterion el c) elements) as [x |] eqn:E.
  - intros H. injection H as <-. apply find_some in E. destruct E as [Hin Hm].
    split; [exact Hin |]. exists c. split; [now left | exact Hm].
  - intros H. destruct (IH H) as [Hin [c' [Hc' Hm]]].
    split; [exact Hin |]. exists c'. split; [now right | exact Hm].
Qed.

Lemma find_from_none (elements : list element) (criteria_list : list criterion) :
  find_from elements criteria_list = None <->
  forall c el, In c criteria_list -> In el elements ->
               _element_matches_criterion el c = false.
Proof.
  induction criteria_list as [| c rest IH]; simpl.
  - split; [intros _ c el [] | reflexivity].
  - destruct (find (fun el => _element_matches_criterion el c) elements) as [x |] eqn:E.
    + split; [discriminate |]. intros H. apply find_some in E.
      destruct E as [Hin Hm]. rewrite (H c x (or_introl eq_refl) Hin) in Hm.
      discriminate.
    + rewrite IH. split.
      * intros H c' el [<- | Hc'] Hel; [apply (find_none _ _ E _ Hel) | now apply H].
      * intros H c' el Hc' Hel. apply H; [now right | exact Hel].
Qed.

Lemma find_from_skips (elements : list element) (before after : list criterion)
    (c : criterion) :
  (forall c' el, In c' before -> In el elements ->
                 _element_matches_criterion el c' = false) ->
  find_from elements (before ++ c :: after)
  = match find (fun el => _element_matches_criterion el c) elements with
    | Some el => Some el
    | None => find_from elements after
    end.
Proof.
  induction before as [| b before IH]; intros Hnone; simpl; [reflexivity |].
  destruct (find (fun el => _element_matches_criterion el b) elements) as [x |] eqn:E.
  - apply find_some in E. destruct E as [Hin Hm].
    rewrite (Hnone b x (or_introl eq_refl) Hin) in Hm. discriminate.
  - apply IH. intros c' el Hc' Hel. apply Hnone; [now right | exact Hel].
Qed.

(** X10. [_find_element_by_criteria] is first-match by criterion, then by
    element: the element returned is the first element, in screen order,
    that satisfies the earliest criterion satisfied by any element: an
    earlier criterion wins over an earlier element.  What it returns is on
    the screen and satisfies one of the criteria; it returns None exactly
    when no element satisfies any criterion. *)
Theorem find_by_criteria_first_match (st : ui_state) (criteria_list : list criterion) :
  (forall el, _find_element_by_criteria st criteria_list = Some el ->
     In el (Ui.get_list (ui_elements st))
     /\ exists c, In c criteria_list /\ _element_matches_criterion el c = true)
  /\ (_find_element_by_criteria st criteria_list = None <->
      forall c el, In c criteria_list -> In el (Ui.get_list (ui_elements st)) ->
                   _element_matches_criterion el c = false)
  /\ (forall before c after el,
        criteria_list = before ++ c :: after ->
        (forall c' el', In c' before -> In el' (Ui.get_list (ui_elements st)) ->
                        _element_matches_criterion el' c' = false) ->
        find (fun el' => _element_matches_criterion el' c) (Ui.get_list (ui_elements st))
        = Some el ->
        _find_element_by_criteria st criteria_list = Some el).
Proof.
  unfold _find_element_by_criteria. split; [| split].
  - intros el. apply find_from_some.
  - apply find_from_none.
  - intros before c after el -> Hnone Hfind.
    rewrite (find_from_skips _ before after c Hnone). now rewrite Hfind.
Qed.

Lemma usable_some (o : option element) (el : element) :
  usable o = Some el -> o = Some el.
Proof.
  destruct o as [x |]; simpl; [| discriminate].
  destruct (truthy_element x); [congruence | discriminate].
Qed.

Lemma touch_plan_shape (action descr : string) (st : ui_state) :
  action_type (_plan_touch_action action descr st) = "touch"
  /\ exists c, coordinates (_plan_touch_action action descr st) = Some c.
Proof.
  unfold _plan_touch_action. cbv zeta.
  destruct (usable _) as [target |].
  - split; [reflexivity | eexists; reflexivity].
  - unfold _get_fallback_coordinates.
    destruct (PyStr.contains "settings" (PyStr.lower action));
      [split; [reflexivity | eexists; reflexivity] |].
    destruct (PyStr.contains "wifi" (PyStr.lower action));
      [split; [reflexivity | eexists; reflexivity] |].
    destruct (PyStr.contains "toggle" (PyStr.lower action));
      split; try reflexivity; eexists; reflexivity.
Qed.

(** X11. Planning a touch never comes back empty-handed: the plan is always
    of type "touch" and always carries coordinates.  When it names a target
    element, that element is on the screen, its text or id contains one of
    the collected keywords, and the coordinates are its centre; when it
    names none, the coordinates are one of the four fixed fallback points. *)
Theorem touch_plan_always_grounded (action descr : string) (st : ui_state) :
  action_type (_plan_touch_action action descr st) = "touch"
  /\ (forall el, target_element (_plan_touch_action action descr st) = Some el ->
        In el (Ui.get_list (ui_elements st))
        /\ coordinates (_plan_touch_action action descr st)
           = Some (AsTuple (fst (_get_element_center el)) (snd (_get_element_center el)))
        /\ exists keyword,
             In keyword (target_keywords action descr)
             /\ (PyStr.contains (PyStr.lower keyword)
                   (PyStr.lower (Ui.get_str (e_text el))) = true
                 \/ PyStr.contains (PyStr.lower keyword)
                      (PyStr.lower (Ui.get_str (e_id el))) = true))
  /\ (target_element (_plan_touch_action action descr st) = None ->
      In (coordinates (_plan_touch_action action descr st))
         [Some (AsList [200; 400]%Z); Some (AsList [300; 300]%Z);
          Some (AsList [700; 200]%Z); Some (AsList [400; 400]%Z)]).
Proof.
  split; [apply touch_plan_shape | split].
  - unfold _plan_touch_action. cbv zeta.
    destruct (usable _) as [target |] eqn:E.
    + intros el H. simpl in H. injection H as <-.
      apply usable_some in E. unfold _find_element_by_criteria in E.
      apply find_from_some in E. destruct E as [Hin [c [Hc Hm]]].
      split; [exact Hin | split; [reflexivity |]].
      apply in_app_or in Hc. destruct Hc as [Hc | Hc];
        apply in_map_iff in Hc; destruct Hc as [k [<- Hk]]; exists k;
        (split; [exact Hk |]); [left | right]; exact Hm.
    + intros el H. exfalso. unfold _get_fallback_coordinates in H.
      destruct (PyStr.contains "settings" (PyStr.lower action)); [discriminate |].
      destruct (PyStr.contains "wifi" (PyStr.lower action)); [discriminate |].
      destruct (PyStr.contains "toggle" (PyStr.lower action)); discriminate.
  - unfold _plan_touch_action. cbv zeta.
    destruct (usable _) as [target |]; [discriminate |]. intros _.
    unfold _get_fallback_coordinates.
    destruct (PyStr.contains "settings" (PyStr.lower action)); [simpl; tauto |].
    destruct (PyStr.contains "wifi" (PyStr.lower action)); [simpl; tauto |].
    destruct (PyStr.contains "toggle" (PyStr.lower action)); simpl; tauto.
Qed.

(** The plans the executor can hand to the environment without a missing
    key: a touch has coordinates, a type has a text. *)
Lemma analysed_plan_kinds (sg : subgoal) (st : ui_state) (plan : action_plan) :
  _analyze_subgoal sg st = Some plan ->
  (action_type plan = "touch" /\ exists c, coordinates plan = Some c)
  \/ (action_type plan = "type" /\ exists t, plan_text plan = Some t)
  \/ action_type plan = "home" \/ action_type plan = "back"
  \/ action_type plan = "screenshot".
Proof.
  unfold _analyze_subgoal. cbv zeta.
  destruct (String.eqb _ "navigation" || _ || _).
  - unfold _plan_navigation_action.
    destruct (PyStr.contains "settings" _ || PyStr.contains "settings" _).
    + destruct (usable _) as [el |]; [| discriminate].
      intros H. injection H as <-. left. split; [reflexivity | eexists; reflexivity].
    + destruct (PyStr.contains "home" _);
        [intros H; injection H as <-; right; right; now left |].
      destruct (PyStr.contains "back" _); [| discriminate].
      intros H; injection H as <-. right; right; right; now left.
  - destruct (String.eqb _ "touch" || _ || _).
    + intros H. injection H as <-. left. apply touch_plan_shape.
    + destruct (String.eqb _ "verify" || _ || _).
      * intros H. injection H as <-. now repeat right.
      * destruct (String.eqb _ "input" || _ || _).
        -- unfold _plan_input_action. destruct (usable _) as [el |]; [| discriminate].
           intros H. injection H as <-. right; left.
           split; [reflexivity | eexists; reflexivity].
        -- destruct (String.eqb _ "locate" || _); [| discriminate].
           intros H. injection H as <-. now repeat right.
Qed.

End CriteriaGrounding.

(** X10, worked: on the test screen "wifi" by id would match the second
    element, but "toggle" by text comes first in the criteria, and wins. *)
Lemma find_by_criteria_first_match_witness :
  [Executor2.by_text "toggle"; Executor2.by_id "wifi"]
  = [] ++ Executor2.by_text "toggle" :: [Executor2.by_id "wifi"]
  /\ find (fun el' => Executor2._element_matches_criterion el' (Executor2.by_text "toggle"))
       (Ui.get_list (Executor2.ui_elements Samples.test_screen))
     = Some Samples.wifi_toggle
  /\ Executor2._find_element_by_criteria Samples.test_screen
       [Executor2.by_text "toggle"; Executor2.by_id "wifi"]
     = Some Samples.wifi_toggle.
Proof.
  assert (H : find (fun el' => Executor2._element_matches_criterion el'
                                 (Executor2.by_text "toggle"))
                (Ui.get_list (Executor2.ui_elements Samples.test_screen))
              = Some Samples.wifi_toggle) by (vm_compute; reflexivity).
  split; [reflexivity |]. split; [exact H |].
  apply (proj2 (proj2 (find_by_criteria_first_match Samples.test_screen
                         [Executor2.by_text "toggle"; Executor2.by_id "wifi"]))
           [] (Executor2.by_text "toggle") [Executor2.by_id "wifi"] Samples.wifi_toggle
           eq_refl).
  - intros c' el' [].
  - exact H.
Defined.

(** X11, worked: tapping the WiFi option of the test screen. *)
Lemma touch_plan_always_grounded_witness :
  Executor2.target_element
    (Executor2._plan_touch_action "tap_wifi_option" "tap on wifi settings option"
       Samples.test_screen)
  = Some Samples.wifi_option
  /\ In Samples.wifi_option (Ui.get_list (Executor2.ui_elements Samples.test_screen))
  /\ Executor2.coordinates
       (Executor2._plan_touch_action "tap_wifi_option" "tap on wifi settings option"
          Samples.test_screen)
     = Some (Executor2.AsTuple 200 375).
Proof.
  assert (H : Executor2.target_element
                (Executor2._plan_touch_action "tap_wifi_option"
                   "tap on wifi settings option" Samples.test_screen)
              = Some Samples.wifi_option) by (vm_compute; reflexivity).
  split; [exact H |].
  destruct (proj1 (proj2 (touch_plan_always_grounded "tap_wifi_option"
                            "tap on wifi settings option" Samples.test_screen))
              Samples.wifi_option H) as [Hin [Hc _]].
  split; [exact Hin | exact Hc].
Defined.

(** ** Printed coordinates hold no letters *)

Section PrintedNumbers.

Import PyRepr.

Lemma all_chars_app (ok : ascii -> bool) (a b : string) :
  all_chars ok (a ++ b)%string = all_chars ok a && all_chars ok b.
Proof.
  induction a as [| c a IH]; simpl; [reflexivity |].
  now rewrite IH, andb_assoc.
Qed.

Lemma all_chars_contains (ok : ascii -> bool) (sub s : string) :
  all_chars ok s = true -> PyStr.contains sub s = true -> all_chars ok sub = true.
Proof.
  intros Hs Hc. destruct (contains_inv _ _ Hc) as [pre [post ->]].
  rewrite !all_chars_app in Hs.
  apply andb_true_iff in Hs. destruct Hs as [_ Hs].
  apply andb_true_iff in Hs. now destruct Hs.
Qed.

Lemma all_chars_join (ok : ascii -> bool) (sep : string) (parts : list string) :
  all_chars ok sep = true -> Forall (fun p => all_chars ok p = true) parts ->
  all_chars ok (PyStr.join sep parts) = true.
Proof.
  intros Hsep. induction 1 as [| p rest Hp Hrest IH]; [reflexivity |].
  destruct rest as [| q rest]; [exact Hp |].
  change (PyStr.join sep (p :: q :: rest))
    with (p ++ sep ++ PyStr.join sep (q :: rest))%string.
  now rewrite !all_chars_app, Hp, Hsep, IH.
Qed.

Lemma uint_numeric (d : Decimal.uint) :
  all_chars numeric_char (NilEmpty.string_of_uint d) = true.
Proof. induction d; simpl; try reflexivity; exact IHd. Qed.

Lemma nilzero_uint_numeric (d : Decimal.uint) :
  all_chars numeric_char (NilZero.string_of_uint d) = true.
Proof.
  unfold NilZero.string_of_uint.
  destruct d; try reflexivity; apply uint_numeric.
Qed.

Lemma str_int_numeric (z : Z) : all_chars numeric_char (str_int z) = true.
Proof.
  unfold str_int, NilZero.string_of_int.
  destruct (Z.to_int z) as [d | d]; [apply nilzero_uint_numeric |].
  cbn [all_chars]. now rewrite nilzero_uint_numeric.
Qed.

Lemma str_coords_numeric (c : Executor2.coords) :
  all_chars numeric_char (str_coords c) = true.
Proof.
  destruct c as [x y | items]; simpl.
  - unfold str_pair.
    pose proof (str_int_numeric x) as Hx. pose proof (str_int_numeric y) as Hy.
    revert Hx Hy. generalize (str_int x) (str_int y). intros sx sy Hx Hy.
    simpl. rewrite all_chars_app, Hx. simpl. rewrite all_chars_app, Hy. reflexivity.
  - unfold str_list.
    assert (Hj : all_chars numeric_char (PyStr.join ", " (map str_int items)) = true).
    { apply all_chars_join; [reflexivity |].
      apply Forall_forall. intros p Hp. apply in_map_iff in Hp.
      destruct Hp as [z [<- _]]. apply str_int_numeric. }
    revert Hj. generalize (PyStr.join ", " (map str_int items)). intros body Hj.
    simpl. rewrite all_chars_app, Hj. reflexivity.
Qed.

Lemma lower_ascii_numeric (c : ascii) :
  numeric_char c = true -> PyStr.lower_ascii c = c.
Proof.
  destruct c as [[|] [|] [|] [|] [|] [|] [|] [|]]; intros H;
    try reflexivity; vm_compute in H; discriminate.
Qed.

Lemma lower_numeric (s : string) :
  all_chars numeric_char s = true -> PyStr.lower s = s.
Proof.
  induction s as [| c s IH]; simpl; [reflexivity |].
  intros H. apply andb_true_iff in H. destruct H as [Hc Hs].
  now rewrite (IH Hs), (lower_ascii_numeric c Hc).
Qed.

(** A word with a letter occurs in no printed coordinates, lower-cased or
    not. *)
Lemma no_word_in_coordinates (word : string) (a : Wrapper.android_action)
    (default : list Z) :
  all_chars numeric_char word = false ->
  PyStr.contains word (Wrapper.printed_coordinates a default) = false
  /\ PyStr.contains word (PyStr.lower (Wrapper.printed_coordinates a default)) = false.
Proof.
  intros Hword.
  assert (Hnum : all_chars numeric_char (Wrapper.printed_coordinates a default) = true).
  { unfold Wrapper.printed_coordinates.
    destruct (Wrapper.a_coordinates a) as [c |];
      [apply str_coords_numeric | apply (str_coords_numeric (Executor2.AsList default))]. }
  rewrite (lower_numeric _ Hnum).
  assert (H : PyStr.contains word (Wrapper.printed_coordinates a default) = false).
  { destruct (PyStr.contains word _) eqn:E; [| reflexivity].
    rewrite (all_chars_contains _ _ _ Hnum E) in Hword. discriminate. }
  now split.
Qed.

End PrintedNumbers.

(** ** The mock environment *)

Section MockEnvironment.

Import Executor2 Wrapper.

Variable clock : Type.
Variable time_time : clock -> float * clock.
Variable time_sleep : float -> clock -> clock.

Local Notation step := (step clock time_time time_sleep).
Local Notation steps := (steps clock time_time time_sleep).
Local Notation reset := (reset clock time_time).
Local Notation _execute_mock_action := (_execute_mock_action clock time_sleep).

Lemma step_mock (w : wrapper) (a : android_action) (k : clock) (cur : observation) :
  mock_mode w = true -> current_observation w = Some cur ->
  exists r w' k',
    step w a k = (Ok r, w', k')
    /\ step_count w' = (step_count w + 1)%Z
    /\ rs_step_count r = (step_count w + 1)%Z
    /\ rs_done r = done_at w (step_count w + 1)
    /\ mock_mode w' = true /\ task_name w' = task_name w
    /\ max_steps w' = max_steps w
    /\ current_observation w' = Some (rs_observation r)
    /\ ob_ui_elements (rs_observation r) = Some (Ui.get_list (ob_ui_elements cur)).
Proof.
  intros Hmock Hcur. unfold Wrapper.step. cbv zeta. cbn [mock_mode].
  rewrite Hmock.
  destruct (_execute_mock_action _ a k) as [result k1].
  unfold _get_updated_observation. cbn [mock_mode current_observation].
  rewrite ?Hmock, Hcur.
  destruct (no_word_in_coordinates "settings" a [] eq_refl) as [Hs _].
  destruct (no_word_in_coordinates "wifi" a [] eq_refl) as [_ Hw].
  rewrite Hs, Hw, andb_false_r.
  destruct (time_time k1) as [now k2].
  eexists. eexists. exists k2. split; [reflexivity |].
  cbn. unfold done_at, _check_task_completion. cbn.
  repeat split; reflexivity.
Qed.

Lemma steps_mock (actions : list android_action) :
  forall (w : wrapper) (k : clock) (cur : observation),
  mock_mode w = true -> current_observation w = Some cur ->
  exists rs w' k',
    steps w actions k = (Ok rs, w', k')
    /\ step_count w' = (step_count w + Z.of_nat (List.length actions))%Z
    /\ map rs_step_count rs
       = map (fun i => (step_count w + Z.of_nat i + 1)%Z)
           (seq 0 (List.length actions))
    /\ Forall (fun r => rs_done r = done_at w (rs_step_count r)) rs
    /\ Forall (fun r => ob_ui_elements (rs_observation r)
                        = Some (Ui.get_list (ob_ui_elements cur))) rs
    /\ get_ui_elements w' = get_ui_elements w.
Proof.
  induction actions as [| a rest IH]; intros w k cur Hmock Hcur.
  - exists [], w, k. simpl. repeat split; try constructor. lia.
  - destruct (step_mock w a k cur Hmock Hcur)
      as [r [w1 [k1 [Hstep [Hc [Hrc [Hd [Hm [Ht [Hmax [Hobs Hel]]]]]]]]]]].
    destruct (IH w1 k1 (rs_observation r) Hm Hobs)
      as [rs [w2 [k2 [Hsteps [Hc2 [Hcounts [Hdone [Hels Hui]]]]]]]].
    exists (r :: rs), w2, k2. cbn [Wrapper.steps]. rewrite Hstep, Hsteps.
    split; [reflexivity |]. split; [| split; [| split; [| split]]].
    + rewrite Hc2, Hc. cbn [List.length]. lia.
    + cbn [List.length seq map]. rewrite Hrc, Hcounts. f_equal; [f_equal; lia |].
      rewrite <- seq_shift, map_map. apply map_ext. intros i. rewrite Hc. lia.
    + constructor.
      * now rewrite Hd, Hrc.
      * eapply Forall_impl; [| exact Hdone]. intros r' Hr'. rewrite Hr'.
        unfold done_at. now rewrite Ht, Hmax.
    + constructor; [exact Hel |].
      eapply Forall_impl; [| exact Hels]. intros r' Hr'. rewrite Hr', Hel. reflexivity.
    + rewrite Hui. unfold get_ui_elements. rewrite Hobs, Hcur, Hel.
      assert (Htruthy : truthy_observation (rs_observation r) = true).
      { unfold truthy_observation. rewrite Hel. simpl. now rewrite ?orb_true_r. }
      rewrite Htruthy. cbn [Ui.get_list].
      destruct (truthy_observation cur) eqn:E; [reflexivity |].
      unfold truthy_observation in E.
      destruct (ob_ui_elements cur); [| reflexivity].
      simpl in E. rewrite ?orb_true_r in E. discriminate.
Qed.

(** X12. In mock mode the screen never changes.  Coordinates print as
    digits and punctuation, so the tests for "settings" and "wifi" in the
    printed coordinates never hold: whatever actions are stepped, every
    observation shows the elements the wrapper had before, and after a
    [reset] those are the two launcher elements, so that no element
    containing "wifi" is ever found.  A wrapper that was never reset cannot
    step at all: the first [step] raises AttributeError, having counted the
    step. *)
Theorem mock_screen_never_changes (w : wrapper) (actions : list android_action)
    (k : clock) :
  mock_mode w = true ->
  (forall cur, current_observation w = Some cur ->
     exists rs w' k',
       steps w actions k = (Ok rs, w', k')
       /\ Forall (fun r => ob_ui_elements (rs_observation r)
                           = Some (Ui.get_list (ob_ui_elements cur))) rs
       /\ get_ui_elements w' = get_ui_elements w)
  /\ (exists rs w' k',
        steps (snd (fst (reset w k))) actions (snd (reset w k)) = (Ok rs, w', k')
        /\ Forall (fun r => ob_ui_elements (rs_observation r) = Some launcher_elements) rs
        /\ get_ui_elements w' = launcher_elements
        /\ find_element_by_text w' "wifi" = None)
  /\ (current_observation w = None ->
      forall a, exists w' k',
        step w a k = (Raise (AttributeError "get"), w', k')
        /\ step_count w' = (step_count w + 1)%Z).
Proof.
  intros Hmock. split; [| split].
  - intros cur Hcur.
    destruct (steps_mock actions w k cur Hmock Hcur)
      as [rs [w' [k' [H [_ [_ [_ [Hels Hui]]]]]]]].
    exists rs, w', k'. now repeat split.
  - unfold Wrapper.reset. rewrite Hmock. destruct (time_time k) as [now k1].
    cbn [fst snd].
    match goal with
    | |- context [steps ?w0 actions k1] =>
        destruct (steps_mock actions w0 k1 _ eq_refl eq_refl)
          as [rs [w' [k' [H [_ [_ [_ [Hels Hui]]]]]]]]
    end.
    exists rs, w', k'. split; [exact H |]. split; [exact Hels |].
    assert (Hl : get_ui_elements w' = launcher_elements) by (rewrite Hui; reflexivity).
    split; [exact Hl |]. unfold find_element_by_text. now rewrite Hl.
  - intros Hnone a. unfold Wrapper.step. cbv zeta. cbn [mock_mode].
    rewrite Hmock. destruct (_execute_mock_action _ a k) as [result k1].
    unfold _get_updated_observation. cbn [mock_mode current_observation].
    rewrite ?Hmock, Hnone.
    destruct (no_word_in_coordinates "settings" a [] eq_refl) as [Hs _].
    destruct (no_word_in_coordinates "wifi" a [] eq_refl) as [_ Hw].
    rewrite Hs, Hw, andb_false_r.
    eexists. exists k1. split; reflexivity.
Qed.

(** X13. After a [reset] every [step] is accepted, whatever came before:
    the [i]-th response carries step count [i], and its [done] flag is set
    exactly from step 8 on for the task "settings_wifi" and from step
    [max_steps] on for any task; the wrapper goes on stepping and counting
    after [done]. *)
Theorem mock_steps_count_and_done (w : wrapper) (actions : list android_action)
    (k : clock) :
  mock_mode w = true ->
  exists rs w' k',
    steps (snd (fst (reset w k))) actions (snd (reset w k)) = (Ok rs, w', k')
    /\ map rs_step_count rs
       = map (fun i => (Z.of_nat i + 1)%Z) (seq 0 (List.length actions))
    /\ step_count w' = Z.of_nat (List.length actions)
    /\ Forall (fun r => rs_done r
                        = ((String.eqb (task_name w) "settings_wifi"
                            && (8 <=? rs_step_count r)%Z)
                           || (max_steps w <=? rs_step_count r)%Z)) rs.
Proof.
  intros Hmock. unfold Wrapper.reset. rewrite Hmock.
  destruct (time_time k) as [now k1]. cbn [fst snd].
  match goal with
  | |- context [steps ?w0 actions k1] =>
      destruct (steps_mock actions w0 k1 _ eq_refl eq_refl)
        as [rs [w' [k' [H [Hc [Hcounts [Hdone _]]]]]]]
  end.
  exists rs, w', k'. split; [exact H |]. cbn in Hc, Hcounts.
  split; [exact Hcounts | split; [exact Hc | exact Hdone]].
Qed.

(** X14. The mock performs five kinds of action and no other: an action
    succeeds exactly when its lower-cased type is touch, type, back, home or
    screenshot (only the last leaves [ui_changed] false), and any other is
    answered with the error "Unknown action type: <type>".  Of the seven
    kinds [get_available_actions] lists, "key" and "swipe" are among the
    others. *)
Theorem mock_action_kinds (w : wrapper) (a : android_action) (k : clock) :
  ar_success (fst (_execute_mock_action w a k))
  = existsb (String.eqb (PyStr.lower (Ui.get_str (a_type a))))
      ["touch"; "type"; "back"; "home"; "screenshot"]
  /\ (ar_success (fst (_execute_mock_action w a k)) = false ->
      ar_error (fst (_execute_mock_action w a k))
      = Some ("Unknown action type: " ++ PyStr.lower (Ui.get_str (a_type a)))%string
      /\ ar_ui_changed (fst (_execute_mock_action w a k)) = false)
  /\ (ar_success (fst (_execute_mock_action w a k)) = true ->
      ar_error (fst (_execute_mock_action w a k)) = None)
  /\ filter (fun kind =>
               negb (existsb (String.eqb (PyStr.lower kind))
                       ["touch"; "type"; "back"; "home"; "screenshot"]))
       get_available_actions
     = ["key"; "swipe"].
Proof.
  unfold Wrapper._execute_mock_action. cbv zeta.
  generalize (PyStr.lower (Ui.get_str (a_type a))). intros kind.
  cbn [existsb].
  destruct (String.eqb kind "touch") eqn:E1;
    [apply String.eqb_eq in E1; subst kind; now repeat split |].
  destruct (String.eqb kind "type") eqn:E2;
    [apply String.eqb_eq in E2; subst kind; now repeat split |].
  destruct (String.eqb kind "back") eqn:E3;
    [apply String.eqb_eq in E3; subst kind; now repeat split |].
  destruct (String.eqb kind "home") eqn:E4;
    [apply String.eqb_eq in E4; subst kind; now repeat split |].
  destruct (String.eqb kind "screenshot") eqn:E5;
    [apply String.eqb_eq in E5; subst kind; now repeat split |].
  cbn. now repeat split.
Qed.

End MockEnvironment.

(** X12, worked: three touches on the wrapper of the WiFi task. *)
Lemma mock_screen_never_changes_witness :
  Wrapper.mock_mode Samples.wifi_wrapper = true
  /\ exists rs w' k',
       Wrapper.steps nat Samples.tick Samples.doze
         (snd (fst (Wrapper.reset nat Samples.tick Samples.wifi_wrapper 0%nat)))
         [Samples.touch_action 150 250; Samples.touch_action 200 225;
          Samples.touch_action 350 125]
         (snd (Wrapper.reset nat Samples.tick Samples.wifi_wrapper 0%nat))
       = (Ok rs, w', k')
       /\ Forall (fun r => Wrapper.ob_ui_elements (Wrapper.rs_observation r)
                           = Some Wrapper.launcher_elements) rs
       /\ Wrapper.get_ui_elements w' = Wrapper.launcher_elements
       /\ Wrapper.find_element_by_text w' "wifi" = None.
Proof.
  split; [reflexivity |].
  exact (proj1 (proj2 (mock_screen_never_changes nat Samples.tick Samples.doze
                         Samples.wifi_wrapper
                         [Samples.touch_action 150 250; Samples.touch_action 200 225;
                          Samples.touch_action 350 125] 0%nat eq_refl))).
Defined.

(** X13, worked: the same three touches, counted. *)
Lemma mock_steps_count_and_done_witness :
  Wrapper.mock_mode Samples.wifi_wrapper = true
  /\ exists rs w' k',
       Wrapper.steps nat Samples.tick Samples.doze
         (snd (fst (Wrapper.reset nat Samples.tick Samples.wifi_wrapper 0%nat)))
         [Samples.touch_action 150 250; Samples.touch_action 200 225;
          Samples.touch_action 350 125]
         (snd (Wrapper.reset nat Samples.tick Samples.wifi_wrapper 0%nat))
       = (Ok rs, w', k')
       /\ map Wrapper.rs_step_count rs
          = map (fun i => (Z.of_nat i + 1)%Z)
              (seq 0 (List.length [Samples.touch_action 150 250;
                                   Samples.touch_action 200 225;
                                   Samples.touch_action 350 125]))
       /\ Wrapper.step_count w'
          = Z.of_nat (List.length [Samples.touch_action 150 250;
                                   Samples.touch_action 200 225;
                                   Samples.touch_action 350 125])
       /\ Forall (fun r => Wrapper.rs_done r
                           = ((String.eqb (Wrapper.task_name Samples.wifi_wrapper)
                                 "settings_wifi"
                               && (8 <=? Wrapper.rs_step_count r)%Z)
                              || (Wrapper.max_steps Samples.wifi_wrapper
                                  <=? Wrapper.rs_step_count r)%Z)) rs.
Proof.
  split; [reflexivity |].
  exact (mock_steps_count_and_done nat Samples.tick Samples.doze Samples.wifi_wrapper
           [Samples.touch_action 150 250; Samples.touch_action 200 225;
            Samples.touch_action 350 125] 0%nat eq_refl).
Defined.

(** X14, worked: a swipe, which the wrapper lists as available. *)
Lemma mock_action_kinds_witness :
  Wrapper.ar_success
    (fst (Wrapper._execute_mock_action nat Samples.doze Samples.wifi_wrapper
            Samples.swipe_action 0%nat)) = false
  /\ Wrapper.ar_error
       (fst (Wrapper._execute_mock_action nat Samples.doze Samples.wifi_wrapper
               Samples.swipe_action 0%nat))
     = Some "Unknown action type: swipe".
Proof.
  assert (H : Wrapper.ar_success
                (fst (Wrapper._execute_mock_action nat Samples.doze Samples.wifi_wrapper
                        Samples.swipe_action 0%nat)) = false) by reflexivity.
  split; [exact H |].
  exact (proj1 (proj1 (proj2 (mock_action_kinds nat Samples.doze Samples.wifi_wrapper
                                Samples.swipe_action 0%nat)) H)).
Defined.

(** ** The QA executor on the mock environment *)

Section SubgoalsOnMock.

Import Executor2 Wrapper Executor2Env.

Variable clock : Type.
Variable time_time : clock -> float * clock.
Variable time_sleep : float -> clock -> clock.

Local Notation step := (Wrapper.step clock time_time time_sleep).
Local Notation reset := (Wrapper.reset clock time_time).
Local Notation _execute_mock_action := (_execute_mock_action clock time_sleep).
Local Notation _execute_action_plan := (_execute_action_plan clock time_time time_sleep).
Local Notation execute_subgoal := (execute_subgoal clock time_time time_sleep).
Local Notation execute_subgoals := (execute_subgoals clock time_time time_sleep).

(** The action a plan of [_analyze_subgoal] turns into is one of the five
    the mock performs. *)
Lemma analysed_plan_action (sg : subgoal) (st : ui_state) (plan : action_plan) :
  _analyze_subgoal sg st = Some plan ->
  exists a,
    android_action_of plan = Ok a
    /\ existsb (String.eqb (PyStr.lower (Ui.get_str (a_type a))))
         ["touch"; "type"; "back"; "home"; "screenshot"] = true.
Proof.
  intros H. unfold android_action_of.
  destruct (analysed_plan_kinds sg st plan H)
    as [[-> [c ->]] | [[-> [t ->]] | [-> | [-> | ->]]]];
    cbn; eexists; split; reflexivity.
Qed.

Lemma mock_performs (w : wrapper) (a : android_action) (k : clock) :
  existsb (String.eqb (PyStr.lower (Ui.get_str (a_type a))))
    ["touch"; "type"; "back"; "home"; "screenshot"] = true ->
  ar_success (fst (_execute_mock_action w a k)) = true.
Proof.
  unfold Wrapper._execute_mock_action. cbv zeta.
  generalize (PyStr.lower (Ui.get_str (a_type a))). intros kind. cbn [existsb].
  destruct (String.eqb kind "touch"); [reflexivity |].
  destruct (String.eqb kind "type"); [reflexivity |].
  destruct (String.eqb kind "back"); [reflexivity |].
  destruct (String.eqb kind "home"); [reflexivity |].
  destruct (String.eqb kind "screenshot"); [reflexivity |].
  discriminate.
Qed.

(** One performed step of a wrapper that has an observation. *)
Lemma step_mock_performed (w : wrapper) (a : android_action) (k : clock)
    (cur : observation) :
  mock_mode w = true -> current_observation w = Some cur ->
  existsb (String.eqb (PyStr.lower (Ui.get_str (a_type a))))
    ["touch"; "type"; "back"; "home"; "screenshot"] = true ->
  exists r w' k',
    step w a k = (Ok r, w', k')
    /\ ar_success (rs_action_result r) = true
    /\ step_count w' = (step_count w + 1)%Z
    /\ rs_step_count r = (step_count w + 1)%Z
    /\ rs_done r = done_at w (step_count w + 1)
    /\ mock_mode w' = true /\ task_name w' = task_name w
    /\ max_steps w' = max_steps w
    /\ current_observation w' = Some (rs_observation r)
    /\ ob_ui_elements (rs_observation r) = Some (Ui.get_list (ob_ui_elements cur)).
Proof.
  intros Hmock Hcur Hkind. unfold Wrapper.step. cbv zeta. cbn [mock_mode].
  rewrite Hmock.
  match goal with
  | |- context [_execute_mock_action ?w1 a k] =>
      pose proof (mock_performs w1 a k Hkind) as Hok;
      destruct (_execute_mock_action w1 a k) as [result k1]
  end.
  cbn [fst] in Hok.
  unfold _get_updated_observation. cbn [mock_mode current_observation].
  rewrite ?Hmock, Hcur.
  destruct (no_word_in_coordinates "settings" a [] eq_refl) as [Hs _].
  destruct (no_word_in_coordinates "wifi" a [] eq_refl) as [_ Hw].
  rewrite Hs, Hw, andb_false_r.
  destruct (time_time k1) as [now k2].
  eexists. eexists. exists k2. split; [reflexivity |].
  cbn. unfold done_at, _check_task_completion. cbn.
  repeat split; try reflexivity. exact Hok.
Qed.

(** The first step of a wrapper that was never reset. *)
Lemma step_unreset (w : wrapper) (a : android_action) (k : clock) :
  mock_mode w = true -> current_observation w = None ->
  exists w' k',
    step w a k = (Raise (AttributeError "get"), w', k')
    /\ step_count w' = (step_count w + 1)%Z
    /\ mock_mode w' = true /\ current_observation w' = None.
Proof.
  intros Hmock Hnone. unfold Wrapper.step. cbv zeta. cbn [mock_mode].
  rewrite Hmock. destruct (_execute_mock_action _ a k) as [result k1].
  unfold _get_updated_observation. cbn [mock_mode current_observation].
  rewrite ?Hmock, Hnone.
  destruct (no_word_in_coordinates "settings" a [] eq_refl) as [Hs _].
  destruct (no_word_in_coordinates "wifi" a [] eq_refl) as [_ Hw].
  rewrite Hs, Hw, andb_false_r.
  eexists. exists k1. cbn. repeat split; try reflexivity; assumption.
Qed.

Lemma observed_screen (env : wrapper) (cur : observation) (els : list element) :
  current_observation env = Some cur -> ob_ui_elements cur = Some els ->
  _get_current_ui_state env = cur.
Proof.
  intros Hcur Hels. unfold _get_current_ui_state. rewrite Hcur.
  unfold truthy_observation. rewrite Hels. cbn. now rewrite ?orb_true_r.
Qed.

Lemma execute_subgoal_mock (els : list element) (ex : executor) (sg : subgoal)
    (k : clock) (cur : observation) :
  mock_mode (android_env ex) = true ->
  current_observation (android_env ex) = Some cur ->
  ob_ui_elements cur = Some els ->
  sg_description sg <> None ->
  exists r ex' k',
    execute_subgoal ex sg k = (Ok r, ex', k')
    /\ one_call els ex sg r ex'
    /\ mock_mode (android_env ex') = true
    /\ task_name (android_env ex') = task_name (android_env ex)
    /\ max_steps (android_env ex') = max_steps (android_env ex)
    /\ exists cur', current_observation (android_env ex') = Some cur'
                    /\ ob_ui_elements cur' = Some els.
Proof.
  intros Hmock Hcur Hels Hdescr. unfold Executor2Env.execute_subgoal, one_call, planned.
  destruct (sg_description sg) as [d |]; [| contradiction].
  destruct (time_time k) as [start_time k1].
  rewrite (observed_screen _ _ _ Hcur Hels).
  unfold as_ui_state. rewrite Hels.
  destruct (_analyze_subgoal sg {| ui_elements := Some els |}) as [plan |] eqn:Hplan.
  - destruct (analysed_plan_action _ _ _ Hplan) as [a [Ha Hkind]].
    unfold Executor2Env._execute_action_plan. rewrite Ha.
    destruct (step_mock_performed _ a k1 cur Hmock Hcur Hkind)
      as [resp [w1 [k2 [Hstep [Hok [Hc [Hrc [Hd [Hm [Ht [Hmax [Hobs Hel]]]]]]]]]]]].
    rewrite Hstep, Hok. unfold _create_execution_result.
    destruct (time_time k2) as [now k3].
    destruct (time_time k3) as [stamp k4].
    destruct (time_time k4) as [now' k5].
    rewrite Hels in Hel. cbn [Ui.get_list] in Hel.
    eexists. eexists. exists k5. split; [reflexivity |].
    cbn. split; [| repeat split; try assumption; eauto].
    repeat split; try assumption.
    + exists resp. repeat split; assumption.
    + eexists. reflexivity.
    + exists (rs_observation resp). split; [| exact Hel].
      f_equal. exact (observed_screen _ _ _ Hobs Hel).
  - destruct (time_time k1) as [now k2]. unfold _create_execution_result.
    destruct (time_time k2) as [stamp k3].
    eexists. eexists. exists k3. split; [reflexivity |].
    cbn. repeat split; try assumption. eauto.
Qed.

Lemma done_at_same (w w' : wrapper) :
  task_name w' = task_name w -> max_steps w' = max_steps w ->
  forall i, done_at w' i = done_at w i.
Proof. intros Ht Hm i. unfold done_at. now rewrite Ht, Hm. Qed.

(** A run of subgoals on a mock wrapper that shows [els]: the screen stays
    what it is, so each subgoal is analysed against [els]. *)
Lemma execute_subgoals_mock (els : list element) (sgs : list subgoal) :
  forall (ex : executor) (k : clock) (cur : observation),
  mock_mode (android_env ex) = true ->
  current_observation (android_env ex) = Some cur ->
  ob_ui_elements cur = Some els ->
  Forall (fun sg => sg_description sg <> None) sgs ->
  exists rs ex' k' hist,
    execute_subgoals ex sgs k = (Ok rs, ex', k')
    /\ map er_action_plan rs
       = map (fun sg => _analyze_subgoal sg {| ui_elements := Some els |}) sgs
    /\ map er_success rs = map (planned els) sgs
    /\ Forall (fun r => er_error r
                        = if er_success r then None else Some NoActionPlan) rs
    /\ map reported rs
       = map (option_map (fun i => (i, done_at (android_env ex) i)))
           (step_numbers (step_count (android_env ex)) (map (planned els) sgs))
    /\ step_count (android_env ex')
       = (step_count (android_env ex)
          + Z.of_nat (List.length (filter (planned els) sgs)))%Z
    /\ execution_history ex' = execution_history ex ++ hist
    /\ map h_subgoal hist = filter (planned els) sgs
    /\ map h_result hist = filter er_success rs.
Proof.
  induction sgs as [| sg rest IH]; intros ex k cur Hmock Hcur Hels Hdescr.
  - exists [], ex, k, []. cbn. rewrite app_nil_r.
    repeat split; try constructor. lia.
  - inversion Hdescr as [| ? ? Hd Hrest]; subst.
    destruct (execute_subgoal_mock els ex sg k cur Hmock Hcur Hels Hd)
      as [r [ex1 [k1 [Hone [[Hplan [Hsucc Hcase]] [Hm [Ht [Hmax [cur1 [Hcur1 Hels1]]]]]]]]]].
    destruct (IH ex1 k1 cur1 Hm Hcur1 Hels1 Hrest)
      as [rs [ex2 [k2 [hist [Hrun [Hplans [Hsuccs [Herr [Hrep [Hcount
           [Hhist [Hsub Hres]]]]]]]]]]]].
    cbn [Executor2Env.execute_subgoals]. rewrite Hone, Hrun.
    rewrite (map_ext (option_map (fun i => (i, done_at (android_env ex1) i)))
               (option_map (fun i => (i, done_at (android_env ex) i)))) in Hrep.
    2: { intros [i |]; [| reflexivity]. cbn.
         now rewrite (done_at_same _ _ Ht Hmax i). }
    unfold planned in *.
    destruct (_analyze_subgoal sg {| ui_elements := Some els |}) as [plan |] eqn:Ha.
    + destruct Hcase as [He [_ [[resp [Hresp [Hrc Hrd]]] [Hc [[stamp Hh] _]]]]].
      exists (r :: rs), ex2, k2,
        ({| h_subgoal := sg; h_action_plan := plan; h_result := r;
            h_timestamp := stamp |} :: hist).
      split; [reflexivity |]. cbn [map filter Ui.is_some step_numbers List.length].
      rewrite Ha. cbn [Ui.is_some]. rewrite Hsucc.
      cbn [map filter Ui.is_some step_numbers List.length option_map].
      repeat split.
      * now rewrite Hplan, Hplans.
      * now rewrite Hsuccs.
      * constructor; [now rewrite Hsucc, He | exact Herr].
      * unfold reported at 1. rewrite Hresp, Hrc, Hrd, Hrep, Hc. reflexivity.
      * rewrite Hcount, Hc. lia.
      * rewrite Hhist, Hh, <- app_assoc. reflexivity.
      * cbn. now rewrite Hsub.
      * cbn. now rewrite Hres.
    + destruct Hcase as [He [Hnone [Henv Hh]]].
      exists (r :: rs), ex2, k2, hist.
      split; [reflexivity |]. cbn [map filter Ui.is_some step_numbers List.length].
      rewrite Ha. cbn [Ui.is_some]. rewrite Hsucc.
      cbn [map filter Ui.is_some step_numbers List.length option_map].
      repeat split.
      * now rewrite Hplan, Hplans.
      * now rewrite Hsuccs.
      * constructor; [now rewrite Hsucc, He | exact Herr].
      * unfold reported at 1. rewrite Hnone, Hrep, Henv. reflexivity.
      * now rewrite Hcount, Henv.
      * now rewrite Hhist, Hh.
      * exact Hsub.
      * exact Hres.
Qed.

Lemma count_by_flags {A B : Type} (f : A -> bool) (g : B -> bool) (l : list A) :
  forall l' : list B, map f l = map g l' ->
  List.length (filter f l) = List.length (filter g l').
Proof.
  induction l as [| a l IH]; intros [| b l'] H; try discriminate; [reflexivity |].
  cbn in *. injection H as Hab Hrest. rewrite Hab.
  destruct (g b); cbn; now rewrite (IH l' Hrest).
Qed.

Lemma filter_all {A : Type} (f : A -> bool) (l : list A) :
  Forall (fun a => f a = true) l -> filter f l = l.
Proof.
  induction 1 as [| a l Ha _ IH]; [reflexivity |]. cbn. now rewrite Ha, IH.
Qed.

Lemma filtered_hold {A : Type} (f : A -> bool) (l : list A) :
  Forall (fun a => f a = true) (filter f l).
Proof.
  apply Forall_forall. intros a Ha. now apply filter_In in Ha.
Qed.

(** X15. One subgoal on the mock wrapper.  A subgoal without a description
    raises KeyError before anything is done.  On a wrapper that shows
    elements [els], the call returns a result that succeeds exactly when
    [_analyze_subgoal] finds a plan on [els]: a subgoal without a plan
    fails with "Could not determine action plan for subgoal", steps nothing
    and is not recorded; a planned one is stepped and recorded, and never
    fails.  On a wrapper that was never reset every planned subgoal fails
    with the exception of the environment, and still uses up a step and an
    entry of the history. *)
Theorem subgoal_on_mock_fails_only_unplanned (ex : executor) (sg : subgoal) (k : clock) :
  mock_mode (android_env ex) = true ->
  (sg_description sg = None ->
   execute_subgoal ex sg k = (Raise (KeyError "description"), ex, k))
  /\ (sg_description sg <> None ->
      forall cur els,
        current_observation (android_env ex) = Some cur ->
        ob_ui_elements cur = Some els ->
        exists r ex' k',
          execute_subgoal ex sg k = (Ok r, ex', k')
          /\ er_success r = planned els sg
          /\ er_error r = (if planned els sg then None else Some NoActionPlan)
          /\ er_action_plan r = _analyze_subgoal sg {| ui_elements := Some els |}
          /\ step_count (android_env ex')
             = (step_count (android_env ex) + (if planned els sg then 1 else 0))%Z
          /\ List.length (execution_history ex')
             = (List.length (execution_history ex)
                + (if planned els sg then 1 else 0))%nat
          /\ Wrapper.get_ui_elements (android_env ex') = els)
  /\ (sg_description sg <> None ->
      current_observation (android_env ex) = None ->
      exists r ex' k',
        execute_subgoal ex sg k = (Ok r, ex', k')
        /\ er_success r = false
        /\ er_error r
           = (if planned [] sg then Some (ActionException (AttributeError "get"))
              else Some NoActionPlan)
        /\ step_count (android_env ex')
           = (step_count (android_env ex) + (if planned [] sg then 1 else 0))%Z
        /\ List.length (execution_history ex')
           = (List.length (execution_history ex)
              + (if planned [] sg then 1 else 0))%nat).
Proof.
  intros Hmock. split; [| split].
  - intros Hnone. unfold Executor2Env.execute_subgoal. now rewrite Hnone.
  - intros Hd cur els Hcur Hels.
    destruct (execute_subgoal_mock els ex sg k cur Hmock Hcur Hels Hd)
      as [r [ex1 [k1 [Hone [[Hplan [Hsucc Hcase]] [Hm [Ht [Hmax [cur1 [Hcur1 Hels1]]]]]]]]]].
    exists r, ex1, k1. split; [exact Hone |]. split; [exact Hsucc |].
    assert (Hui : Wrapper.get_ui_elements (android_env ex1) = els).
    { unfold Wrapper.get_ui_elements. rewrite Hcur1.
      unfold truthy_observation. rewrite Hels1. cbn. now rewrite ?orb_true_r. }
    unfold planned in *.
    destruct (_analyze_subgoal sg {| ui_elements := Some els |}) as [plan |].
    + destruct Hcase as [He [_ [_ [Hc [[stamp Hh] _]]]]]. cbn [Ui.is_some].
      repeat split; try assumption.
      rewrite Hh, length_app. reflexivity.
    + destruct Hcase as [He [_ [Henv Hh]]]. cbn [Ui.is_some].
      repeat split; try assumption.
      * rewrite Henv. lia.
      * rewrite Hh. lia.
  - intros Hd Hnone. unfold Executor2Env.execute_subgoal, planned.
    destruct (sg_description sg) as [d |]; [| contradiction].
    destruct (time_time k) as [start_time k1].
    unfold _get_current_ui_state. rewrite Hnone. unfold as_ui_state.
    cbn [ob_ui_elements].
    destruct (_analyze_subgoal sg {| ui_elements := Some [] |}) as [plan |] eqn:Hplan.
    + destruct (analysed_plan_action _ _ _ Hplan) as [a [Ha _]].
      unfold Executor2Env._execute_action_plan. rewrite Ha.
      destruct (step_unreset _ a k1 Hmock Hnone) as [w1 [k2 [Hstep [Hc _]]]].
      rewrite Hstep. unfold _create_execution_result.
      destruct (time_time k2) as [now k3].
      destruct (time_time k3) as [stamp k4].
      destruct (time_time k4) as [now' k5].
      eexists. eexists. exists k5. split; [reflexivity |]. cbn.
      repeat split; try assumption. now rewrite length_app.
    + destruct (time_time k1) as [now k2]. unfold _create_execution_result.
      destruct (time_time k2) as [stamp k3].
      eexists. eexists. exists k3. split; [reflexivity |]. cbn.
      repeat split; lia.
Qed.

(** One call on a wrapper that was never reset: the screen read is the
    empty one, and a planned subgoal ends in the exception of [step]. *)
Lemma execute_subgoal_unreset (ex : executor) (sg : subgoal) (k : clock) :
  mock_mode (android_env ex) = true ->
  current_observation (android_env ex) = None ->
  sg_description sg <> None ->
  exists r ex' k',
    execute_subgoal ex sg k = (Ok r, ex', k')
    /\ er_success r = false
    /\ mock_mode (android_env ex') = true
    /\ current_observation (android_env ex') = None
    /\ match _analyze_subgoal sg {| ui_elements := Some [] |} with
       | None =>
           er_error r = Some NoActionPlan
           /\ execution_history ex' = execution_history ex
       | Some plan =>
           er_error r = Some (ActionException (AttributeError "get"))
           /\ exists stamp,
                execution_history ex'
                = execution_history ex
                  ++ [{| h_subgoal := sg; h_action_plan := plan; h_result := r;
                         h_timestamp := stamp |}]
       end.
Proof.
  intros Hmock Hnone Hd. unfold Executor2Env.execute_subgoal.
  destruct (sg_description sg) as [d |]; [| contradiction].
  destruct (time_time k) as [start_time k1].
  unfold _get_current_ui_state. rewrite Hnone. unfold as_ui_state.
  cbn [ob_ui_elements].
  destruct (_analyze_subgoal sg {| ui_elements := Some [] |}) as [plan |] eqn:Hplan.
  - destruct (analysed_plan_action _ _ _ Hplan) as [a [Ha _]].
    unfold Executor2Env._execute_action_plan. rewrite Ha.
    destruct (step_unreset _ a k1 Hmock Hnone) as [w1 [k2 [Hstep [_ [Hm Hn]]]]].
    rewrite Hstep. unfold _create_execution_result.
    destruct (time_time k2) as [now k3].
    destruct (time_time k3) as [stamp k4].
    destruct (time_time k4) as [now' k5].
    eexists. eexists. exists k5. split; [reflexivity |]. cbn.
    repeat split; try assumption. eexists. reflexivity.
  - destruct (time_time k1) as [now k2]. unfold _create_execution_result.
    destruct (time_time k2) as [stamp k3].
    eexists. eexists. exists k3. split; [reflexivity |]. cbn.
    repeat split; assumption.
Qed.

(** A run of subgoals on a wrapper that was never reset: it stays without
    an observation, so every subgoal is analysed against the empty screen
    and every result is a failure. *)
Lemma execute_subgoals_unreset (sgs : list subgoal) :
  forall (ex : executor) (k : clock),
  mock_mode (android_env ex) = true ->
  current_observation (android_env ex) = None ->
  Forall (fun sg => sg_description sg <> None) sgs ->
  exists rs ex' k' hist,
    execute_subgoals ex sgs k = (Ok rs, ex', k')
    /\ List.length rs = List.length sgs
    /\ Forall (fun r => er_success r = false) rs
    /\ execution_history ex' = execution_history ex ++ hist
    /\ map h_subgoal hist = filter (planned []) sgs
    /\ Forall (fun e => er_success (h_result e) = false
                        /\ er_error (h_result e)
                           = Some (ActionException (AttributeError "get"))) hist.
Proof.
  induction sgs as [| sg rest IH]; intros ex k Hmock Hnone Hdescr.
  - exists [], ex, k, []. cbn. rewrite app_nil_r. repeat split; constructor.
  - inversion Hdescr as [| ? ? Hd Hrest]; subst.
    destruct (execute_subgoal_unreset ex sg k Hmock Hnone Hd)
      as [r [ex1 [k1 [Hone [Hfail [Hm [Hn Hcase]]]]]]].
    destruct (IH ex1 k1 Hm Hn Hrest)
      as [rs [ex2 [k2 [hist [Hrun [Hlen [Hfails [Hhist [Hsub Hall]]]]]]]]].
    cbn [Executor2Env.execute_subgoals]. rewrite Hone, Hrun.
    unfold planned in *. cbn [filter].
    destruct (_analyze_subgoal sg {| ui_elements := Some [] |}) as [plan |].
    + destruct Hcase as [He [stamp Hh]].
      exists (r :: rs), ex2, k2,
        ({| h_subgoal := sg; h_action_plan := plan; h_result := r;
            h_timestamp := stamp |} :: hist).
      cbn [Ui.is_some map List.length]. repeat split.
      * now rewrite Hlen.
      * now constructor.
      * rewrite Hhist, Hh, <- app_assoc. reflexivity.
      * cbn. now rewrite Hsub.
      * constructor; [now split | exact Hall].
    + destruct Hcase as [He Hh].
      exists (r :: rs), ex2, k2, hist.
      cbn [Ui.is_some map List.length]. repeat split.
      * now rewrite Hlen.
      * now constructor.
      * now rewrite Hhist, Hh.
      * exact Hsub.
      * exact Hall.
Qed.

Lemma filter_none {A : Type} (f : A -> bool) (l : list A) :
  Forall (fun a => f a = false) l -> filter f l = [].
Proof.
  induction 1 as [| a l Ha _ IH]; [reflexivity |]. cbn. now rewrite Ha.
Qed.

(** X16. The execution summary counts performed subgoals only.  A fresh
    executor runs a list of subgoals, each with a description, on a mock
    wrapper.  When the wrapper holds an observation that lists elements
    [els], as after a reset, [total_executions] is the number of subgoals
    that found a plan on [els], all of them count as successful, and the
    failed results — one for every subgoal without a plan — appear nowhere
    in the summary; [recent_executions] holds the last five entries of the
    history, or all of them when there are fewer.  When the wrapper was
    never reset every result is a failure: the summary counts the subgoals
    that found a plan on the empty screen, each recorded with the
    exception of the environment, and none of them as successful. *)
Theorem summary_counts_performed_subgoals_only (env : wrapper) (sgs : list subgoal)
    (k : clock) :
  mock_mode env = true ->
  Forall (fun sg => sg_description sg <> None) sgs ->
  (forall cur els,
     current_observation env = Some cur ->
     ob_ui_elements cur = Some els ->
     exists rs ex' k',
       execute_subgoals (__init__ env) sgs k = (Ok rs, ex', k')
       /\ List.length rs = List.length sgs
       /\ total_executions (get_execution_summary ex')
          = List.length (filter (planned els) sgs)
       /\ successful_executions (get_execution_summary ex')
          = total_executions (get_execution_summary ex')
       /\ (List.length (filter (fun r => negb (er_success r)) rs)
           + total_executions (get_execution_summary ex'))%nat
          = List.length sgs
       /\ map h_result (recent_executions (get_execution_summary ex'))
          = skipn (total_executions (get_execution_summary ex') - 5)
              (filter er_success rs)
       /\ List.length (recent_executions (get_execution_summary ex'))
          = Nat.min 5 (total_executions (get_execution_summary ex')))
  /\ (current_observation env = None ->
      exists rs ex' k',
        execute_subgoals (__init__ env) sgs k = (Ok rs, ex', k')
        /\ List.length rs = List.length sgs
        /\ Forall (fun r => er_success r = false) rs
        /\ total_executions (get_execution_summary ex')
           = List.length (filter (planned []) sgs)
        /\ successful_executions (get_execution_summary ex') = 0%nat
        /\ Forall (fun e => er_error (h_result e)
                            = Some (ActionException (AttributeError "get")))
             (execution_history ex')
        /\ List.length (recent_executions (get_execution_summary ex'))
           = Nat.min 5 (total_executions (get_execution_summary ex'))).
Proof.
  intros Hmock Hdescr. split.
  - intros cur els Hcur Hels.
    destruct (execute_subgoals_mock els sgs (__init__ env) k cur Hmock Hcur Hels Hdescr)
      as [rs [ex' [k' [hist [Hrun [_ [Hsuccs [_ [_ [_ [Hhist [Hsub Hres]]]]]]]]]]]].
    exists rs, ex', k'. split; [exact Hrun |].
    cbn [Executor2Env.__init__ execution_history app] in Hhist.
    unfold get_execution_summary. cbv zeta.
    cbn [total_executions successful_executions recent_executions].
    rewrite Hhist.
    assert (Hlen : List.length hist = List.length (filter (planned els) sgs)).
    { now rewrite <- Hsub, length_map. }
    assert (Hrs : List.length rs = List.length sgs).
    { rewrite <- (length_map er_success rs), Hsuccs. apply length_map. }
    split; [exact Hrs |]. split; [exact Hlen |]. split; [| split; [| split]].
    + f_equal. apply filter_all. apply Forall_forall. intros e He.
      assert (Hin : In (h_result e) (filter er_success rs)).
      { rewrite <- Hres. now apply in_map. }
      now apply filter_In in Hin.
    + rewrite Hlen, <- (count_by_flags er_success (planned els) rs sgs Hsuccs).
      rewrite Nat.add_comm, filter_length. exact Hrs.
    + rewrite <- Hres. symmetry. apply skipn_map.
    + rewrite length_skipn. lia.
  - intros Hnone.
    destruct (execute_subgoals_unreset sgs (__init__ env) k Hmock Hnone Hdescr)
      as [rs [ex' [k' [hist [Hrun [Hlen [Hfails [Hhist [Hsub Hall]]]]]]]]].
    exists rs, ex', k'. split; [exact Hrun |]. split; [exact Hlen |].
    split; [exact Hfails |].
    cbn [Executor2Env.__init__ execution_history app] in Hhist.
    unfold get_execution_summary. cbv zeta.
    cbn [total_executions successful_executions recent_executions].
    rewrite Hhist. split; [| split; [| split]].
    + now rewrite <- Hsub, length_map.
    + rewrite (filter_none (fun e => er_success (h_result e)) hist); [reflexivity |].
      eapply Forall_impl; [| exact Hall]. now intros e [He _].
    + eapply Forall_impl; [| exact Hall]. now intros e [_ He].
    + rewrite length_skipn. lia.
Qed.

(** X17. The planner's plans on the mock wrapper.  A fresh executor on a
    freshly reset mock wrapper performs each of the eight steps of the
    WiFi plan: it alternates a touch and a screenshot, only the first touch
    is grounded on an element (the Settings icon, at its centre), the
    three others fall back to the point [300, 300] because the mock screen
    never leaves the launcher; every step succeeds, and the environment
    counts eight steps and reports [done] as its task and budget say.
    Of the alarm plan and of the generic plan no step finds an action
    plan: every result is a failure, the environment is never stepped and
    the history stays empty. *)
Theorem qa_plans_on_mock (qa_goal : string) (p : Planner2.planner) (w : wrapper)
    (k : clock) :
  mock_mode w = true ->
  exists rs ex' k',
    execute_subgoals (__init__ (snd (fst (reset w k))))
      (map as_subgoal (fst (Planner2.create_qa_plan qa_goal p))) (snd (reset w k))
    = (Ok rs, ex', k')
    /\ if PyStr.contains "wifi" (PyStr.lower qa_goal)
       then
         map performed rs
         = [ Some ("touch", hd_error launcher_elements,
                   Some (AsTuple 150 250));
             Some ("screenshot", None, None);
             Some ("touch", None, Some (AsList [300; 300]%Z));
             Some ("screenshot", None, None);
             Some ("touch", None, Some (AsList [300; 300]%Z));
             Some ("screenshot", None, None);
             Some ("touch", None, Some (AsList [300; 300]%Z));
             Some ("screenshot", None, None) ]
         /\ Forall (fun r => er_success r = true /\ er_error r = None) rs
         /\ map reported rs
            = map (fun i => Some (i, done_at w i)) [1; 2; 3; 4; 5; 6; 7; 8]%Z
         /\ step_count (android_env ex') = 8%Z
         /\ List.length (execution_history ex') = 8%nat
       else
         List.length rs = List.length (fst (Planner2.create_qa_plan qa_goal p))
         /\ Forall (fun r => er_success r = false
                             /\ er_error r = Some NoActionPlan) rs
         /\ step_count (android_env ex') = 0%Z
         /\ execution_history ex' = [].
Proof.
  intros Hmock. unfold Wrapper.reset. rewrite Hmock.
  destruct (time_time k) as [now k1]. cbn [fst snd].
  assert (Hdescr : Forall (fun sg => sg_description sg <> None)
                     (map as_subgoal (fst (Planner2.create_qa_plan qa_goal p)))).
  { apply Forall_forall. intros sg Hin. apply in_map_iff in Hin.
    destruct Hin as [s [<- _]]. discriminate. }
  match goal with
  | |- context [execute_subgoals (__init__ ?env) ?sgs k1] =>
      destruct (execute_subgoals_mock launcher_elements sgs (__init__ env) k1 _
                  eq_refl eq_refl eq_refl Hdescr)
        as [rs [ex' [k' [hist [Hrun [Hplans [Hsuccs [Herr [Hrep [Hcount
             [Hhist [Hsub Hres]]]]]]]]]]]]
  end.
  exists rs, ex', k'. split; [exact Hrun |].
  cbn [Executor2Env.__init__ android_env execution_history step_count app
       task_name max_steps] in *.
  unfold Planner2.create_qa_plan in *.
  assert (Hall : forall flags : list bool,
            map er_success rs = flags ->
            Forall (fun r => er_error r
                             = if er_success r then None else Some NoActionPlan) rs ->
            forall b, Forall (fun f => f = b) flags ->
            Forall (fun r => er_success r = b
                             /\ er_error r = if b then None else Some NoActionPlan) rs).
  { intros flags Hf He b Hb. subst flags. rewrite Forall_map in Hb.
    rewrite Forall_forall in *. intros r Hr. split; [now apply Hb |].
    rewrite (He r Hr), (Hb r Hr). reflexivity. }
  destruct (PyStr.contains "wifi" (PyStr.lower qa_goal)).
  - cbn [fst Planner2._create_wifi_toggle_plan] in *.
    split; [| split; [| split; [| split]]].
    + transitivity (map (fun o : option action_plan =>
                           match o with
                           | Some plan => Some (action_type plan, target_element plan,
                                                coordinates plan)
                           | None => None
                           end) (map er_action_plan rs)).
      { rewrite map_map. reflexivity. }
      rewrite Hplans. vm_compute. reflexivity.
    + apply (Hall _ Hsuccs Herr true). vm_compute. repeat constructor.
    + rewrite Hrep. reflexivity.
    + rewrite Hcount. vm_compute. reflexivity.
    + rewrite Hhist, <- (length_map h_subgoal), Hsub. vm_compute. reflexivity.
  - assert (Hnone : map (planned launcher_elements)
                      (map as_subgoal
                         (fst (if PyStr.contains "alarm" (PyStr.lower qa_goal)
                               then (Planner2._create_alarm_plan, p)
                               else (Planner2._create_generic_plan qa_goal, p))))
                    = map (fun _ => false)
                        (fst (if PyStr.contains "alarm" (PyStr.lower qa_goal)
                              then (Planner2._create_alarm_plan, p)
                              else (Planner2._create_generic_plan qa_goal, p)))).
    { destruct (PyStr.contains "alarm" (PyStr.lower qa_goal)); reflexivity. }
    assert (Hfilter : filter (planned launcher_elements)
                        (map as_subgoal
                           (fst (if PyStr.contains "alarm" (PyStr.lower qa_goal)
                                 then (Planner2._create_alarm_plan, p)
                                 else (Planner2._create_generic_plan qa_goal, p))))
                      = []).
    { destruct (PyStr.contains "alarm" (PyStr.lower qa_goal)); reflexivity. }
    split; [| split; [| split]].
    + rewrite <- (length_map er_success rs), Hsuccs, !length_map. reflexivity.
    + apply (Hall _ Hsuccs Herr false). rewrite Hnone.
      rewrite Forall_map. apply Forall_forall. reflexivity.
    + rewrite Hcount, Hfilter. reflexivity.
    + rewrite Hfilter in Hsub. destruct hist; [exact Hhist | discriminate].
Qed.

End SubgoalsOnMock.

(** X15, worked: opening the clock on the launcher finds no plan. *)
Lemma subgoal_on_mock_fails_only_unplanned_witness :
  Wrapper.mock_mode (Executor2Env.android_env Samples.fresh_executor) = true
  /\ Executor2.sg_description Samples.open_clock_app <> None
  /\ exists r ex' k',
       Executor2Env.execute_subgoal nat Samples.tick Samples.doze
         Samples.fresh_executor Samples.open_clock_app 1%nat = (Ok r, ex', k')
       /\ Executor2Env.er_success r = false
       /\ Executor2Env.er_error r = Some Executor2Env.NoActionPlan
       /\ Wrapper.step_count (Executor2Env.android_env ex') = 0%Z.
Proof.
  split; [reflexivity |]. split; [discriminate |].
  destruct (proj1 (proj2 (subgoal_on_mock_fails_only_unplanned nat Samples.tick
                            Samples.doze Samples.fresh_executor Samples.open_clock_app
                            1%nat eq_refl))
              ltac:(discriminate) Samples.launcher_observation
              Wrapper.launcher_elements eq_refl eq_refl)
    as [r [ex' [k' [Hrun [Hs [He [_ [Hc _]]]]]]]].
  exists r, ex', k'. split; [exact Hrun |]. split; [exact Hs |].
  split; [exact He | exact Hc].
Defined.

(** X16, worked: a tap and an unplannable subgoal on the reset wrapper;
    one result of two is counted. *)
Lemma summary_counts_performed_subgoals_only_witness :
  Wrapper.mock_mode Samples.reset_wrapper = true
  /\ Forall (fun sg => Executor2.sg_description sg <> None)
       [Samples.tap_wifi_option; Samples.open_clock_app]
  /\ exists rs ex' k',
       Executor2Env.execute_subgoals nat Samples.tick Samples.doze
         (Executor2Env.__init__ Samples.reset_wrapper)
         [Samples.tap_wifi_option; Samples.open_clock_app] 1%nat = (Ok rs, ex', k')
       /\ List.length rs = 2%nat
       /\ Executor2Env.total_executions (Executor2Env.get_execution_summary ex') = 1%nat
       /\ Executor2Env.successful_executions (Executor2Env.get_execution_summary ex')
          = Executor2Env.total_executions (Executor2Env.get_execution_summary ex').
Proof.
  assert (Hd : Forall (fun sg => Executor2.sg_description sg <> None)
                 [Samples.tap_wifi_option; Samples.open_clock_app])
    by (repeat constructor; discriminate).
  split; [reflexivity |]. split; [exact Hd |].
  destruct (proj1 (summary_counts_performed_subgoals_only nat Samples.tick Samples.doze
                     Samples.reset_wrapper
                     [Samples.tap_wifi_option; Samples.open_clock_app] 1%nat
                     eq_refl Hd)
              Samples.launcher_observation Wrapper.launcher_elements eq_refl eq_refl)
    as [rs [ex' [k' [Hrun [Hlen [Htotal [Hsucc _]]]]]]].
  exists rs, ex', k'. split; [exact Hrun |]. split; [exact Hlen |].
  split; [exact Htotal | exact Hsucc].
Defined.

(** X17, worked: the WiFi plan on the wrapper of the WiFi task. *)
Lemma qa_plans_on_mock_witness :
  Wrapper.mock_mode Samples.wifi_wrapper = true
  /\ exists rs ex' k',
       Executor2Env.execute_subgoals nat Samples.tick Samples.doze
         (Executor2Env.__init__
            (snd (fst (Wrapper.reset nat Samples.tick Samples.wifi_wrapper 0%nat))))
         (map Executor2Env.as_subgoal
            (fst (Planner2.create_qa_plan "Test WiFi toggle functionality"
                    Planner2.__init__)))
         (snd (Wrapper.reset nat Samples.tick Samples.wifi_wrapper 0%nat))
       = (Ok rs, ex', k')
       /\ Forall (fun r => Executor2Env.er_success r = true
                           /\ Executor2Env.er_error r = None) rs
       /\ map Executor2Env.reported rs
          = map (fun i => Some (i, Wrapper.done_at Samples.wifi_wrapper i))
              [1; 2; 3; 4; 5; 6; 7; 8]%Z
       /\ Wrapper.step_count (Executor2Env.android_env ex') = 8%Z.
Proof.
  split; [reflexivity |].
  destruct (qa_plans_on_mock nat Samples.tick Samples.doze
              "Test WiFi toggle functionality" Planner2.__init__
              Samples.wifi_wrapper 0%nat eq_refl)
    as [rs [ex' [k' [Hrun Hif]]]].
  assert (Hc : PyStr.contains "wifi" (PyStr.lower "Test WiFi toggle functionality")
               = true) by reflexivity.
  rewrite Hc in Hif. destruct Hif as [_ [Hs [Hr [Hn _]]]].
  exists rs, ex', k'. split; [exact Hrun |]. split; [exact Hs |].
  split; [exact Hr | exact Hn].
Defined.

(** ** The QA planner's summary *)

Section PlanSummary.

Import Planner2.

Lemma after_keeps_plan (calls : list call) :
  forall p : planner,
  execution_history (after calls p) = execution_history p
  /\ current_plan (after calls p)
     = if existsb asks_for_wifi calls then wifi_toggle_steps else current_plan p.
Proof.
  unfold after.
  induction calls as [| c rest IH]; intros p; [now split |].
  cbn [fold_left existsb]. destruct (IH (snd (answer c p))) as [Hh Hp].
  rewrite Hh, Hp.
  destruct c as [qa_goal | failed_step error_type]; cbn [answer asks_for_wifi snd].
  - unfold create_qa_plan.
    destruct (PyStr.contains "wifi" (PyStr.lower qa_goal)); cbn.
    + split; [reflexivity |]. now destruct (existsb asks_for_wifi rest).
    + destruct (PyStr.contains "alarm" (PyStr.lower qa_goal)); now split.
  - now split.
Qed.

(** X18. The plan summary knows the WiFi plan alone.  Whatever calls of
    [create_qa_plan] and [replan] a new planner has answered — each with a
    plan of at least one step — its summary reports no executed step and
    shows the eight steps of the WiFi plan if one of the goals mentioned
    WiFi, and otherwise an empty plan of zero steps: an alarm plan, a
    generic plan or recovery steps never reach the summary. *)
Theorem plan_summary_reports_wifi_plan_only (calls : list call) :
  executed_steps (get_plan_summary (after calls __init__)) = 0%Z
  /\ remaining_steps (get_plan_summary (after calls __init__))
     = total_steps (get_plan_summary (after calls __init__))
  /\ summary_plan (get_plan_summary (after calls __init__))
     = (if existsb asks_for_wifi calls then wifi_toggle_steps else [])
  /\ total_steps (get_plan_summary (after calls __init__))
     = (if existsb asks_for_wifi calls then 8 else 0)%Z
  /\ (forall c p, fst (answer c p) <> []
                  /\ (asks_for_wifi c = false -> snd (answer c p) = p)).
Proof.
  destruct (after_keeps_plan calls __init__) as [Hh Hp].
  unfold get_plan_summary.
  cbn [executed_steps remaining_steps total_steps summary_plan].
  rewrite Hh, Hp. cbn [__init__ execution_history current_plan List.length].
  repeat split.
  - lia.
  - now destruct (existsb asks_for_wifi calls).
  - destruct c as [qa_goal | failed_step error_type]; cbn [answer fst].
    + unfold create_qa_plan.
      destruct (PyStr.contains "wifi" (PyStr.lower qa_goal)); [discriminate |].
      destruct (PyStr.contains "alarm" (PyStr.lower qa_goal)); discriminate.
    + unfold replan. destruct (String.eqb _ _); discriminate.
  - destruct c as [qa_goal | failed_step error_type]; cbn [answer asks_for_wifi snd];
      [| reflexivity].
    unfold create_qa_plan. intros ->.
    now destruct (PyStr.contains "alarm" (PyStr.lower qa_goal)).
Qed.

End PlanSummary.

(** ** Where the verifier sends a verified run *)

Section VerifierRouting.

Import Data Llm Verifier Base VerifierAgent.

Variable pixels : Type.
Variable client : Type.
Variable generate : string -> client -> string * client.
Variable verify_prompt : string -> option node -> string.
Variable json_loads : string -> option verification.
Variable clock : Type.
Variable time_time : clock -> float * clock.

Local Notation classify := (classify pixels client generate verify_prompt json_loads).
Local Notation verify_from := (verify_from pixels client generate verify_prompt json_loads).
Local Notation _verify_results :=
  (_verify_results pixels client generate verify_prompt json_loads).
Local Notation process :=
  (process pixels client generate verify_prompt json_loads clock time_time).

(** No response of the client decodes (as when [json] is not importable). *)
Hypothesis no_answer_decodes : forall response, json_loads response = None.

Lemma classify_mirrors (i : nat) (st : step) (r : result pixels) (w : session client) :
  (success r = true -> ui_hierarchy r <> None) ->
  exists v w1,
    classify i st r w = (Ok v, w1)
    /\ mirrors (with_current_state (ui_hierarchy r) v) r.
Proof.
  intros Htree. unfold Verifier.classify, mirrors, failed.
  destruct (success r) eqn:Hs; simpl.
  - unfold Verifier._verify_step_outcome.
    destruct (ask client generate _ w) as [response w1].
    rewrite no_answer_decodes.
    destruct (ui_hierarchy r) as [tree |]; [| now destruct (Htree eq_refl)].
    eexists. exists w1. split; [reflexivity |].
    destruct (heuristic_cases (Data.verification st) tree) as [H | [why H]];
      rewrite H; repeat split; try (now right); try (now left).
  - eexists. exists w. split; [reflexivity |].
    repeat split. now right.
Qed.

Lemma verify_from_mirrors (plan : list step) :
  forall (results : list (result pixels)) i acc w,
  Forall (fun r => success r = true -> ui_hierarchy r <> None) results ->
  exists tail w',
    verify_from i plan results acc w = (Ok (acc ++ tail), w')
    /\ Forall2 mirrors tail (verified plan results).
Proof.
  unfold verified.
  induction plan as [| st plan IH]; intros results i acc w Hall.
  - exists [], w. simpl. rewrite app_nil_r. split; [reflexivity | constructor].
  - destruct results as [| r results].
    + exists [], w. simpl. rewrite app_nil_r. split; [reflexivity | constructor].
    + inversion Hall as [| ? ? Hr Hrest]; subst.
      destruct (classify_mirrors i st r w Hr) as [v [w1 [Hc Hm]]].
      destruct (IH results (S i) (acc ++ [with_current_state (ui_hierarchy r) v])
                  w1 Hrest) as [tail [w' [Hv Hall']]].
      exists (with_current_state (ui_hierarchy r) v :: tail), w'. split.
      * simpl. rewrite Hc, Hv, <- app_assoc. reflexivity.
      * simpl. constructor; assumption.
Qed.

Lemma mirrored_replanning (vs : list verification) (rs : list (result pixels)) :
  Forall2 mirrors vs rs -> _needs_replanning vs = existsb failed rs.
Proof.
  induction 1 as [| v r vs rs [_ [_ [_ Ht]]] _ IH]; [reflexivity |].
  rewrite needs_replanning_cons, Ht, IH. reflexivity.
Qed.

Lemma mirrored_last (vs : list verification) (rs : list (result pixels)) :
  Forall2 mirrors vs rs ->
  forall r, last_item rs = Ok r -> exists v, last_item vs = Ok v /\ mirrors v r.
Proof.
  intros H r. unfold last_item.
  assert (Hrev : Forall2 mirrors (rev vs) (rev rs)).
  { induction H as [| v r' vs rs Hm _ IH]; [constructor |].
    simpl. apply Forall2_app; [exact IH |]. constructor; [exact Hm | constructor]. }
  destruct Hrev as [| v r' vs' rs' Hm _]; [discriminate |].
  intros Heq. injection Heq as <-. now exists v.
Qed.

Lemma mirrored_statuses (vs : list verification) (rs : list (result pixels)) :
  Forall2 mirrors vs rs ->
  Forall (fun v => status v = Some "PASSED" \/ status v = Some "FAILED") vs
  /\ List.length vs = List.length rs.
Proof.
  induction 1 as [| v r vs rs [_ [_ [Hs _]]] _ [IH1 IH2]]; [now split |].
  split; [now constructor | simpl; now rewrite IH2].
Qed.

(** X19. Where the verifier sends a run it judged by the heuristic.  With
    no decodable answer and a UI tree in every successful result, a
    [verify_execution] message is answered by the execution results alone:
    - no verified step failed in execution: [test_completed] goes to the
      supervisor, with one verification per verified step and an overall
      status PASSED or FAILED;
    - the last verified step failed: [replan_needed] goes to the planner,
      with that step's error and UI tree, and no original goal;
    - a step failed but the last one succeeded: the verifier raises
      KeyError for "error" and sends nothing. *)
Theorem verifier_routes_by_execution (m : System.message (content pixels))
    (plan : list step) (results : list (result pixels)) (a : agent pixels)
    (w : session client) (k : clock) :
  System.message_type m = "verify_execution" ->
  System.msg_content m = CExecution plan results ->
  Forall (fun r => success r = true -> ui_hierarchy r <> None) results ->
  exists out a' w' k',
    process m a w k = (out, a', w', k')
    /\ (existsb failed (verified plan results) = false ->
        exists msg vs,
          out = Ok (Some msg)
          /\ System.sender msg = name a
          /\ System.recipient msg = "SupervisorAgent"
          /\ System.message_type msg = "test_completed"
          /\ System.msg_content msg = CCompleted vs (_determine_overall_status vs)
          /\ List.length vs = List.length (verified plan results)
          /\ (_determine_overall_status vs = "PASSED"
              \/ _determine_overall_status vs = "FAILED")
          /\ message_history a' = message_history a ++ [msg])
    /\ (forall r, last_item (verified plan results) = Ok r -> failed r = true ->
        exists msg,
          out = Ok (Some msg)
          /\ System.sender msg = name a
          /\ System.recipient msg = "PlannerAgent"
          /\ System.message_type msg = "replan_needed"
          /\ System.msg_content msg
             = CReplan None (ui_hierarchy r) (details_error (r_details r))
          /\ message_history a' = message_history a ++ [msg])
    /\ (forall r, existsb failed (verified plan results) = true ->
        last_item (verified plan results) = Ok r -> failed r = false ->
        out = Raise (KeyError "error") /\ a' = a /\ k' = k).
Proof.
  intros Htype Hcontent Htree. unfold VerifierAgent.process.
  rewrite Htype, Hcontent. cbn [String.eqb get_plan get_results].
  change (String.eqb "verify_execution" "verify_execution") with true. cbv iota.
  unfold Verifier._verify_results.
  destruct (verify_from_mirrors plan results 0%nat [] w Htree) as [vs [w' [Hv Hm]]].
  cbn [app] in Hv. rewrite Hv.
  rewrite (mirrored_replanning _ _ Hm).
  destruct (mirrored_statuses _ _ Hm) as [Hst Hlen].
  destruct (existsb failed (verified plan results)) eqn:Hany.
  - destruct (last_item (verified plan results)) as [r | e] eqn:Hlast.
    + destruct (mirrored_last _ _ Hm r Hlast) as [v [Hlv [He [Hcs _]]]].
      rewrite Hlv. unfold failed. destruct (success r) eqn:Hs; rewrite He.
      * eexists. eexists. eexists. eexists. split; [reflexivity |].
        split; [discriminate |]. split.
        -- intros r' Hr'. injection Hr' as <-. rewrite Hs. discriminate.
        -- intros r' _ Hr' _. now repeat split.
      * unfold send_message. destruct (time_time k) as [now k1].
        eexists. eexists. eexists. eexists. split; [reflexivity |].
        split; [discriminate |]. split.
        -- intros r' Hr' _. injection Hr' as <-.
           eexists. rewrite Hcs. cbn. now repeat split.
        -- intros r' _ Hr'. injection Hr' as <-. rewrite Hs. discriminate.
    + exfalso. unfold last_item in Hlast.
      destruct (verified plan results) as [| r0 rest] eqn:Hver; [discriminate |].
      destruct (rev (r0 :: rest)) eqn:Hrev; [| discriminate].
      apply (f_equal (@List.length _)) in Hrev.
      rewrite length_rev in Hrev. discriminate.
  - unfold send_message. destruct (time_time k) as [now k1].
    eexists. eexists. eexists. eexists. split; [reflexivity |].
    split; [| split].
    + intros _. eexists. exists vs. cbn. repeat split; try assumption.
      now apply overall_of_passed_or_failed.
    + intros r Hlast Hf. exfalso.
      assert (Hin : In r (verified plan results)).
      { unfold last_item in Hlast.
        destruct (rev (verified plan results)) as [| x rest] eqn:Hrev; [discriminate |].
        injection Hlast as ->. apply in_rev. rewrite Hrev. now left. }
      assert (Hex : existsb failed (verified plan results) = true).
      { apply existsb_exists. now exists r. }
      congruence.
    + discriminate.
Qed.

End VerifierRouting.

(** X19, worked: after a failed tap that had a fallback and a tap that
    succeeded, the verifier wants a new plan and finds no error to send. *)
Lemma verifier_routes_by_execution_witness :
  (forall response, Samples.never_decodes response = None)
  /\ System.message_type Samples.recovered_run = "verify_execution"
  /\ exists out a' w' k',
       VerifierAgent.process unit unit Samples.mute_client Samples.plain_prompt
         Samples.never_decodes nat Samples.tick Samples.recovered_run
         Samples.verifier_agent Samples.fresh_session 0%nat = (out, a', w', k')
       /\ out = Raise (KeyError "error")
       /\ a' = Samples.verifier_agent.
Proof.
  assert (H1 : forall response, Samples.never_decodes response = None)
    by (intros response; reflexivity).
  split; [exact H1 |]. split; [reflexivity |].
  destruct (verifier_routes_by_execution unit unit Samples.mute_client
              Samples.plain_prompt Samples.never_decodes nat Samples.tick H1
              Samples.recovered_run [Samples.tap_settings; Samples.step_settings]
              [Samples.tap_settings_failed; Samples.result_settings]
              Samples.verifier_agent Samples.fresh_session 0%nat eq_refl eq_refl
              ltac:(repeat constructor; simpl; discriminate))
    as [out [a' [w' [k' [Hrun [_ [_ Hlost]]]]]]].
  exists out, a', w', k'. split; [exact Hrun |].
  destruct (Hlost Samples.result_settings eq_refl eq_refl eq_refl) as [Ho [Ha _]].
  split; [exact Ho | exact Ha].
Defined.

(** ** The order of the agents in a run *)

Section Pipeline.

Import Data Base QASystem.

Variable pixels : Type.
Variable env : Type.
Variable observe : env -> observation pixels * env.
Variable env_step : env_action -> env -> env.
Variable py_float : string -> res float.
Variable sleep : float -> env -> res env.
Variable client : Type.
Variable generate : string -> client -> string * client.
Variable plan_prompt : string -> string.
Variable adapt_prompt : option string -> option node -> string -> string.
Variable json_loads_plan : string -> option Planner.decoded.
Variable verify_prompt : string -> option node -> string.
Variable json_loads : string -> option Verifier.verification.
Variable clock : Type.
Variable time_time : clock -> float * clock.
Variable others : Type.

Local Notation world := (world pixels env client clock others).
Local Notation message := (System.message (content pixels)).

Local Notation planner_process :=
  (planner_process pixels env client generate plan_prompt adapt_prompt json_loads_plan
     clock time_time others).
Local Notation executor_process :=
  (executor_process pixels env observe env_step py_float sleep client clock time_time
     others).
Local Notation verifier_process :=
  (verifier_process pixels env client generate verify_prompt json_loads clock time_time
     others).

(** The supervisor, the handling of its report and the screenshots are
    left open. *)
Variable supervisor : message -> world -> res (option message) * world.
Variable handle_final_report : content pixels -> world -> res world.
Variable save_screenshot : nat -> world -> world.

Local Notation loop :=
  (System.loop (content pixels) world planner_process executor_process
     verifier_process supervisor handle_final_report save_screenshot).
Local Notation run_loop :=
  (System.run_loop (content pixels) world planner_process executor_process
     verifier_process supervisor handle_final_report save_screenshot
     (fun goal => CGoal goal) (fun w => fst (time_time (wall_clock _ _ _ _ _ w)))).

Lemma logged_app (tr tr' : list System.event) :
  logged (tr ++ tr') = logged tr ++ logged tr'.
Proof.
  induction tr as [| ev tr IH]; [reflexivity |].
  destruct ev; simpl; now rewrite IH.
Qed.

Lemma planner_answers (m m' : message) (w w' : world) :
  planner_process m w = (Ok (Some m'), w') -> System.recipient m' = "ExecutorAgent".
Proof.
  unfold QASystem.planner_process, PlannerAgent.process, send_message.
  destruct (String.eqb (System.message_type m) "create_plan").
  - destruct (get_goal pixels _) as [goal | e]; [| discriminate].
    destruct (Planner._create_test_plan _ _ _ _ goal _) as [[plan | e] w1];
      [| discriminate].
    destruct (time_time _) as [now k1]. intros H. now injection H as <- _.
  - destruct (String.eqb (System.message_type m) "replan_needed"); [| discriminate].
    destruct (get_replan pixels _) as [[[og cs] err] | e]; [| discriminate].
    destruct (PlannerAgent._adapt_plan _ _ _ _ og cs err _) as [plan w1].
    destruct (time_time _) as [now k1]. intros H. now injection H as <- _.
Qed.

Lemma executor_answers (m m' : message) (w w' : world) :
  executor_process m w = (Ok (Some m'), w') -> System.recipient m' = "VerifierAgent".
Proof.
  unfold QASystem.executor_process, ExecutorAgent.process, send_message.
  destruct (String.eqb (System.message_type m) "execute_plan"); [| discriminate].
  destruct (get_plan pixels _) as [[plan |] | e]; try discriminate.
  destruct (Executor._execute_plan _ _ _ _ _ _ plan _) as [[results | e] x1];
    [| discriminate].
  destruct (time_time _) as [now k1]. intros H. now injection H as <- _.
Qed.

Lemma verifier_answers (m m' : message) (w w' : world) :
  verifier_process m w = (Ok (Some m'), w') ->
  System.recipient m' = "PlannerAgent" \/ System.recipient m' = "SupervisorAgent".
Proof.
  unfold QASystem.verifier_process, VerifierAgent.process, send_message.
  destruct (String.eqb (System.message_type m) "verify_execution"); [| discriminate].
  destruct (get_plan pixels _) as [[plan |] | e]; try discriminate;
    (destruct (get_results pixels _) as [results | e]; [| discriminate]);
    [| discriminate].
  destruct (Verifier._verify_results _ _ _ _ _ plan results _) as [[vs | e] w1];
    [| discriminate].
  destruct (Verifier._needs_replanning vs).
  - destruct (last_item vs) as [final | e]; [| discriminate].
    destruct (Verifier.error final) as [err |]; [| discriminate].
    destruct (time_time _) as [now k1]. intros H. left. now injection H as <- _.
  - destruct (time_time _) as [now k1]. intros H. right. now injection H as <- _.
Qed.

Local Ltac tidy_logged :=
  cbn [System.trace]; rewrite ?logged_app; simpl;
  rewrite ?app_nil_r, <- ?app_assoc; simpl; try reflexivity.

(** A run only adds to what is logged, one recipient for an iteration at
    most. *)
Lemma loop_logs_more (budget : nat) :
  forall (iteration : nat) (cur : option message) (resp : option (option message))
         (w : world) (tr : list System.event),
  exists more,
    logged (System.trace (loop budget iteration cur resp w tr)) = logged tr ++ more
    /\ List.length more <= budget.
Proof.
  induction budget as [| budget IH]; intros iteration cur resp w tr.
  - exists []. split; [tidy_logged | reflexivity].
  - simpl. destruct cur as [m |]; [| exists []; split; [tidy_logged | simpl; lia]].
    destruct (System.agent_named _ _ _ _ _ _ (System.recipient m)) as [process |].
    + destruct (process m w) as [[answer | ex] w1].
      * destruct (String.eqb (System.recipient m) "ExecutorAgent");
          match goal with
          | |- context [loop budget ?i ?c ?r ?w0 ?t] =>
              destruct (IH i c r w0 t) as [more [H Hlen]];
              exists (System.recipient m :: more); split;
              [rewrite H; tidy_logged | simpl; lia]
          end.
      * exists []. split; [tidy_logged | simpl; lia].
    + destruct (String.eqb (System.recipient m) "System").
      * exists []. split; [| simpl; lia].
        destruct resp as [[r |] |]; try tidy_logged.
        destruct (handle_final_report _ _); tidy_logged.
      * exists []. split; [tidy_logged | simpl; lia].
Qed.

(** One turn of the loop for a message to one of the agents. *)
Lemma loop_turn (budget iteration : nat) (m : message)
    (resp : option (option message)) (w : world) (tr : list System.event)
    (process : message -> world -> res (option message) * world) :
  System.agent_named (content pixels) world planner_process executor_process
    verifier_process supervisor (System.recipient m) = Some process ->
  exists more,
    logged (System.trace (loop (S budget) iteration (Some m) resp w tr))
    = logged tr ++ more
    /\ match process m w with
       | (Raise _, _) => more = []
       | (Ok answer, w1) =>
           exists w2 tr2 later,
             more = System.recipient m :: later
             /\ logged (System.trace (loop budget (S iteration) answer (Some answer)
                                        w2 tr2))
                = logged tr2 ++ later
       end.
Proof.
  intros Hagent. simpl. rewrite Hagent.
  destruct (process m w) as [[answer | ex] w1].
  - destruct (String.eqb (System.recipient m) "ExecutorAgent");
      match goal with
      | |- context [loop budget ?i ?c ?r ?w0 ?t] =>
          destruct (loop_logs_more budget i c r w0 t) as [later [H _]];
          exists (System.recipient m :: later); split;
          [rewrite H; tidy_logged | exists w0, t, later; now split]
      end.
  - exists []. split; [tidy_logged | reflexivity].
Qed.

Lemma turn_cases (p : nat) :
  (p mod 3 = 0 /\ S p mod 3 = 1 /\ turn p = "PlannerAgent")
  \/ (p mod 3 = 1 /\ S p mod 3 = 2 /\ turn p = "ExecutorAgent")
  \/ (p mod 3 = 2 /\ S p mod 3 = 0 /\ turn p = "VerifierAgent").
Proof.
  unfold turn. pose proof (Nat.mod_upper_bound p 3 ltac:(discriminate)) as Hlt.
  assert (Hs : S p mod 3 = (p mod 3 + 1) mod 3).
  { replace (S p) with (p + 1) by lia.
    rewrite Nat.Div0.add_mod. reflexivity. }
  rewrite Hs.
  destruct (p mod 3) as [| [| [| n]]]; [left | right; left | right; right | lia];
    now repeat split.
Qed.

(** The logged recipients keep to the pipeline from position [p] on: the
    first [n] of them are the agents whose turn it is, and either there is
    no other or the next is the supervisor, in the planner's place. *)
Lemma loop_keeps_to_pipeline (budget : nat) :
  forall (iteration : nat) (m : message) (resp : option (option message))
         (w : world) (tr : list System.event) (p : nat),
  System.recipient m = turn p ->
  exists more,
    logged (System.trace (loop budget iteration (Some m) resp w tr)) = logged tr ++ more
    /\ keeps_to p more.
Proof.
  induction budget as [| budget IH]; intros iteration m resp w tr p Hp.
  - exists []. split; [tidy_logged |]. exists 0. split; [reflexivity | now left].
  - assert (Hagent : exists process,
              System.agent_named (content pixels) world planner_process
                executor_process verifier_process supervisor (System.recipient m)
              = Some process
              /\ forall m' w', process m w = (Ok (Some m'), w') ->
                   System.recipient m' = turn (S p)
                   \/ (System.recipient m' = "SupervisorAgent" /\ S p mod 3 = 0)).
    { rewrite Hp. destruct (turn_cases p) as [[H0 [H1 ->]] | [[H0 [H1 ->]] | [H0 [H1 ->]]]].
      - exists planner_process. split; [reflexivity |]. intros m' w' H. left.
        rewrite (planner_answers _ _ _ _ H). unfold turn. now rewrite H1.
      - exists executor_process. split; [reflexivity |]. intros m' w' H. left.
        rewrite (executor_answers _ _ _ _ H). unfold turn. now rewrite H1.
      - exists verifier_process. split; [reflexivity |]. intros m' w' H.
        destruct (verifier_answers _ _ _ _ H) as [Hr | Hr]; rewrite Hr.
        + left. unfold turn. now rewrite H1.
        + right. now split. }
    destruct Hagent as [process [Hagent Hnext]].
    destruct (loop_turn budget iteration m resp w tr process Hagent) as [more [Hmore Hcase]].
    exists more. split; [exact Hmore |].
    destruct (process m w) as [[answer | ex] w1] eqn:Hproc.
    + destruct Hcase as [w2 [tr2 [later [-> Hlater]]]]. rewrite Hp.
      destruct answer as [m' |].
      * destruct (Hnext m' w1 eq_refl) as [Hturn | [Hsup Hmod]].
        -- destruct (IH (S iteration) m' (Some (Some m')) w2 tr2 (S p) Hturn)
             as [later' [Hl' [n [Hfirst Hend]]]].
           rewrite Hlater in Hl'. apply app_inv_head in Hl'. subst later'.
           exists (S n). split.
           ++ simpl. now rewrite Hfirst.
           ++ destruct Hend as [-> | [Hnth [Hm Hpos]]]; [now left |].
              right. simpl. split; [exact Hnth |].
              split; [replace (p + S n) with (S p + n) by lia; exact Hm | lia].
        -- exists 1. split; [reflexivity |].
           destruct budget as [| budget'].
           ++ left. simpl in Hlater. rewrite <- (app_nil_r (logged tr2)) in Hlater at 1.
              apply app_inv_head in Hlater. now subst later.
           ++ assert (Hsa : System.agent_named (content pixels) world planner_process
                              executor_process verifier_process supervisor
                              (System.recipient m') = Some supervisor).
              { rewrite Hsup. reflexivity. }
              destruct (loop_turn budget' (S iteration) m' (Some (Some m')) w2 tr2
                          supervisor Hsa) as [more' [Hm' Hc']].
              rewrite Hlater in Hm'. apply app_inv_head in Hm'. subst more'.
              destruct (supervisor m' w2) as [[answer' | ex'] w3].
              ** destruct Hc' as [_ [_ [later' [-> _]]]]. right. simpl.
                 split; [now rewrite Hsup |].
                 split; [replace (p + 1) with (S p) by lia; exact Hmod | lia].
              ** left. now subst later.
      * exists 1. split; [reflexivity |]. left.
        destruct budget as [| budget']; simpl in Hlater;
          rewrite <- (app_nil_r (logged tr2)) in Hlater at 1;
          apply app_inv_head in Hlater; now subst later.
    + subst more. exists 0. split; [reflexivity | now left].
Qed.

(** X20. The agents take their turns in a fixed order.  In a run of the
    control loop with the repository's planner, executor and verifier,
    whatever the supervisor does, the messages processed go to the planner,
    the executor and the verifier in turn, over and over, until the run
    ends or the supervisor is addressed; the supervisor is addressed in
    the planner's place, after a verification, so as the fourth, seventh or
    tenth recipient.  Up to there a run executes a plan three times at
    most; and ten messages are processed at most. *)
Theorem run_keeps_to_pipeline (test_goal : string) (w : world) :
  exists n,
    firstn n (logged (System.trace (run_loop test_goal w))) = map turn (seq 0 n)
    /\ (n = List.length (logged (System.trace (run_loop test_goal w)))
        \/ (nth_error (logged (System.trace (run_loop test_goal w))) n
            = Some "SupervisorAgent"
            /\ (n = 3 \/ n = 6 \/ n = 9)))
    /\ List.length (filter (String.eqb "ExecutorAgent")
                      (firstn n (logged (System.trace (run_loop test_goal w))))) <= 3
    /\ List.length (logged (System.trace (run_loop test_goal w))) <= 10.
Proof.
  unfold System.run_loop.
  destruct (loop_keeps_to_pipeline (System.max_iterations - 0) 0
              (System.initial_message (content pixels) world (fun goal => CGoal goal)
                 (fun w0 => fst (time_time (wall_clock _ _ _ _ _ w0))) test_goal w)
              None w [System.TestStart test_goal] 0 eq_refl)
    as [more [H [n [Hfirst Hend]]]].
  destruct (loop_logs_more (System.max_iterations - 0) 0
              (Some (System.initial_message (content pixels) world
                       (fun goal => CGoal goal)
                       (fun w0 => fst (time_time (wall_clock _ _ _ _ _ w0)))
                       test_goal w))
              None w [System.TestStart test_goal]) as [more' [H' Hlen]].
  rewrite H in H'. apply app_inv_head in H'. subst more'.
  rewrite H. cbn [logged app]. change (System.max_iterations - 0) with 10 in Hlen.
  assert (Hn : n <= 10).
  { destruct Hend as [-> | [Hnth _]]; [exact Hlen |].
    apply Nat.lt_le_incl. apply Nat.lt_le_trans with (List.length more); [| exact Hlen].
    apply nth_error_Some. now rewrite Hnth. }
  exists n. split; [exact Hfirst |]. split; [| split; [| exact Hlen]].
  - destruct Hend as [-> | [Hnth [Hmod Hpos]]]; [now left |].
    right. split; [exact Hnth |].
    assert (Hlt : n < 10).
    { apply Nat.lt_le_trans with (List.length more); [| exact Hlen].
      apply nth_error_Some. now rewrite Hnth. }
    cbn [Nat.add] in Hmod.
    do 10 (destruct n as [| n]; [vm_compute in Hmod; try discriminate; try lia;
                                 auto |]).
    lia.
  - rewrite Hfirst.
    do 11 (destruct n as [| n];
           [vm_compute; repeat constructor |]).
    lia.
Qed.

End Pipeline.

(** ** A recovery that cannot start *)

Section FailedRecovery.

Import Data Base QASystem.

Variable pixels : Type.
Variable env : Type.
Variable observe : env -> observation pixels * env.
Variable env_step : env_action -> env -> env.
Variable py_float : string -> res float.
Variable sleep : float -> env -> res env.
Variable client : Type.
Variable generate : string -> client -> string * client.
Variable plan_prompt : string -> string.
Variable adapt_prompt : option string -> option node -> string -> string.
Variable json_loads_plan : string -> option Planner.decoded.
Variable verify_prompt : string -> option node -> string.
Variable json_loads : string -> option Verifier.verification.
Variable clock : Type.
Variable time_time : clock -> float * clock.
Variable others : Type.

Local Notation world := (world pixels env client clock others).
Local Notation message := (System.message (content pixels)).

Local Notation planner_process :=
  (planner_process pixels env client generate plan_prompt adapt_prompt json_loads_plan
     clock time_time others).
Local Notation executor_process :=
  (executor_process pixels env observe env_step py_float sleep client clock time_time
     others).
Local Notation verifier_process :=
  (verifier_process pixels env client generate verify_prompt json_loads clock time_time
     others).
Local Notation recovering := (recovering pixels).

Variable supervisor : message -> world -> res (option message) * world.
Variable handle_final_report : content pixels -> world -> res world.
Variable save_screenshot : nat -> world -> world.

Local Notation loop :=
  (System.loop (content pixels) world planner_process executor_process
     verifier_process supervisor handle_final_report save_screenshot).

(** No answer of the client decodes to a plan, and no screen shows
    anything that matches "Back button". *)
Hypothesis no_plan_decodes : forall response, json_loads_plan response = None.
Hypothesis no_back_button :
  forall e, Executor.found_element
              (Executor._find_ui_element "Back button"
                 (Executor.searched_tree pixels (fst (observe e)))) = None.

Lemma planner_recovers (m : message) (w : world) :
  System.message_type m = "replan_needed" ->
  (exists original_goal current_state error,
     System.msg_content m = CReplan original_goal current_state error) ->
  exists m' w',
    planner_process m w = (Ok (Some m'), w')
    /\ System.recipient m' = "ExecutorAgent"
    /\ System.message_type m' = "execute_plan"
    /\ System.msg_content m'
       = CPlan (Planner.Sized PlannerAgent.recovery_template) (Some true).
Proof.
  intros Htype [og [cs [err Hc]]].
  unfold QASystem.planner_process, PlannerAgent.process. rewrite Htype, Hc.
  cbn [get_replan]. change (String.eqb "replan_needed" "create_plan") with false.
  change (String.eqb "replan_needed" "replan_needed") with true. cbv iota.
  unfold PlannerAgent._adapt_plan. cbv zeta.
  destruct (Llm.ask client generate _ _) as [response w1].
  rewrite no_plan_decodes. unfold send_message.
  destruct (time_time _) as [now k1].
  eexists. eexists. split; [reflexivity |]. now repeat split.
Qed.

Lemma executor_stops_at_back_button (m : message) (w : world) :
  System.message_type m = "execute_plan" ->
  (exists is_recovery,
     System.msg_content m
     = CPlan (Planner.Sized PlannerAgent.recovery_template) is_recovery) ->
  exists m' w' r,
    executor_process m w = (Ok (Some m'), w')
    /\ System.recipient m' = "VerifierAgent"
    /\ System.message_type m' = "verify_execution"
    /\ System.msg_content m' = CExecution PlannerAgent.recovery_template [r]
    /\ success r = false
    /\ r_details r = DError back_button_missing.
Proof.
  intros Htype [flag Hc].
  unfold QASystem.executor_process, ExecutorAgent.process. rewrite Htype, Hc.
  cbn [get_plan]. change (String.eqb "execute_plan" "execute_plan") with true.
  cbv iota.
  unfold Executor._execute_plan, PlannerAgent.recovery_template.
  cbn [Executor.execute_from].
  unfold Executor.execute_step.
  pose proof (no_back_button (Executor.a_env (executor_fields _ _ _ _ _ w))) as Hnone.
  destruct (observe (Executor.a_env (executor_fields _ _ _ _ _ w))) as [obs e1].
  cbn [fst] in Hnone.
  unfold Executor.perform. cbn [action target].
  change (String.eqb "tap" "tap") with true. cbv iota.
  unfold Executor._execute_tap. cbv zeta. rewrite Hnone.
  unfold Executor.stops_here. cbn. unfold send_message.
  destruct (time_time _) as [now k1].
  eexists. eexists. eexists. split; [reflexivity |]. now repeat split.
Qed.

Lemma verifier_asks_again (m : message) (w : world) :
  System.message_type m = "verify_execution" ->
  (exists r,
     System.msg_content m = CExecution PlannerAgent.recovery_template [r]
     /\ success r = false /\ r_details r = DError back_button_missing) ->
  exists m' w',
    verifier_process m w = (Ok (Some m'), w')
    /\ System.recipient m' = "PlannerAgent"
    /\ System.message_type m' = "replan_needed"
    /\ exists current_state,
         System.msg_content m' = CReplan None current_state back_button_missing.
Proof.
  intros Htype [r [Hc [Hfail Hd]]].
  unfold QASystem.verifier_process, VerifierAgent.process. rewrite Htype, Hc.
  cbn [get_plan get_results original_goal_or_none].
  change (String.eqb "verify_execution" "verify_execution") with true. cbv iota.
  unfold Verifier._verify_results, PlannerAgent.recovery_template.
  cbn [Verifier.verify_from]. unfold Verifier.classify. rewrite Hfail.
  cbn [negb app Verifier.verify_from]. rewrite Hd.
  cbn. unfold send_message. destruct (time_time _) as [now k1].
  eexists. eexists. split; [reflexivity |]. repeat split. eexists. reflexivity.
Qed.

Lemma recovering_next (p : nat) (m : message) (w : world) :
  recovering p m ->
  exists process m' w',
    System.agent_named (content pixels) world planner_process executor_process
      verifier_process supervisor (System.recipient m) = Some process
    /\ process m w = (Ok (Some m'), w')
    /\ recovering (S p) m'.
Proof.
  intros [Hto Hkind]. rewrite Hto. unfold QASystem.recovering.
  destruct (turn_cases p) as [[H0 [H1 Ht]] | [[H0 [H1 Ht]] | [H0 [H1 Ht]]]];
    rewrite Ht, H1; rewrite H0 in Hkind; destruct Hkind as [Htype Hc].
  - destruct (planner_recovers m w Htype Hc) as [m' [w' [Hp [Hr [Hty Hco]]]]].
    exists planner_process, m', w'. split; [reflexivity |]. split; [exact Hp |].
    split; [rewrite Hr; unfold turn; now rewrite H1 |].
    split; [exact Hty | now exists (Some true)].
  - destruct (executor_stops_at_back_button m w Htype Hc)
      as [m' [w' [r [Hp [Hr [Hty [Hco [Hf Hd]]]]]]]].
    exists executor_process, m', w'. split; [reflexivity |]. split; [exact Hp |].
    split; [rewrite Hr; unfold turn; now rewrite H1 |].
    split; [exact Hty | now exists r].
  - destruct (verifier_asks_again m w Htype Hc) as [m' [w' [Hp [Hr [Hty [cs Hco]]]]]].
    exists verifier_process, m', w'. split; [reflexivity |]. split; [exact Hp |].
    split; [rewrite Hr; unfold turn; now rewrite H1 |].
    split; [exact Hty | now exists None, cs, back_button_missing].
Qed.

Lemma recovering_loop (budget : nat) :
  forall (iteration : nat) (m : message) (resp : option (option message))
         (w : world) (tr : list System.event) (p : nat),
  recovering p m ->
  System.how (loop budget iteration (Some m) resp w tr) = Ok System.ByBudget
  /\ System.iterations (loop budget iteration (Some m) resp w tr) = iteration + budget
  /\ logged (System.trace (loop budget iteration (Some m) resp w tr))
     = logged tr ++ map turn (seq p budget).
Proof.
  induction budget as [| budget IH]; intros iteration m resp w tr p Hrec.
  - cbn. rewrite app_nil_r, Nat.add_0_r. now repeat split.
  - destruct (recovering_next p m w Hrec) as [process [m' [w' [Hagent [Hproc Hnext]]]]].
    destruct Hrec as [Hto _].
    cbn [System.loop]. rewrite Hagent, Hproc.
    destruct (String.eqb (System.recipient m) "ExecutorAgent");
      match goal with
      | |- context [loop budget ?i ?c ?r ?w0 ?t] =>
          destruct (IH i m' r w0 t (S p) Hnext) as [Hhow [Hit Hlog]];
          rewrite Hhow, Hit, Hlog
      end;
      (split; [reflexivity |]; split; [lia |]);
      rewrite !logged_app; cbn [logged map seq]; rewrite ?app_nil_r, <- ?app_assoc;
      rewrite Hto; reflexivity.
Qed.

(** X21. A recovery that cannot start uses up the run.  When no answer of
    the client decodes to a plan and no screen shows anything that matches
    "Back button", a request to replan is answered with the two-tap
    template, whose first tap fails and, having no fallback, ends the
    execution; the verifier then asks to replan again, with the error of
    that tap and no original goal.  So from a request to replan on, the
    loop goes round planner, executor and verifier until its budget is
    spent: it ends neither by a report nor by an exception, however many
    iterations it is given. *)
Theorem failed_recovery_exhausts_budget (budget iteration : nat) (m : message)
    (resp : option (option message)) (w : world) (tr : list System.event) :
  System.recipient m = "PlannerAgent" ->
  System.message_type m = "replan_needed" ->
  (exists original_goal current_state error,
     System.msg_content m = CReplan original_goal current_state error) ->
  (exists m1 w1 m2 w2 r m3 w3 current_state,
     planner_process m w = (Ok (Some m1), w1)
     /\ System.msg_content m1
        = CPlan (Planner.Sized PlannerAgent.recovery_template) (Some true)
     /\ executor_process m1 w1 = (Ok (Some m2), w2)
     /\ System.msg_content m2 = CExecution PlannerAgent.recovery_template [r]
     /\ success r = false
     /\ r_details r = DError back_button_missing
     /\ verifier_process m2 w2 = (Ok (Some m3), w3)
     /\ System.recipient m3 = "PlannerAgent"
     /\ System.message_type m3 = "replan_needed"
     /\ System.msg_content m3 = CReplan None current_state back_button_missing)
  /\ System.how (loop budget iteration (Some m) resp w tr) = Ok System.ByBudget
  /\ System.iterations (loop budget iteration (Some m) resp w tr) = iteration + budget
  /\ logged (System.trace (loop budget iteration (Some m) resp w tr))
     = logged tr ++ map turn (seq 0 budget).
Proof.
  intros Hto Htype Hc. split.
  - destruct (planner_recovers m w Htype Hc) as [m1 [w1 [Hp [_ [Ht1 Hc1]]]]].
    destruct (executor_stops_at_back_button m1 w1 Ht1
                (ex_intro _ (Some true) Hc1))
      as [m2 [w2 [r [He [_ [Ht2 [Hc2 [Hf Hd]]]]]]]].
    destruct (verifier_asks_again m2 w2 Ht2
                (ex_intro _ r (conj Hc2 (conj Hf Hd))))
      as [m3 [w3 [Hv [Hr3 [Ht3 [cs Hc3]]]]]].
    exists m1, w1, m2, w2, r, m3, w3, cs. now repeat split.
  - apply (recovering_loop budget iteration m resp w tr 0).
    split; [exact Hto | exact (conj Htype Hc)].
Qed.


End FailedRecovery.

(** X21, worked: a request to replan on the recording environment, whose
    screen has no Back button, with ten iterations to go. *)
Lemma failed_recovery_exhausts_budget_witness :
  (forall response, Samples.never_decodes_plan response = None)
  /\ (forall e, Executor.found_element
                  (Executor._find_ui_element "Back button"
                     (Executor.searched_tree unit (fst (Samples.rec_observe e)))) = None)
  /\ System.how
       (System.loop (Base.content unit) Samples.qa_world
          (QASystem.planner_process unit Samples.recorder unit Samples.mute_client
             Samples.plain_goal_prompt Samples.plain_adapt_prompt
             Samples.never_decodes_plan nat Samples.tick unit)
          (QASystem.executor_process unit Samples.recorder Samples.rec_observe
             Samples.rec_step Samples.rec_float Samples.rec_sleep unit nat Samples.tick
             unit)
          (QASystem.verifier_process unit Samples.recorder unit Samples.mute_client
             Samples.plain_prompt Samples.never_decodes nat Samples.tick unit)
          Samples.silent_supervisor Samples.accept_qa_report Samples.keep_qa_screenshot
          10 0 (Some Samples.replan_request) None Samples.idle_world [])
     = Ok System.ByBudget.
Proof.
  assert (H1 : forall response, Samples.never_decodes_plan response = None)
    by (intros response; reflexivity).
  assert (H2 : forall e, Executor.found_element
                 (Executor._find_ui_element "Back button"
                    (Executor.searched_tree unit (fst (Samples.rec_observe e)))) = None)
    by (intros e; reflexivity).
  split; [exact H1 |]. split; [exact H2 |].
  exact (proj1 (proj2 (failed_recovery_exhausts_budget unit Samples.recorder
                         Samples.rec_observe Samples.rec_step Samples.rec_float
                         Samples.rec_sleep unit Samples.mute_client
                         Samples.plain_goal_prompt Samples.plain_adapt_prompt
                         Samples.never_decodes_plan Samples.plain_prompt
                         Samples.never_decodes nat Samples.tick unit
                         Samples.silent_supervisor Samples.accept_qa_report
                         Samples.keep_qa_screenshot H1 H2 10 0 Samples.replan_request
                         None Samples.idle_world [] eq_refl eq_refl
                         (ex_intro _ None (ex_intro _ None (ex_intro _ _ eq_refl)))))).
Defined.

(** ** The planner's steps before the executor *)

Section PlannableSteps.

Import Executor2 Executor2Env.

(** X22. Which steps of the planner the executor can act on, on any
    screen.  Of the WiFi plan every step finds an action plan except
    possibly the first, which needs an element that matches "settings":
    navigation has no fallback coordinates.  No step of the alarm plan, of
    the generic plan or of the recovery for "element_not_found" finds one,
    whatever the screen shows; the recovery for any other error is always
    a press of the back button. *)
Theorem steps_the_executor_can_plan (st : ui_state) (qa_goal : string)
    (failed_step : Planner2.qa_step) :
  map (fun s => Ui.is_some (_analyze_subgoal (as_subgoal s) st))
    Planner2.wifi_toggle_steps
  = Ui.is_some (usable (_find_element_by_criteria st
                          [by_text "settings"; by_text "Settings"; by_id "settings"]))
    :: repeat true 7
  /\ Forall (fun s => _analyze_subgoal (as_subgoal s) st = None)
       (Planner2._create_alarm_plan ++ Planner2._create_generic_plan qa_goal
        ++ Planner2.replan failed_step (Some "element_not_found"))
  /\ (forall error_type,
        error_type <> Some "element_not_found" ->
        map (fun s => _analyze_subgoal (as_subgoal s) st)
          (Planner2.replan failed_step error_type)
        = [Some (press "back" "Press back button")]).
Proof.
  split; [| split].
  - assert (Hrest : map (fun s => Ui.is_some (_analyze_subgoal (as_subgoal s) st))
                      (tl Planner2.wifi_toggle_steps) = repeat true 7) by reflexivity.
    change Planner2.wifi_toggle_steps
      with (hd (Planner2.Build_qa_step 0 "" "" "" [] "" 0) Planner2.wifi_toggle_steps
            :: tl Planner2.wifi_toggle_steps).
    cbn [map]. rewrite Hrest. f_equal.
    unfold _analyze_subgoal, as_subgoal. cbn [hd Planner2.wifi_toggle_steps
      sg_action sg_action_type sg_description
      Planner2.action Planner2.action_type Planner2.description Ui.get_str].
    cbv zeta.
    change (String.eqb (PyStr.lower "navigation") "navigation") with true.
    cbn [orb]. cbv iota. unfold _plan_navigation_action.
    change (PyStr.contains "settings" (PyStr.lower "open_settings_app")) with true.
    cbn [orb]. cbv iota.
    destruct (usable _); reflexivity.
  - repeat constructor.
  - intros error_type Hne. unfold Planner2.replan. cbv zeta.
    assert (Hneq : String.eqb match error_type with
                              | Some t => t
                              | None => "unknown"
                              end "element_not_found" = false).
    { destruct error_type as [t |]; [| reflexivity].
      apply String.eqb_neq. intros ->. now apply Hne. }
    rewrite Hneq. reflexivity.
Qed.

End PlannableSteps.
